(** * LLM-Powered BPM Lifecycle: a shallow embedding of [app.py]

    The local logic of the application lives in three helper functions
    ([extract_tasks_from_text], [generate_enhanced_bpmn_xml],
    [create_enhanced_graph]) and in the five-stage orchestration of [main].
    This file embeds them and proves the properties stated about them.

    Python strings are sequences of Unicode code points; they are modelled
    as lists of code points ([list N]), so that [len], slicing and the
    non-ASCII bullet marker U+2022 behave as they do in Python. *)

From Stdlib Require Import NArith Ascii String DecimalString DecimalNat.
From stdpp Require Import base list strings gmap.

Local Open Scope N_scope.
Set Warnings "-register-all".

Abbreviation char := N (only parsing).
Abbreviation str := (list N) (only parsing).

(** ** Python string primitives *)

Module Py.

(** An ASCII literal of the source, as a sequence of code points. *)
Definition lit (s : string) : str :=
  map N_of_ascii (list_ascii_of_string s).

(** [str.isspace] on one code point: the fixed list of CPython's
    [_PyUnicode_IsWhitespace].  It is the set used by [str.strip()]
    without argument and by [\s] in [re] on [str] patterns. *)
Definition isspace (c : char) : bool :=
  ((0x09 <=? c) && (c <=? 0x0D)) || ((0x1C <=? c) && (c <=? 0x20))
  || (c =? 0x85) || (c =? 0xA0) || (c =? 0x1680)
  || ((0x2000 <=? c) && (c <=? 0x200A))
  || (c =? 0x2028) || (c =? 0x2029) || (c =? 0x202F) || (c =? 0x205F)
  || (c =? 0x3000).

(** [\d] of [re] on [str] patterns is [Py_UNICODE_ISDECIMAL] (category Nd).
    On ASCII that is ['0'..'9']; beyond ASCII the table depends on the
    Unicode version of the interpreter and is the parameter [nd]. *)
Definition isdecimal (nd : char -> bool) (c : char) : bool :=
  if c <? 128 then (0x30 <=? c) && (c <=? 0x39) else nd c.

Definition newline : char := 0x0A.

(** [s.lstrip()], [s.rstrip()], [s.strip()]. *)
Fixpoint lstrip (s : str) : str :=
  match s with
  | c :: s' => if isspace c then lstrip s' else s
  | [] => []
  end.

Fixpoint rstrip (s : str) : str :=
  match s with
  | c :: s' =>
      match rstrip s' with
      | [] => if isspace c then [] else [c]
      | r => c :: r
      end
  | [] => []
  end.

Definition strip (s : str) : str := rstrip (lstrip s).

(** [s.split('\n')]: never empty, [''.split('\n') == ['']]. *)
Fixpoint split_nl (s : str) : list str :=
  match s with
  | [] => [[]]
  | c :: s' =>
      if c =? newline then [] :: split_nl s'
      else match split_nl s' with
           | l :: ls => (c :: l) :: ls
           | [] => [[c]]
           end
  end.

(** [s.startswith(p)] and [s.startswith((p1, ..., pn))]. *)
Fixpoint startswith (s p : str) : bool :=
  match p, s with
  | [], _ => true
  | a :: p', b :: s' => (a =? b) && startswith s' p'
  | _ :: _, [] => false
  end.

Definition startswith_any (s : str) (ps : list str) : bool :=
  existsb (startswith s) ps.

(** [s.endswith(p)]. *)
Definition endswith (s p : str) : bool :=
  startswith (rev s) (rev p).

(** Truthiness of a string or list: [if s], [if not s]. *)
Definition truthy {A} (l : list A) : bool :=
  match l with [] => false | _ :: _ => true end.

(** [str(n)] / [f"{n}"] for a non-negative integer. *)
Definition str_of_nat (n : nat) : str :=
  lit (NilEmpty.string_of_uint (Nat.to_uint n)).

(** [for i, x in enumerate(l)]. *)
Definition enumerate {A} (l : list A) : list (nat * A) :=
  zip (seq 0 (length l)) l.

(** [s[a:b]] for [0 <= a], [0 <= b]. *)
Definition slice (s : str) (a b : nat) : str :=
  take (b - a) (drop a s).

End Py.

(** ** The fragment of [re] used by the extractor

    A backtracking matcher in the style of CPython's [sre]: the pattern is a
    sequence of nodes, repetition is greedy and gives characters back one at
    a time when the rest of the pattern fails, and the first successful
    path is the match. *)

Module Re.

Inductive cclass :=
| CDigit                 (* \d *)
| CSpace                 (* \s *)
| CAny                   (* .  (no DOTALL: anything but a newline) *)
| CLit (c : char)        (* an escaped or plain literal *)
| CSet (cs : list char). (* [...] *)

Inductive node :=
| Bol                    (* ^ *)
| Eol                    (* $ *)
| One (c : cclass)
| Star (c : cclass)      (* c* *)
| Open                   (* "(" of group 1 *)
| Close.                 (* ")" of group 1 *)

(** [c+] is [cc*]. *)
Definition Plus (c : cclass) : list node := [One c; Star c].

Record mstate := MState {
  m_pos : nat;                  (* index of the next character *)
  m_mark : nat;                 (* where group 1 was opened *)
  m_span : option (nat * nat)   (* span of group 1 once closed *)
}.

Definition advance (st : mstate) : mstate :=
  MState (S (m_pos st)) (m_mark st) (m_span st).
Definition set_mark (st : mstate) : mstate :=
  MState (m_pos st) (m_pos st) (m_span st).
Definition set_span (st : mstate) : mstate :=
  MState (m_pos st) (m_mark st) (Some (m_mark st, m_pos st)).

Section Matcher.
Variable nd : char -> bool.

Definition in_class (k : cclass) (c : char) : bool :=
  match k with
  | CDigit => Py.isdecimal nd c
  | CSpace => Py.isspace c
  | CAny => negb (c =? Py.newline)
  | CLit a => c =? a
  | CSet cs => existsb (N.eqb c) cs
  end.

(** [sre_match pat s st]: match [pat] against the remaining input [s]. *)
Fixpoint sre_match (pat : list node) : str -> mstate -> option mstate :=
  match pat with
  | [] => fun _ st => Some st
  | Bol :: pat' => fun s st =>
      if Nat.eqb (m_pos st) 0 then sre_match pat' s st else None
  | Eol :: pat' => fun s st =>
      match s with
      | [] => sre_match pat' s st
      | [c] => if c =? Py.newline then sre_match pat' s st else None
      | _ => None
      end
  | One k :: pat' => fun s st =>
      match s with
      | c :: s' => if in_class k c then sre_match pat' s' (advance st) else None
      | [] => None
      end
  | Star k :: pat' =>
      fix star (s : str) (st : mstate) : option mstate :=
        match s with
        | c :: s' =>
            if in_class k c then
              match star s' (advance st) with
              | Some r => Some r
              | None => sre_match pat' s st
              end
            else sre_match pat' s st
        | [] => sre_match pat' s st
        end
  | Open :: pat' => fun s st => sre_match pat' s (set_mark st)
  | Close :: pat' => fun s st => sre_match pat' s (set_span st)
  end.

(** A match object: the subject string and the span of group 1. *)
Record match_obj := MatchObj { mo_string : str; mo_span : option (nat * nat) }.

(** [re.match(pat, s)]. *)
Definition re_match (pat : list node) (s : str) : option match_obj :=
  match sre_match pat s (MState 0 0 None) with
  | Some st => Some (MatchObj s (m_span st))
  | None => None
  end.

(** [m.group(1)]; [None] when the group took no part in the match. *)
Definition group1 (m : match_obj) : option str :=
  match mo_span m with
  | Some (a, b) => Some (Py.slice (mo_string m) a b)
  | None => None
  end.
End Matcher.

End Re.

(** ** [extract_tasks_from_text] *)

Section Extractor.
Variable nd : char -> bool.

Definition dot : char := 0x2E.
Definition bullet_markers : list char := [0x2D; 0x2022; 0x2A]. (* - • * *)

(** [r'^\d+\.\s*(.+)$'] *)
Definition numbered_pattern : list Re.node :=
  [Re.Bol] ++ Re.Plus Re.CDigit ++ [Re.One (Re.CLit dot); Re.Star Re.CSpace]
  ++ [Re.Open] ++ Re.Plus Re.CAny ++ [Re.Close; Re.Eol].

(** [r'^[-•*]\s*(.+)$'] *)
Definition bulleted_pattern : list Re.node :=
  [Re.Bol; Re.One (Re.CSet bullet_markers); Re.Star Re.CSpace]
  ++ [Re.Open] ++ Re.Plus Re.CAny ++ [Re.Close; Re.Eol].

Definition filler_prefixes : list str :=
  [Py.lit "The"; Py.lit "This"; Py.lit "Here"; Py.lit "Below"].

(** [tasks.append(match.group(1).strip())].  A match without group 1 would
    make [.strip()] raise; both patterns close the group on every path
    (lemma [extract_group_closed]), so that branch leaves [tasks] alone. *)
Definition append_group (tasks : list str) (m : Re.match_obj) : list str :=
  match Re.group1 m with
  | Some g => tasks ++ [Py.strip g]
  | None => tasks
  end.

(** One iteration of the [for line in lines] loop. *)
Definition extract_line (tasks : list str) (line : str) : list str :=
  let line := Py.strip line in
  if negb (Py.truthy line) then tasks
  else
    match Re.re_match nd numbered_pattern line with
    | Some m => append_group tasks m
    | None =>
        match Re.re_match nd bulleted_pattern line with
        | Some m => append_group tasks m
        | None =>
            if (10 <? length line)%nat
               && negb (Py.startswith_any line filler_prefixes)
            then tasks ++ [line]
            else tasks
        end
    end.

Definition extract_tasks_from_text (text : str) : list str :=
  let lines := Py.split_nl (Py.strip text) in
  let tasks := fold_left extract_line lines [] in
  if Py.truthy tasks then tasks
  else map Py.strip
         (List.filter (fun line => Py.truthy (Py.strip line)) (Py.split_nl text)).

End Extractor.

(** ** [generate_enhanced_bpmn_xml] *)

Module Bpmn.

(** The values handed to [xmltodict.unparse]: strings, lists and dicts.
    A dict is an association list in insertion order, which is the order
    [unparse] emits. *)
Inductive pyval :=
| VStr (s : str)
| VList (l : list pyval)
| VDict (d : list (str * pyval)).

Abbreviation dict := (list (str * pyval)) (only parsing).

Fixpoint dict_get (d : dict) (k : str) : option pyval :=
  match d with
  | [] => None
  | (k', v) :: d' => if decide (k' = k) then Some v else dict_get d' k
  end.

(** [d[k] = v]: overwrite in place, or append a new key. *)
Fixpoint dict_set (d : dict) (k : str) (v : pyval) : dict :=
  match d with
  | [] => [(k, v)]
  | (k', v') :: d' =>
      if decide (k' = k) then (k, v) :: d' else (k', v') :: dict_set d' k v
  end.

Definition dict_has (d : dict) (k : str) : bool :=
  match dict_get d k with Some _ => true | None => false end.

Record element := Element { tag : str; attrs : pyval }.
Record flow := Flow { flow_id : str; sourceRef : str; targetRef : str }.

(** [task[:50] + ('...' if len(task) > 50 else '')] *)
Definition task_name (task : str) : str :=
  take 50 task ++ (if (50 <? length task)%nat then Py.lit "..." else Py.lit "").

(** [f"Task_{i+1}"], [f"Flow_{i+1}"] *)
Definition task_id (i : nat) : str := Py.lit "Task_" ++ Py.str_of_nat (i + 1).
Definition flow_name (i : nat) : str := Py.lit "Flow_" ++ Py.str_of_nat (i + 1).

Definition start_id : str := Py.lit "StartEvent_1".
Definition end_id : str := Py.lit "EndEvent_1".

Definition start_element : element :=
  Element (Py.lit "startEvent")
          (VDict [(Py.lit "id", VStr start_id); (Py.lit "name", VStr (Py.lit "Start"))]).

Definition end_element : element :=
  Element (Py.lit "endEvent")
          (VDict [(Py.lit "id", VStr end_id); (Py.lit "name", VStr (Py.lit "End"))]).

(** Body of the first [for i, task in enumerate(tasks)] loop. *)
Definition add_task (elements : list element) (it : nat * str) : list element :=
  let '(i, task) := it in
  elements ++ [Element (Py.lit "task")
                       (VDict [(Py.lit "id", VStr (task_id i));
                               (Py.lit "name", VStr (task_name task))])].

(** Body of the second loop; the state is [(flows, prev_id)]. *)
Definition add_flow (acc : list flow * str) (it : nat * str) : list flow * str :=
  let '(flows, prev_id) := acc in
  let '(i, _) := it in
  (flows ++ [Flow (flow_name i) prev_id (task_id i)], task_id i).

(** Body of [for element in elements]: create the list under the tag on
    first use, then append.  The tags never collide with the string-valued
    ['@...'] keys, so the last branch ([.append] on a string) is not taken. *)
Definition add_element (process : dict) (e : element) : dict :=
  let process :=
    if negb (dict_has process (tag e))
    then dict_set process (tag e) (VList [])
    else process in
  match dict_get process (tag e) with
  | Some (VList l) => dict_set process (tag e) (VList (l ++ [attrs e]))
  | _ => process
  end.

Definition flow_dict (f : flow) : pyval :=
  VDict [(Py.lit "@id", VStr (flow_id f));
         (Py.lit "@sourceRef", VStr (sourceRef f));
         (Py.lit "@targetRef", VStr (targetRef f))].

(** The value returned: either the empty string or the serialisation of a
    document.  [xmltodict.unparse] is the external serialiser; its result
    is represented by the document it is applied to. *)
Inductive xml_text :=
| EmptyText
| Unparse (doc : pyval).

Definition generate_enhanced_bpmn_xml (tasks : list str) (process_name : str)
  : xml_text :=
  if negb (Py.truthy tasks) then EmptyText
  else
    let elements := [start_element] in
    let elements := fold_left add_task (Py.enumerate tasks) elements in
    let elements := elements ++ [end_element] in
    let '(flows, prev_id) := fold_left add_flow (Py.enumerate tasks) ([], start_id) in
    let flows := flows ++ [Flow (flow_name (length tasks)) prev_id end_id] in
    let process :=
      [(Py.lit "@id", VStr (Py.lit "Process_1"));
       (Py.lit "@isExecutable", VStr (Py.lit "true"));
       (Py.lit "@name", VStr process_name)] in
    let process := fold_left add_element elements process in
    let process := dict_set process (Py.lit "sequenceFlow") (VList []) in
    let process :=
      fold_left
        (fun process f =>
           match dict_get process (Py.lit "sequenceFlow") with
           | Some (VList l) =>
               dict_set process (Py.lit "sequenceFlow") (VList (l ++ [flow_dict f]))
           | _ => process
           end)
        flows process in
    Unparse
      (VDict
         [(Py.lit "definitions",
           VDict
             [(Py.lit "@xmlns", VStr (Py.lit "http://www.omg.org/spec/BPMN/20100524/MODEL"));
              (Py.lit "@xmlns:xsi", VStr (Py.lit "http://www.w3.org/2001/XMLSchema-instance"));
              (Py.lit "@targetNamespace", VStr (Py.lit "http://bpmn.io/schema/bpmn"));
              (Py.lit "process", VDict process)])]).

(** Reading a document back: the entries stored under a tag of the
    process.  The empty string holds no entry. *)
Definition process_of (x : xml_text) : option pyval :=
  match x with
  | EmptyText => None
  | Unparse (VDict top) =>
      match dict_get top (Py.lit "definitions") with
      | Some (VDict defs) => dict_get defs (Py.lit "process")
      | _ => None
      end
  | Unparse _ => None
  end.

Definition entries (x : xml_text) (tag : str) : list pyval :=
  match process_of x with
  | Some (VDict process) =>
      match dict_get process tag with
      | Some (VList l) => l
      | _ => []
      end
  | _ => []
  end.

Definition task_entries (x : xml_text) : list pyval := entries x (Py.lit "task").
Definition flow_entries (x : xml_text) : list pyval := entries x (Py.lit "sequenceFlow").
Definition start_entries (x : xml_text) : list pyval := entries x (Py.lit "startEvent").
Definition end_entries (x : xml_text) : list pyval := entries x (Py.lit "endEvent").

End Bpmn.

(** ** [create_enhanced_graph] *)

Module Graphviz.

(** A [graphviz.Digraph] is its comment and its body, the statements in
    the order the calls made them. *)
Inductive stmt :=
| AttrStmt (kw : option str) (attrs : list (str * str))     (* dot.attr(kw, **attrs) *)
| NodeStmt (name label : str) (attrs : list (str * str))    (* dot.node(name, label, **attrs) *)
| EdgeStmt (tail_name head_name : str).                     (* dot.edge(tail, head) *)

Record Digraph := MkDigraph { comment : str; body : list stmt }.

Definition attr (kw : option str) (attrs : list (str * str)) (dot : Digraph) : Digraph :=
  MkDigraph (comment dot) (body dot ++ [AttrStmt kw attrs]).
Definition node (name label : str) (attrs : list (str * str)) (dot : Digraph) : Digraph :=
  MkDigraph (comment dot) (body dot ++ [NodeStmt name label attrs]).
Definition edge (tail_name head_name : str) (dot : Digraph) : Digraph :=
  MkDigraph (comment dot) (body dot ++ [EdgeStmt tail_name head_name]).

Definition is_node (s : stmt) : bool :=
  match s with NodeStmt _ _ _ => true | _ => false end.
Definition is_edge (s : stmt) : bool :=
  match s with EdgeStmt _ _ => true | _ => false end.

Definition nodes (dot : Digraph) : list stmt := List.filter is_node (body dot).
Definition edges (dot : Digraph) : list stmt := List.filter is_edge (body dot).

(** [task[:30] + '...' if len(task) > 30 else task] *)
Definition display_name (task : str) : str :=
  if (30 <? length task)%nat then take 30 task ++ Py.lit "..." else task.

(** [f'task_{i}'] *)
Definition node_id (i : nat) : str := Py.lit "task_" ++ Py.str_of_nat i.

(** Body of the [for i, task in enumerate(tasks)] loop; the state is
    [(dot, prev_node)]. *)
Definition add_task_node (acc : Digraph * str) (it : nat * str) : Digraph * str :=
  let '(dot, prev_node) := acc in
  let '(i, task) := it in
  let dot := node (node_id i) (display_name task) [] dot in
  let dot := edge prev_node (node_id i) dot in
  (dot, node_id i).

Definition create_enhanced_graph (tasks : list str) (title : str) : Digraph :=
  let dot := MkDigraph title [] in
  let dot := attr None [(Py.lit "rankdir", Py.lit "LR"); (Py.lit "size", Py.lit "12,8")] dot in
  let dot := attr (Some (Py.lit "node"))
                  [(Py.lit "shape", Py.lit "box");
                   (Py.lit "style", Py.lit "rounded,filled");
                   (Py.lit "fillcolor", Py.lit "lightblue")] dot in
  let dot := node (Py.lit "start") (Py.lit "START")
                  [(Py.lit "shape", Py.lit "circle"); (Py.lit "fillcolor", Py.lit "lightgreen")]
                  dot in
  let '(dot, prev_node) :=
    fold_left add_task_node (Py.enumerate tasks) (dot, Py.lit "start") in
  let dot := node (Py.lit "end") (Py.lit "END")
                  [(Py.lit "shape", Py.lit "circle"); (Py.lit "fillcolor", Py.lit "lightcoral")]
                  dot in
  if Py.truthy tasks then edge prev_node (Py.lit "end") dot else dot.

End Graphviz.

(** ** The five-stage orchestration of [main] *)

Module App.

Inductive stage := Identification | Discovery | Analysis | Redesign | Monitoring.

(** What a call of the external model does when nothing interrupts it:
    return text, or raise an exception that is an instance of
    [Exception]. *)
Inductive reply :=
| Returned (text : str)
| Raised (msg : str).   (* [str(e)] of the exception *)

(** A call can also end in an exception that is not an instance of
    [Exception] ([KeyboardInterrupt], [SystemExit], the stop and rerun
    signals of the page server): [except Exception] does not catch it. *)
Inductive outcome :=
| Reply (r : reply)
| Escapes (msg : str).

(** The exceptions of a run, by what [except Exception] makes of them;
    [msg] is [str(e)]. *)
Inductive exn :=
| Exception (msg : str)        (* an instance of [Exception] *)
| BaseException (msg : str).   (* any other exception *)

(** The attribute [template] of a prompt.  The five prompts are made by
    [ChatPromptTemplate.from_template], so they are objects of one class:
    either the class has the attribute, and its value is the text of the
    template, or reading it raises [AttributeError], an [Exception], for
    every prompt. *)
Inductive attribute :=
| Present
| Missing (msg : str).   (* [str(e)] of the [AttributeError] *)

Abbreviation kwargs := (list (string * str)) (only parsing).

(** What the user sees, in order, and the calls made to the model.
    Layout calls (spinner, columns, expander, tabs) leave no event.  A
    widget call shows its argument and returns. *)
Inductive event :=
| Header (text : str)                       (* st.header *)
| Subheader (text : str)                    (* st.subheader *)
| Markdown (text : str)                     (* st.markdown *)
| PromptCode (s : stage)                    (* st.code(<prompt of s>.template) *)
| Run (s : stage) (args : kwargs)           (* <chain of s>.run ( **args ) *)
| GraphvizChart (g : Graphviz.Digraph)      (* st.graphviz_chart *)
| DownloadButton (label : str) (data : Bpmn.xml_text) (file_name : str)
| XmlCode (data : Bpmn.xml_text)            (* st.code(xml, language="xml") *)
| Error (msg : str)                         (* st.error *)
| Warning (msg : str)                       (* st.warning *)
| Success (msg : str)                       (* st.success *)
| Balloons.                                 (* st.balloons *)

(** The state threaded through [main]: the page so far and the local
    variables that the stage gates look up with ['name' in locals()], the
    five [*_result] names.  The other locals of [main] are never looked up
    by name and are let-bound below. *)
Record state := State { ui : list event; locals : gmap string (list N) }.

(** Computations that may raise: [inr e] is the exception.  State
    changes made before the exception stay. *)
Definition M (A : Type) : Type := state -> (A + exn) * state.

Definition ret {A} (a : A) : M A := fun st => (inl a, st).
Definition raise {A} (e : exn) : M A := fun st => (inr e, st).
Definition bind {A B} (m : M A) (k : A -> M B) : M B :=
  fun st =>
    match m st with
    | (inl a, st') => k a st'
    | (inr e, st') => (inr e, st')
    end.

Declare Scope app_scope.
Delimit Scope app_scope with app.
Notation "x <- m ;; k" := (bind m (fun x => k))
  (at level 100, m at next level, k at level 200, only parsing, right associativity) : app_scope.
Notation "m ;; k" := (bind m (fun _ => k))
  (at level 100, k at level 200, only parsing, right associativity) : app_scope.
Local Open Scope app_scope.

Definition emit (e : event) : M unit :=
  fun st => (inl tt, State (ui st ++ [e]) (locals st)).

(** [name = v] *)
Definition store (name : string) (v : str) : M unit :=
  fun st => (inl tt, State (ui st) (<[name := v]> (locals st))).

(** [str(e)] of the [UnboundLocalError] raised by reading a local that is
    not bound.  The wording is the interpreter's; no run produces it
    (lemma [summary_pressed] lists every error of a run). *)
Definition unbound_local (name : string) : str :=
  Py.lit "local variable '" ++ Py.lit name ++ Py.lit "' referenced before assignment".

(** Reading a local. *)
Definition load (name : string) : M str :=
  fun st =>
    match locals st !! name with
    | Some v => (inl v, st)
    | None => (inr (Exception (unbound_local name)), st)
    end.

(** ['name' in locals()] *)
Definition in_locals (name : string) : M bool :=
  fun st => (inl (bool_decide (is_Some (locals st !! name))), st).

(** [try: body / except Exception as e: handler(str(e))]: an exception
    that is not an instance of [Exception] goes through. *)
Definition try_except (body : M unit) (handler : str -> M unit) : M unit :=
  fun st =>
    match body st with
    | (inl _, st') => (inl tt, st')
    | (inr (Exception e), st') => handler e st'
    | (inr (BaseException e), st') => (inr (BaseException e), st')
    end.

Definition when (b : bool) (m : M unit) : M unit := if b then m else ret tt.

Definition emoji (cp : N) (s : string) : str := cp :: Py.lit s.

Section Main.
(** The tables of the interpreter. *)
Variable nd : char -> bool.          (* non-ASCII decimal digits *)
Variable str_lower : str -> str.     (* [str.lower] *)
(** The class of the prompts. *)
Variable template : attribute.
(** The external model behind the five chains. *)
Variable llm : stage -> kwargs -> outcome.
(** The widgets. *)
Variables show_xml show_prompts : bool.
Variables process_description process_name : str.

(** [chain.run ( **args )]: the call is made, then returns or raises. *)
Definition chain_run (s : stage) (args : kwargs) : M str :=
  emit (Run s args);;
  match llm s args with
  | Reply (Returned text) => ret text
  | Reply (Raised e) => raise (Exception e)
  | Escapes e => raise (BaseException e)
  end.

(** [with st.expander("View Prompt"): st.code(<prompt of s>.template)]:
    the attribute is read before [st.code] is called. *)
Definition view_prompt (s : stage) : M unit :=
  match template with
  | Present => emit (PromptCode s)
  | Missing e => raise (Exception e)
  end.

(** [process_name.lower().replace(' ', '_')] *)
Definition file_stem : str :=
  map (fun c => if c =? 0x20 then 0x5F else c) (str_lower process_name).

(** The right-hand column of the discovery and redesign tabs. *)
Definition show_flow (tasks : list str) (title suffix label file_suffix : string) : M unit :=
  when (Py.truthy tasks)
    (emit (GraphvizChart (Graphviz.create_enhanced_graph tasks (Py.lit title)));;
     let xml := Bpmn.generate_enhanced_bpmn_xml tasks (process_name ++ Py.lit suffix) in
     emit (DownloadButton (emoji 0x1F4C4 label) xml (file_stem ++ Py.lit file_suffix));;
     when show_xml (emit (XmlCode xml))).

Definition tab1 : M unit :=
  emit (Header (emoji 0x1F3AF " Process Identification"));;
  emit (Markdown (Py.lit "*Understanding the business context and value proposition*"));;
  try_except
    (when show_prompts (view_prompt Identification);;
     identification_result <- chain_run Identification [("description"%string, process_description)];;
     store "identification_result" identification_result;;
     emit (Markdown identification_result))
    (fun e => emit (Error (Py.lit "Error in identification stage: " ++ e))).

Definition tab2 : M unit :=
  emit (Header (emoji 0x1F50D " Process Discovery"));;
  emit (Markdown (Py.lit "*Mapping out the current state process flow*"));;
  try_except
    (when show_prompts (view_prompt Discovery);;
     discovery_result <- chain_run Discovery [("description"%string, process_description)];;
     store "discovery_result" discovery_result;;
     let current_tasks := extract_tasks_from_text nd discovery_result in
     emit (Subheader (Py.lit "Process Steps"));;
     emit (Markdown discovery_result);;
     emit (Subheader (Py.lit "As-Is Process Flow"));;
     show_flow current_tasks "Current Process" " - As-Is" " Download As-Is BPMN" "_as_is.bpmn")
    (fun e => emit (Error (Py.lit "Error in discovery stage: " ++ e))).

Definition tab3 : M unit :=
  emit (Header (emoji 0x1F4CA " Process Analysis"));;
  emit (Markdown (Py.lit "*Identifying bottlenecks, risks, and improvement opportunities*"));;
  bound <- in_locals "discovery_result";;
  if bound : bool then
    try_except
      (when show_prompts (view_prompt Analysis);;
       discovery_result <- load "discovery_result";;
       analysis_result <- chain_run Analysis [("steps"%string, discovery_result)];;
       store "analysis_result" analysis_result;;
       emit (Markdown analysis_result))
      (fun e => emit (Error (Py.lit "Error in analysis stage: " ++ e)))
  else emit (Warning (Py.lit "Please complete the Discovery stage first.")).

Definition tab4 : M unit :=
  emit (Header (emoji 0x1F504 " Process Redesign"));;
  emit (Markdown (Py.lit "*Creating an optimized future state process*"));;
  bound <- in_locals "analysis_result";;
  if bound : bool then
    try_except
      (when show_prompts (view_prompt Redesign);;
       discovery_result <- load "discovery_result";;
       analysis_result <- load "analysis_result";;
       redesign_result <- chain_run Redesign [("steps"%string, discovery_result);
                                              ("analysis"%string, analysis_result)];;
       store "redesign_result" redesign_result;;
       let redesigned_tasks := extract_tasks_from_text nd redesign_result in
       emit (Subheader (Py.lit "Redesigned Process"));;
       emit (Markdown redesign_result);;
       emit (Subheader (Py.lit "To-Be Process Flow"));;
       show_flow redesigned_tasks "Redesigned Process" " - To-Be" " Download To-Be BPMN" "_to_be.bpmn")
      (fun e => emit (Error (Py.lit "Error in redesign stage: " ++ e)))
  else emit (Warning (Py.lit "Please complete the Analysis stage first.")).

Definition tab5 : M unit :=
  emit (Header (emoji 0x1F4C8 " Process Monitoring & Optimization"));;
  emit (Markdown (Py.lit "*Establishing KPIs and continuous improvement framework*"));;
  bound <- in_locals "redesign_result";;
  if bound : bool then
    try_except
      (when show_prompts (view_prompt Monitoring);;
       redesign_result <- load "redesign_result";;
       monitoring_result <- chain_run Monitoring [("redesigned_process"%string, redesign_result)];;
       store "monitoring_result" monitoring_result;;
       emit (Markdown monitoring_result))
      (fun e => emit (Error (Py.lit "Error in monitoring stage: " ++ e)))
  else emit (Warning (Py.lit "Please complete the Redesign stage first.")).

(** The body of [if st.button("Run Complete BPM Analysis")]. *)
Definition run_complete_analysis : M unit :=
  if negb (Py.truthy (Py.strip process_description))
  then emit (Error (Py.lit "Please provide a process description!"))
  else
    tab1;; tab2;; tab3;; tab4;; tab5;;
    emit (Success (emoji 0x2705 " Complete BPM Lifecycle Analysis Generated Successfully!"));;
    emit Balloons.

End Main.

(** A model none of whose calls ends in an exception outside
    [Exception]. *)
Definition of_replies (llm : stage -> kwargs -> reply) : stage -> kwargs -> outcome :=
  fun s args => Reply (llm s args).

(** One press of the button on a fresh page, with such a model: the page
    and the locals at the end. *)
Definition pressed (nd : char -> bool) (str_lower : str -> str) (template : attribute)
           (llm : stage -> kwargs -> reply) (show_xml show_prompts : bool)
           (process_description process_name : str) : state :=
  snd (run_complete_analysis nd str_lower template (of_replies llm) show_xml show_prompts
         process_description process_name (State [] ∅)).

(** The local that holds the output of a stage, and the stage whose output
    a stage needs before it is attempted. *)
Definition result_var (s : stage) : string :=
  match s with
  | Identification => "identification_result"
  | Discovery => "discovery_result"
  | Analysis => "analysis_result"
  | Redesign => "redesign_result"
  | Monitoring => "monitoring_result"
  end.

Definition attempted (s : stage) (page : list event) : Prop :=
  exists args, Run s args ∈ page.

End App.

(** ** [BPMStageTemplates]: the prompt of each stage *)

(** ['\n'.join(lines)] *)
Fixpoint join_lines (lines : list (list N)) : list N :=
  match lines with
  | [] => []
  | [l] => l
  | l :: ls => l ++ Py.newline :: join_lines ls
  end.

Module BPMStageTemplates.

(** [BPMStageTemplates.identification_prompt] *)
Definition identification_prompt : str :=
  join_lines
    [Py.lit "As a Business Process Management expert, analyze this business process description:";
     [];
     Py.lit "            {description}";
     [];
     Py.lit "            Provide a comprehensive analysis covering:";
     Py.lit "            1. **Business Purpose**: What is the core objective of this process?";
     Py.lit "            2. **Key Stakeholders**: Who are the main participants and beneficiaries?";
     Py.lit "            3. **Current Pain Points**: What inefficiencies, bottlenecks, or problems do you identify?";
     Py.lit "            4. **Business Value**: What value does this process deliver to the organization?";
     Py.lit "            5. **Improvement Potential**: What are the key areas for optimization?";
     [];
     Py.lit "            Keep your response structured and professional."].

(** [BPMStageTemplates.discovery_prompt] *)
Definition discovery_prompt : str :=
  join_lines
    [Py.lit "As a Business Process Analyst, break down this process into clear, sequential steps:";
     [];
     Py.lit "            {description}";
     [];
     Py.lit "            Requirements:";
     Py.lit "            - Extract the main tasks/activities in chronological order";
     Py.lit "            - Use clear, action-oriented language";
     Py.lit "            - Include decision points where applicable";
     Py.lit "            - Focus on " ++ [0x22] ++ Py.lit "what" ++ [0x22] ++ Py.lit " is done, not " ++ [0x22] ++ Py.lit "how" ++ [0x22];
     Py.lit "            - Number each step for clarity";
     [];
     Py.lit "            Format your response as a numbered list of process steps."].

(** [BPMStageTemplates.analysis_prompt] *)
Definition analysis_prompt : str :=
  join_lines
    [Py.lit "As a Process Improvement Consultant, analyze these process steps for optimization opportunities:";
     [];
     Py.lit "            {steps}";
     [];
     Py.lit "            Provide analysis on:";
     Py.lit "            1. **Bottlenecks**: Which steps cause delays or capacity constraints?";
     Py.lit "            2. **Redundancies**: Are there duplicate or unnecessary activities?";
     Py.lit "            3. **Risk Points**: Where are the highest risks of errors or failures?";
     Py.lit "            4. **Automation Opportunities**: Which steps could be automated?";
     Py.lit "            5. **Resource Utilization**: Are resources being used efficiently?";
     Py.lit "            6. **Quality Issues**: Where might quality problems occur?";
     [];
     Py.lit "            Be specific and actionable in your recommendations."].

(** [BPMStageTemplates.redesign_prompt] *)
Definition redesign_prompt : str :=
  join_lines
    [Py.lit "As a Digital Transformation Specialist, redesign this process to be more efficient:";
     [];
     Py.lit "            Original Process Steps:";
     Py.lit "            {steps}";
     [];
     Py.lit "            Analysis Findings:";
     Py.lit "            {analysis}";
     [];
     Py.lit "            Create an optimized process that:";
     Py.lit "            - Eliminates waste and redundancy";
     Py.lit "            - Introduces automation where beneficial";
     Py.lit "            - Improves parallel processing opportunities";
     Py.lit "            - Reduces handoffs and delays";
     Py.lit "            - Enhances quality and consistency";
     [];
     Py.lit "            Provide the redesigned process as a numbered list of steps, followed by a brief explanation of key improvements made."].

(** [BPMStageTemplates.monitoring_prompt] *)
Definition monitoring_prompt : str :=
  join_lines
    [Py.lit "As a Process Excellence Manager, design a monitoring and optimization framework for this redesigned process:";
     [];
     Py.lit "            Redesigned Process:";
     Py.lit "            {redesigned_process}";
     [];
     Py.lit "            Provide:";
     Py.lit "            1. **Key Performance Indicators (KPIs)**: 5-7 metrics to track process performance";
     Py.lit "            2. **Target Values**: Specific targets for each KPI";
     Py.lit "            3. **Alert Thresholds**: When to trigger alerts or interventions";
     Py.lit "            4. **Monitoring Frequency**: How often to measure each KPI";
     Py.lit "            5. **Continuous Improvement**: Suggestions for ongoing optimization";
     Py.lit "            6. **Technology Enablers**: Tools or systems that could support monitoring";
     [];
     Py.lit "            Focus on measurable, actionable metrics that drive business value."].

(** The template behind the chain of a stage. *)
Definition template (s : App.stage) : str :=
  match s with
  | App.Identification => identification_prompt
  | App.Discovery => discovery_prompt
  | App.Analysis => analysis_prompt
  | App.Redesign => redesign_prompt
  | App.Monitoring => monitoring_prompt
  end.

(** The replacement fields of a template, in order: the names between an
    opening and the next closing brace.  The templates hold no doubled
    brace, conversion or format spec. *)
Fixpoint fields (s : str) (cur : option (list N)) : list (list N) :=
  match s with
  | [] => []
  | c :: s' =>
      match cur with
      | None => if c =? 0x7B then fields s' (Some []) else fields s' None
      | Some name =>
          if c =? 0x7D then name :: fields s' None
          else fields s' (Some (name ++ [c]))
      end
  end.

Definition input_variables (template : str) : list str := fields template None.

End BPMStageTemplates.

(** ** [init_llm], [main] and [show_footer] *)

Module Script.

Import App.

(** The introduction under the title. *)
Definition intro_text : str :=
  join_lines
    [[];
     Py.lit "    This application demonstrates the potential of Large Language Models in Business Process Management (BPM) ";
     Py.lit "    across all five key stages of the BPM lifecycle - with zero-shot learning and no custom training.";
     Py.lit "    "].

(** The help shown when no API key was entered. *)
Definition key_help_text : str :=
  join_lines
    [[];
     Py.lit "        **How to get your OpenAI API key:**";
     Py.lit "        1. Go to [OpenAI Platform](https://platform.openai.com/api-keys)";
     Py.lit "        2. Sign in to your account (or create one)";
     Py.lit "        3. Click " ++ [0x22] ++ Py.lit "Create new secret key" ++ [0x22];
     Py.lit "        4. Copy the key and paste it above";
     Py.lit "        ";
     Py.lit "        **Note**: Your API key is only used for this session and is not stored anywhere.";
     Py.lit "        "].

(** The footer. *)
Definition footer_html : str :=
  join_lines
    [[];
     Py.lit "    <div style='text-align: center; color: #666; font-size: 14px;'>";
     Py.lit "    " ++ [0x1F916] ++ Py.lit " <strong>LLM in BPM</strong> | Showcasing AI capabilities in Business Process Management<br>";
     Py.lit "    <em>Your API key is secure and only used for this session</em>";
     Py.lit "    </div>";
     Py.lit "    "].

(** The keys of [DEMO_SCENARIOS]. *)
Inductive scenario := Procurement | Research | Enrollment.

Definition scenario_key (k : scenario) : str :=
  match k with
  | Procurement => emoji 0x1F4E6 " Supply Chain Procurement"
  | Research => emoji 0x1F3EA " R&D new product or improvement to an existing one"
  | Enrollment => emoji 0x1F3E6 " University enrollment system"
  end.

(** The value of the scenario selectbox: ["Custom Input"] or a key. *)
Inductive choice := CustomInput | Demo (k : scenario).

(** What [ChatOpenAI(...)] does: give a client, whose calls are the model
    behind the five chains and return or raise an [Exception], or raise
    an [Exception] itself. *)
Inductive construction :=
| Constructed (llm : stage -> list (string * list N) -> reply)
| Failed (exn : str).

(** The page of the whole script: the events of the stages and what is
    shown around them.  Input widgets leave no item; their values are the
    parameters below. *)
Inductive item :=
| Title (text : str)                   (* st.title *)
| Info (text : str)                    (* st.info *)
| Divider                              (* st.divider *)
| Html (text : str)                    (* st.markdown(text, unsafe_allow_html=True) *)
| Connect (api_key model : str)        (* ChatOpenAI(openai_api_key=..., model_name=...) *)
| Sidebar (i : item)                   (* under [with st.sidebar] *)
| Ev (e : event).

Section Page.
(** The tables of the interpreter and the class of the prompts, as in
    [App]. *)
Variable nd : char -> bool.
Variable str_lower : str -> str.
Variable template : attribute.
(** The service. *)
Variable chat_openai : str -> str -> construction.
(** The widgets. *)
Variables api_key model_choice : str.
Variable scenario_choice : choice.
Variables show_xml show_prompts : bool.
Variable process_description : str.   (* the text area *)
Variable name_input : str.            (* the "Process Name" input *)
Variable button : bool.

(** [init_llm(api_key, model)]: what it shows and what it returns. *)
Definition init_llm (api_key model : str)
  : list item * option (stage -> list (string * list N) -> reply) :=
  if negb (Py.truthy api_key) then ([], None)
  else
    match chat_openai api_key model with
    | Constructed llm => ([Connect api_key model], Some llm)
    | Failed e =>
        ([Connect api_key model;
          Ev (Error (Py.lit "Error initializing OpenAI API: " ++ e))],
         None)
    end.

(** The sidebar; its selectbox and checkboxes are inputs. *)
Definition sidebar : list item :=
  [Sidebar (Ev (Header (0x2699 :: 0xFE0F :: Py.lit " Select Scenario")));
   Sidebar Divider;
   Sidebar (Ev (Markdown (Py.lit "**" ++ emoji 0x1F4A1 " Tips:**")));
   Sidebar (Ev (Markdown (Py.lit "- Use detailed process descriptions for better results")));
   Sidebar (Ev (Markdown (Py.lit "- GPT-4 provides more comprehensive analysis")));
   Sidebar (Ev (Markdown (Py.lit "- Download BPMN files to use in process modeling tools")))].

(** [process_name]: the input for a custom process, the key for a demo. *)
Definition process_name : str :=
  match scenario_choice with
  | CustomInput => name_input
  | Demo k => scenario_key k
  end.

(** [main()].  A client object is truthy, so [if not llm] is the test for
    [None].  The calls of the client return or raise an [Exception], so
    that no exception leaves the body of the button (lemma
    [run_stops_at_escape]). *)
Definition main : list item :=
  [Title (emoji 0x1F680 " LLM for BPM Lifecycle");
   Ev (Markdown intro_text);
   Info (emoji 0x1F511 " **Please provide your OpenAI API key to use this application**")]
  ++ if negb (Py.truthy api_key) then
       [Ev (Warning (0x26A0 :: 0xFE0F :: Py.lit " Please enter your OpenAI API key to continue."));
        Ev (Markdown key_help_text)]
     else
       let '(shown, llm) := init_llm api_key model_choice in
       shown
       ++ match llm with
          | None =>
              [Ev (Error (Py.lit "Failed to initialize OpenAI API. Please check your API key."))]
          | Some llm =>
              [Ev (Success (emoji 0x2705 " Successfully connected to OpenAI API using "
                            ++ model_choice));
               Divider]
              ++ sidebar
              ++ if button then
                   map Ev (ui (pressed nd str_lower template llm show_xml show_prompts
                                 process_description process_name))
                 else []
          end.

(** [show_footer()]. *)
Definition show_footer : list item := [Divider; Html footer_html].

(** The script: [main()] then [show_footer()]. *)
Definition script : list item := main ++ show_footer.

End Page.

End Script.

(** ** The extraction policy, as the specification words it

    A line is a line of the input with surrounding whitespace removed.  A
    numbered item is digits, a dot and text; a bulleted item is a marker and
    text; the text starts at the first character that is not whitespace. *)

Module Spec.

Fixpoint take_while (p : char -> bool) (s : str) : str :=
  match s with
  | c :: s' => if p c then c :: take_while p s' else []
  | [] => []
  end.

Fixpoint drop_while (p : char -> bool) (s : str) : str :=
  match s with
  | c :: s' => if p c then drop_while p s' else s
  | [] => []
  end.

Definition first_word (line : str) : str :=
  take_while (fun c => negb (Py.isspace c)) line.

Definition trailing_text (r : str) : option str :=
  match drop_while Py.isspace r with
  | [] => None
  | t => Some t
  end.

Section Policy.
Variable nd : char -> bool.

Definition numbered_item (line : str) : option str :=
  match take_while (Py.isdecimal nd) line, drop_while (Py.isdecimal nd) line with
  | _ :: _, c :: r => if c =? dot then trailing_text r else None
  | _, _ => None
  end.

Definition bulleted_item (line : str) : option str :=
  match line with
  | c :: r => if existsb (N.eqb c) bullet_markers then trailing_text r else None
  | [] => None
  end.

Definition substantial (line : str) : bool :=
  (10 <? length line)%nat && negb (Py.startswith_any line filler_prefixes).

Definition line_rule (line : str) : option str :=
  match numbered_item line with
  | Some t => Some t
  | None =>
      match bulleted_item line with
      | Some t => Some t
      | None => if substantial line then Some line else None
      end
  end.

Definition nonblank_lines (text : str) : list str :=
  List.filter Py.truthy (map Py.strip (Py.split_nl text)).

Definition extract (text : str) : list str :=
  match omap line_rule (nonblank_lines text) with
  | [] => nonblank_lines text
  | items => items
  end.
End Policy.

End Spec.

(** Predicates used in the statements below. *)

Definition no_newline (s : str) : Prop := Forall (fun c => c ≠ Py.newline) s.

(** A string that does not end in whitespace. *)
Definition right_clean (s : str) : Prop :=
  match last s with Some c => Py.isspace c = false | None => True end.

(** The first line of a text with its right end cleaned, and the
    non-blank lines after it; [view_cons] rebuilds that view when a
    character is put in front of the text. *)
Definition line_view (text : str) : str * list str :=
  match Py.split_nl text with
  | l :: ls => (Py.rstrip l, List.filter Py.truthy (map Py.strip ls))
  | [] => ([], [])
  end.

Definition view_cons (c : char) (v : str * list str) : str * list str :=
  if c =? Py.newline then ([], List.filter Py.truthy [Py.lstrip (fst v)] ++ snd v)
  else (match fst v with [] => if Py.isspace c then [] else [c] | r => c :: r end,
        snd v).

(** The nodes of the linear chain of a document with [n] tasks: the start
    event, the tasks in order, the end event. *)
Definition node_ref (k : nat) : str :=
  match k with
  | O => Bpmn.start_id
  | S i => Bpmn.task_id i
  end.

Definition chain_node (n k : nat) : str :=
  if (k <=? n)%nat then node_ref k else Bpmn.end_id.

(** The entry of task [i] in a document, the flow entering node [k + 1],
    and the string-valued keys a process dict starts with. *)
Definition task_entry (i : nat) (task : str) : Bpmn.pyval :=
  Bpmn.VDict [(Py.lit "id", Bpmn.VStr (Bpmn.task_id i));
              (Py.lit "name", Bpmn.VStr (Bpmn.task_name task))].

Definition chain_flow (n k : nat) : Bpmn.flow :=
  Bpmn.Flow (Bpmn.flow_name k) (chain_node n k) (chain_node n (S k)).

Definition process_head (process_name : str) : list (str * Bpmn.pyval) :=
  [(Py.lit "@id", Bpmn.VStr (Py.lit "Process_1"));
   (Py.lit "@isExecutable", Bpmn.VStr (Py.lit "true"));
   (Py.lit "@name", Bpmn.VStr process_name)].

(** What the claim about the document builder asks of the value built
    for a task list: one entry per task in list order, one flow more than
    tasks, and the flows linking start, tasks and end in one chain of
    distinct nodes. *)
Definition linear_chain_document (tasks : list str) (x : Bpmn.xml_text) : Prop :=
  let n := length tasks in
  Bpmn.task_entries x = imap task_entry tasks
  ∧ length (Bpmn.task_entries x) = n
  ∧ length (Bpmn.flow_entries x) = (n + 1)%nat
  ∧ Bpmn.flow_entries x = map Bpmn.flow_dict (map (chain_flow n) (seq 0 (S n)))
  ∧ Bpmn.start_entries x = [Bpmn.attrs Bpmn.start_element]
  ∧ Bpmn.end_entries x = [Bpmn.attrs Bpmn.end_element]
  ∧ NoDup (map (chain_node n) (seq 0 (n + 2))).

(** The node a task node of the diagram is linked from. *)
Definition graph_prev (k : nat) : str :=
  match k with
  | O => Py.lit "start"
  | S i => Graphviz.node_id i
  end.

(** The events of the orchestration, stage by stage. *)
Definition prompt_events (show_prompts : bool) (s : App.stage) : list App.event :=
  if show_prompts then [App.PromptCode s] else [].

(** The exception that showing a prompt raises, if the prompts are shown
    and their class has no attribute [template]. *)
Definition prompt_fails (show_prompts : bool) (template : App.attribute) : option str :=
  if show_prompts then
    match template with
    | App.Present => None
    | App.Missing e => Some e
    end
  else None.

Definition flow_events (show_xml : bool) (file_stem process_name : str)
           (tasks : list str) (title suffix label file_suffix : string)
  : list App.event :=
  if Py.truthy tasks then
    let xml := Bpmn.generate_enhanced_bpmn_xml tasks (process_name ++ Py.lit suffix) in
    [App.GraphvizChart (Graphviz.create_enhanced_graph tasks (Py.lit title));
     App.DownloadButton (App.emoji 0x1F4C4 label) xml (file_stem ++ Py.lit file_suffix)]
    ++ (if show_xml then [App.XmlCode xml] else [])
  else [].

(** The error shown when the call of a stage raises [e], and the notice
    shown when a stage is skipped. *)
Definition stage_error (s : App.stage) (e : str) : App.event :=
  App.Error
    (Py.lit match s with
            | App.Identification => "Error in identification stage: "
            | App.Discovery => "Error in discovery stage: "
            | App.Analysis => "Error in analysis stage: "
            | App.Redesign => "Error in redesign stage: "
            | App.Monitoring => "Error in monitoring stage: "
            end ++ e).

Definition skip_notice (s : App.stage) : App.event :=
  App.Warning
    (Py.lit match s with
            | App.Analysis => "Please complete the Discovery stage first."
            | App.Redesign => "Please complete the Analysis stage first."
            | _ => "Please complete the Redesign stage first."
            end).

(** The stage whose output a stage waits for. *)
Definition predecessor (s : App.stage) : option App.stage :=
  match s with
  | App.Identification | App.Discovery => None
  | App.Analysis => Some App.Discovery
  | App.Redesign => Some App.Analysis
  | App.Monitoring => Some App.Redesign
  end.

(** A computation that lets no [Exception] through, and another exception
    only when a call of the model ended in it, the call being the last
    event of the page. *)
Definition stops_at_escape {A} (llm : App.stage -> list (string * str) -> App.outcome)
           (m : App.M A) : Prop :=
  ∀ st,
    match m st with
    | (inl _, _) => True
    | (inr (App.Exception _), _) => False
    | (inr (App.BaseException e), st') =>
        ∃ s args, last (App.ui st') = Some (App.Run s args) ∧ llm s args = App.Escapes e
    end.

(** The part of a page that the claims about the orchestration speak of:
    the calls made, the errors and the notices. *)
Definition is_control (e : App.event) : bool :=
  match e with
  | App.Run _ _ | App.Error _ | App.Warning _ => true
  | _ => false
  end.

Definition summary (page : list App.event) : list App.event :=
  List.filter is_control page.

(** The tasks found by the per-line rules, before the fallback is
    considered: the variable [tasks] at the end of the loop. *)
Definition listed (nd : char -> bool) (text : str) : list str :=
  fold_left (extract_line nd) (Py.split_nl (Py.strip text)) [].

(** Definitions used by the further properties at the end. *)

(** The string stored under a key of an entry of a document. *)
Definition field (k : list N) (v : Bpmn.pyval) : option (list N) :=
  match v with
  | Bpmn.VDict d =>
      match Bpmn.dict_get d k with
      | Some (Bpmn.VStr s) => Some s
      | _ => None
      end
  | _ => None
  end.

(** The ids of the start, task and end entries of a document, and the ids
    of its flows. *)
Definition element_ids (x : Bpmn.xml_text) : list (list N) :=
  omap (field (Py.lit "id"))
       (Bpmn.start_entries x ++ Bpmn.task_entries x ++ Bpmn.end_entries x).

Definition flow_ids (x : Bpmn.xml_text) : list (list N) :=
  omap (field (Py.lit "@id")) (Bpmn.flow_entries x).

(** The nodes of the chain of a diagram with [n] tasks, and the names a
    body has declared with [dot.node]. *)
Definition graph_node (n k : nat) : list N :=
  if (k <=? n)%nat then graph_prev k else Py.lit "end".

Definition stmt_name (s : Graphviz.stmt) : option (list N) :=
  match s with
  | Graphviz.NodeStmt name _ _ => Some name
  | _ => None
  end.

Definition declared (body : list Graphviz.stmt) : list (list N) :=
  omap stmt_name body.

(** Every edge of a body joins two nodes declared before it. *)
Definition edges_declared (body : list Graphviz.stmt) : Prop :=
  ∀ pre a b post,
    body = pre ++ Graphviz.EdgeStmt a b :: post →
    a ∈ declared pre ∧ b ∈ declared pre.


(** The stages called on a page, in order, and the place of a stage in
    the lifecycle. *)
Definition calls (page : list App.event) : list App.stage :=
  omap (fun e => match e with App.Run s _ => Some s | _ => None end) page.

Definition lifecycle : list App.stage :=
  [App.Identification; App.Discovery; App.Analysis; App.Redesign; App.Monitoring].

Definition stage_index (s : App.stage) : nat :=
  match s with
  | App.Identification => 0
  | App.Discovery => 1
  | App.Analysis => 2
  | App.Redesign => 3
  | App.Monitoring => 4
  end.

(** The text of a numbered list: line [i] is [f"{i+1}. {task}"]. *)
Definition numbered_lines (tasks : list (list N)) : list N :=
  join_lines (imap (fun i t => Py.str_of_nat (i + 1) ++ Py.lit ". " ++ t) tasks).

(** The diagrams, downloads and documents shown on a page. *)
Definition is_flow_event (e : App.event) : bool :=
  match e with
  | App.GraphvizChart _ | App.DownloadButton _ _ _ | App.XmlCode _ => true
  | _ => false
  end.

Definition shown_flows (page : list App.event) : list App.event :=
  List.filter is_flow_event page.

(** The calls, errors and notices of the stages after identification, and
    the results they store over the locals [m]. *)
Definition later_stages (llm : App.stage -> list (string * list N) -> App.reply)
           (d : list N) : list App.event :=
  App.Run App.Discovery [("description"%string, d)]
  :: match llm App.Discovery [("description"%string, d)] with
     | App.Raised e =>
         [stage_error App.Discovery e; skip_notice App.Analysis;
          skip_notice App.Redesign; skip_notice App.Monitoring]
     | App.Returned steps =>
         App.Run App.Analysis [("steps"%string, steps)]
         :: match llm App.Analysis [("steps"%string, steps)] with
            | App.Raised e =>
                [stage_error App.Analysis e; skip_notice App.Redesign;
                 skip_notice App.Monitoring]
            | App.Returned analysis =>
                App.Run App.Redesign [("steps"%string, steps); ("analysis"%string, analysis)]
                :: match llm App.Redesign [("steps"%string, steps);
                                           ("analysis"%string, analysis)] with
                   | App.Raised e => [stage_error App.Redesign e; skip_notice App.Monitoring]
                   | App.Returned redesigned =>
                       App.Run App.Monitoring [("redesigned_process"%string, redesigned)]
                       :: match llm App.Monitoring
                                    [("redesigned_process"%string, redesigned)] with
                          | App.Raised e => [stage_error App.Monitoring e]
                          | App.Returned _ => []
                          end
                   end
            end
     end.

Definition later_results (llm : App.stage -> list (string * list N) -> App.reply)
           (d : list N) (m : gmap string (list N)) : gmap string (list N) :=
  match llm App.Discovery [("description"%string, d)] with
  | App.Raised _ => m
  | App.Returned steps =>
      let m2 := <["discovery_result"%string := steps]> m in
      match llm App.Analysis [("steps"%string, steps)] with
      | App.Raised _ => m2
      | App.Returned analysis =>
          let m3 := <["analysis_result"%string := analysis]> m2 in
          match llm App.Redesign [("steps"%string, steps); ("analysis"%string, analysis)] with
          | App.Raised _ => m3
          | App.Returned redesigned =>
              let m4 := <["redesign_result"%string := redesigned]> m3 in
              match llm App.Monitoring [("redesigned_process"%string, redesigned)] with
              | App.Raised _ => m4
              | App.Returned out => <["monitoring_result"%string := out]> m4
              end
          end
      end
  end.

(** * Properties *)

(** ** Strings *)

Section PyFacts.
Import Py.

Lemma newline_isspace : isspace newline = true.
Proof. reflexivity. Qed.

Lemma lstrip_drop_while s : lstrip s = Spec.drop_while isspace s.
Proof. induction s as [|c s IH]; simpl; [done|]. by rewrite IH. Qed.

Lemma lstrip_length s : (length (lstrip s) <= length s)%nat.
Proof. induction s as [|c s IH]; simpl; [lia|]. destruct (isspace c); simpl; lia. Qed.

Lemma lstrip_suffix s : drop (length s - length (lstrip s)) s = lstrip s.
Proof.
  induction s as [|c s IH]; simpl; [done|].
  pose proof (lstrip_length s).
  destruct (isspace c); simpl.
  - replace (S (length s) - length (lstrip s))%nat
      with (S (length s - length (lstrip s))) by lia.
    done.
  - by rewrite Nat.sub_diag.
Qed.

Lemma lstrip_idemp s : lstrip (lstrip s) = lstrip s.
Proof.
  induction s as [|c s IH]; simpl; [done|].
  destruct (isspace c) eqn:E; [done|]. simpl. by rewrite E.
Qed.

Lemma lstrip_head s c t : lstrip s = c :: t → isspace c = false.
Proof.
  induction s as [|a s IH]; simpl; [done|].
  destruct (isspace a) eqn:E; [done|]. intros [= <- _]. done.
Qed.

Lemma rstrip_right_clean s : right_clean (rstrip s).
Proof.
  unfold right_clean. induction s as [|c s IH]; simpl; [done|].
  destruct (rstrip s) as [|a r] eqn:E.
  - destruct (isspace c) eqn:Ec; simpl; done.
  - simpl in *. done.
Qed.

Lemma right_clean_rstrip s : right_clean s → rstrip s = s.
Proof.
  unfold right_clean. induction s as [|c s IH]; simpl; [done|].
  destruct s as [|a s]; simpl in *.
  - by intros ->.
  - intros H. specialize (IH H). simpl in IH. rewrite IH. done.
Qed.

Lemma right_clean_suffix a b : right_clean (a ++ b) → b ≠ [] → right_clean b.
Proof.
  unfold right_clean. intros H Hb.
  destruct b as [|x b] using rev_ind; [done|].
  rewrite app_assoc, last_snoc in H. by rewrite last_snoc.
Qed.

Lemma lstrip_split s : ∃ ws, s = ws ++ lstrip s ∧ Forall (fun c => isspace c = true) ws.
Proof.
  induction s as [|c s (ws & E & F)]; simpl.
  - by exists [].
  - destruct (isspace c) eqn:Ec.
    + exists (c :: ws). split; [simpl; congruence | by constructor].
    + by exists [].
Qed.

Lemma right_clean_lstrip s : right_clean s → right_clean (lstrip s).
Proof.
  intros H. destruct (lstrip s) eqn:E; [done|]. rewrite <- E.
  destruct (lstrip_split s) as (ws & Es & _).
  rewrite Es in H. eapply right_clean_suffix; [done|]. by rewrite E.
Qed.

Lemma strip_right_clean s : right_clean (strip s).
Proof. apply rstrip_right_clean. Qed.

Lemma rstrip_nonempty s c : right_clean (s ++ [c]) → isspace c = false.
Proof. unfold right_clean. by rewrite last_snoc. Qed.

(** A right-clean string with something in it keeps something after
    [lstrip]. *)
Lemma right_clean_lstrip_nonempty s : right_clean s → s ≠ [] → lstrip s ≠ [].
Proof.
  intros H Hs. destruct (lstrip_split s) as (ws & Es & F).
  intros E. rewrite E, app_nil_r in Es. subst ws.
  destruct s as [|x s] using rev_ind; [done|].
  apply rstrip_nonempty in H.
  apply Forall_app in F as [_ F]. inversion F; congruence.
Qed.

Lemma strip_clean t : right_clean t → lstrip t = t → strip t = t.
Proof. intros H E. unfold strip. rewrite E. by apply right_clean_rstrip. Qed.

Lemma slice_suffix (pre suf : str) :
  slice (pre ++ suf) (length pre) (length pre + length suf) = suf.
Proof.
  unfold slice. rewrite drop_app_length.
  replace (length pre + length suf - length pre)%nat with (length suf) by lia.
  apply firstn_all.
Qed.

End PyFacts.

(** ** The matcher on the two list patterns *)

Section ReFacts.
Variable nd : char -> bool.
Import Py Re.

Lemma star_cons k p c s st :
  sre_match nd (Star k :: p) (c :: s) st =
  if in_class nd k c then
    match sre_match nd (Star k :: p) s (advance st) with
    | Some r => Some r
    | None => sre_match nd p (c :: s) st
    end
  else sre_match nd p (c :: s) st.
Proof. reflexivity. Qed.

Lemma star_nil k p st :
  sre_match nd (Star k :: p) [] st = sre_match nd p [] st.
Proof. reflexivity. Qed.

Lemma drop_while_length p s : (length (Spec.drop_while p s) <= length s)%nat.
Proof. induction s as [|c s IH]; simpl; [lia|]. destruct (p c); simpl; lia. Qed.

Lemma drop_while_suffix p s :
  drop (length s - length (Spec.drop_while p s)) s = Spec.drop_while p s.
Proof.
  induction s as [|c s IH]; simpl; [done|].
  pose proof (drop_while_length p s).
  destruct (p c); simpl.
  - replace (S (length s) - length (Spec.drop_while p s))%nat
      with (S (length s - length (Spec.drop_while p s))) by lia.
    done.
  - by rewrite Nat.sub_diag.
Qed.

Lemma digit_not_dot c : isdecimal nd c = true → (c =? dot) = false.
Proof.
  intros H. destruct (N.eqb_spec c dot) as [->|]; [|done].
  vm_compute in H. done.
Qed.

(** The greedy tail of the group takes the rest of a line. *)
Lemma any_tail s st :
  no_newline s →
  sre_match nd [Star CAny; Close; Eol] s st =
  Some (MState (m_pos st + length s) (m_mark st)
               (Some (m_mark st, (m_pos st + length s)%nat))).
Proof.
  intros H. revert st. induction H as [|c s Hc Hs IH]; intros st.
  - simpl. unfold set_span. simpl. by rewrite Nat.add_0_r.
  - rewrite star_cons. simpl in_class.
    destruct (N.eqb_spec c newline) as [|_]; [done|]. simpl negb. cbv iota.
    rewrite IH. simpl. by rewrite Nat.add_succ_r.
Qed.

(** [(.+)$] captures a non-empty rest of a line. *)
Lemma group_rest s st :
  no_newline s →
  sre_match nd [Open; One CAny; Star CAny; Close; Eol] s st =
  match s with
  | [] => None
  | _ :: _ => Some (MState (m_pos st + length s) (m_pos st)
                           (Some (m_pos st, (m_pos st + length s)%nat)))
  end.
Proof.
  intros H. destruct H as [|c s Hc Hs]; [done|].
  change (sre_match nd [Open; One CAny; Star CAny; Close; Eol] (c :: s) st)
    with (if in_class nd CAny c
          then sre_match nd [Star CAny; Close; Eol] s (advance (set_mark st))
          else None).
  simpl in_class. destruct (N.eqb_spec c newline) as [|_]; [done|]. simpl negb. cbv iota.
  rewrite any_tail by done. simpl. by rewrite Nat.add_succ_r.
Qed.

(** [\s*(.+)$] on the rest of a line that does not end in whitespace:
    the blanks are skipped and the remaining text is the group. *)
Lemma space_star s st :
  no_newline s → lstrip s ≠ [] →
  sre_match nd [Star CSpace; Open; One CAny; Star CAny; Close; Eol] s st =
  Some (MState (m_pos st + length s)
               (m_pos st + (length s - length (lstrip s)))
               (Some ((m_pos st + (length s - length (lstrip s)))%nat,
                      (m_pos st + length s)%nat))).
Proof.
  intros H. revert st. induction H as [|c s Hc Hs IH]; intros st Hne; [done|].
  rewrite star_cons. simpl in_class. simpl lstrip in *.
  destruct (isspace c) eqn:Ec.
  - rewrite IH by done. simpl. pose proof (lstrip_length s).
    repeat f_equal; lia.
  - rewrite group_rest by (by constructor). simpl.
    rewrite Nat.sub_diag, Nat.add_0_r. done.
Qed.

Lemma space_star_nil st :
  sre_match nd [Star CSpace; Open; One CAny; Star CAny; Close; Eol] [] st = None.
Proof. reflexivity. Qed.

(** [\d*\.R]: the digits are taken greedily and the dot must follow; no
    shorter run of digits can match, a digit not being a dot. *)
Lemma digit_star R s st :
  sre_match nd (Star CDigit :: One (CLit dot) :: R) s st =
  match Spec.drop_while (isdecimal nd) s with
  | c :: r =>
      if c =? dot
      then sre_match nd R r (MState (m_pos st + (length s - length r))
                                    (m_mark st) (m_span st))
      else None
  | [] => None
  end.
Proof.
  revert st. induction s as [|c s IH]; intros st; [done|].
  rewrite star_cons. simpl in_class. simpl Spec.drop_while.
  destruct (isdecimal nd c) eqn:Ec.
  - rewrite IH. simpl. rewrite (digit_not_dot c Ec).
    pose proof (drop_while_length (isdecimal nd) s) as Hl.
    destruct (Spec.drop_while (isdecimal nd) s) as [|c' r]; [done|].
    simpl in Hl.
    replace (m_pos st + (S (length s) - length r))%nat
      with (S (m_pos st + (length s - length r))) by lia.
    destruct (c' =? dot); [|done].
    match goal with |- context [sre_match nd R r ?x] => by destruct (sre_match nd R r x) end.
  - simpl. destruct (c =? dot); [|done].
    destruct st as [p m sp]. simpl.
    replace (p + (S (length s) - length s))%nat with (S p) by lia. done.
Qed.

End ReFacts.

(** ** One line of the extractor *)

Section LineFacts.
Variable nd : char -> bool.
Import Py Re.

Lemma bol_eq p s st :
  sre_match nd (Bol :: p) s st =
  if Nat.eqb (m_pos st) 0 then sre_match nd p s st else None.
Proof. reflexivity. Qed.

Lemma one_cons k p c s st :
  sre_match nd (One k :: p) (c :: s) st =
  if in_class nd k c then sre_match nd p s (advance st) else None.
Proof. reflexivity. Qed.

Lemma drop_while_split p s : ∃ pre, s = pre ++ Spec.drop_while p s.
Proof.
  induction s as [|c s [pre E]]; simpl; [by exists []|].
  destruct (p c); [|by exists []].
  exists (c :: pre). simpl. congruence.
Qed.

Lemma no_newline_app a b : no_newline (a ++ b) → no_newline b.
Proof. unfold no_newline. rewrite Forall_app. tauto. Qed.

Lemma no_newline_lstrip s : no_newline s → no_newline (lstrip s).
Proof.
  intros H. destruct (lstrip_split s) as (ws & E & _).
  rewrite E in H. by apply no_newline_app in H.
Qed.

Lemma no_newline_rstrip s : no_newline s → no_newline (rstrip s).
Proof.
  unfold no_newline. induction 1 as [|c s Hc Hs IH]; simpl; [done|].
  destruct (rstrip s); [destruct (isspace c); repeat constructor; done | by constructor].
Qed.

Lemma no_newline_strip s : no_newline s → no_newline (strip s).
Proof. intros H. by apply no_newline_rstrip, no_newline_lstrip. Qed.

(** The text kept from an item is already stripped. *)
Lemma trailing_text_clean r t :
  right_clean r → Spec.trailing_text r = Some t →
  strip t = t ∧ ∃ ws, r = ws ++ t.
Proof.
  unfold Spec.trailing_text. rewrite <- lstrip_drop_while. intros Hr E.
  assert (t = lstrip r) as -> by (destruct (lstrip r); congruence).
  split.
  - apply strip_clean; [by apply right_clean_lstrip | apply lstrip_idemp].
  - destruct (lstrip_split r) as (ws & Es & _). by exists ws.
Qed.

(** What the common tail of both patterns does after a prefix [pre]. *)
Lemma item_tail (pre r : str) (tasks : list str) :
  no_newline r → right_clean r →
  match sre_match nd [Star CSpace; Open; One CAny; Star CAny; Close; Eol] r
                  (MState (length pre) 0 None) with
  | Some st =>
      ∃ t, Spec.trailing_text r = Some t
           ∧ append_group tasks (MatchObj (pre ++ r) (m_span st)) = tasks ++ [t]
  | None => Spec.trailing_text r = None
  end.
Proof.
  intros Hn Hr. destruct r as [|c r]; [done|].
  remember (c :: r) as l eqn:El.
  assert (lstrip l ≠ []) as Hne by (apply right_clean_lstrip_nonempty; by subst).
  rewrite space_star by done. cbn [m_pos m_span].
  assert (Spec.trailing_text l = Some (lstrip l)) as Et.
  { unfold Spec.trailing_text. rewrite <- lstrip_drop_while.
    by destruct (lstrip l). }
  exists (lstrip l). split; [done|].
  destruct (trailing_text_clean _ _ Hr Et) as [Hs [ws Ews]].
  unfold append_group, group1. cbn [mo_span mo_string].
  clear El Hn Hr Hne Et. set (t := lstrip l) in *. clearbody t. subst l.
  replace (length pre + (length (ws ++ t) - length t))%nat
    with (length (pre ++ ws)) by (rewrite !length_app; lia).
  replace (length pre + length (ws ++ t))%nat
    with (length (pre ++ ws) + length t)%nat
    by (rewrite !length_app; lia).
  rewrite (app_assoc pre ws), slice_suffix, Hs. done.
Qed.

Lemma numbered_agrees line tasks :
  no_newline line → right_clean line →
  match re_match nd numbered_pattern line with
  | Some m => ∃ t, Spec.numbered_item nd line = Some t
                   ∧ append_group tasks m = tasks ++ [t]
  | None => Spec.numbered_item nd line = None
  end.
Proof.
  intros Hn Hr. unfold re_match, numbered_pattern, Plus. cbn [app].
  rewrite bol_eq. cbn [m_pos Nat.eqb].
  destruct line as [|c s]; [done|].
  rewrite one_cons. unfold Spec.numbered_item. simpl in_class.
  simpl Spec.take_while. simpl Spec.drop_while.
  destruct (isdecimal nd c) eqn:Ec; [|done].
  rewrite digit_star.
  destruct (drop_while_split (isdecimal nd) s) as [pre E].
  destruct (Spec.drop_while (isdecimal nd) s) as [|c' r]; [done|].
  destruct (c' =? dot); [|done].
  assert (c :: s = (c :: pre ++ [c']) ++ r) as El.
  { rewrite E. simpl. by rewrite <- app_assoc. }
  assert (no_newline r) as Hnr by (rewrite El in Hn; by apply no_newline_app in Hn).
  assert (right_clean r ∨ r = []) as Hrr.
  { destruct r; [by right|left].
    rewrite El in Hr. by apply right_clean_suffix in Hr. }
  replace (m_pos (advance (MState 0 0 None)) + (length s - length r))%nat
    with (length (c :: pre ++ [c'])).
  2:{ rewrite E. simpl. rewrite !length_app. simpl. lia. }
  cbn [m_mark m_span advance].
  destruct Hrr as [Hrr| ->]; [|done].
  pose proof (item_tail (c :: pre ++ [c']) r tasks Hnr Hrr) as H.
  rewrite <- El in H.
  match goal with
  | H : match ?x with _ => _ end |- match match ?y with _ => _ end with _ => _ end =>
      change y with x; destruct x
  end; done.
Qed.

Lemma bulleted_agrees line tasks :
  no_newline line → right_clean line →
  match re_match nd bulleted_pattern line with
  | Some m => ∃ t, Spec.bulleted_item line = Some t
                   ∧ append_group tasks m = tasks ++ [t]
  | None => Spec.bulleted_item line = None
  end.
Proof.
  intros Hn Hr. unfold re_match, bulleted_pattern, Plus. cbn [app].
  rewrite bol_eq. cbn [m_pos Nat.eqb].
  destruct line as [|c r]; [done|].
  rewrite one_cons. unfold Spec.bulleted_item. cbn [in_class].
  destruct (existsb (N.eqb c) bullet_markers); [|done].
  assert (no_newline r) as Hnr by apply (no_newline_app [c] r Hn).
  destruct r as [|c' r]; [done|].
  assert (right_clean (c' :: r)) as Hrr.
  { by apply (right_clean_suffix [c] (c' :: r)). }
  pose proof (item_tail [c] (c' :: r) tasks Hnr Hrr) as H.
  match goal with
  | H : match ?x with _ => _ end |- match match ?y with _ => _ end with _ => _ end =>
      change y with x; destruct x
  end; done.
Qed.

End LineFacts.

(** ** Group 1 is set by every match of the two patterns *)

Section GroupFacts.
Variable nd : char -> bool.
Import Py Re.

(** The span of group 1 is never forgotten, and a pattern that closes the
    group sets it. *)
Lemma sre_span p s st st' :
  sre_match nd p s st = Some st' →
  is_Some (m_span st) ∨ In Close p →
  is_Some (m_span st').
Proof.
  revert s st st'. induction p as [|n p IH]; intros s st st' H Hc.
  - injection H as <-. by destruct Hc as [|[]].
  - assert (∀ s0 st0, sre_match nd p s0 st0 = Some st' →
                      m_span st0 = m_span st → n ≠ Close → is_Some (m_span st')) as Hrest.
    { intros s0 st0 H0 Hsp Hn. apply (IH s0 st0 st' H0).
      rewrite Hsp. destruct Hc as [|[|]]; auto. done. }
    destruct n as [| |k|k| |].
    + rewrite bol_eq in H. destruct (Nat.eqb _ _); [|done]. by apply (Hrest s st).
    + simpl in H. destruct s as [|c [|]]; [| |done].
      * by apply (Hrest [] st).
      * destruct (c =? newline); [|done]. by apply (Hrest [c] st).
    + destruct s as [|c s]; [done|]. rewrite one_cons in H.
      destruct (in_class nd k c); [|done]. by apply (Hrest s (advance st)).
    + revert st H Hc Hrest. induction s as [|c s IHs]; intros st H Hc Hrest.
      * rewrite star_nil in H. by apply (Hrest [] st).
      * rewrite star_cons in H. destruct (in_class nd k c).
        -- destruct (sre_match nd (Star k :: p) s (advance st)) as [r|] eqn:E.
           ++ injection H as <-. apply (IHs (advance st) E); [done|].
              intros s0 st0 H0 Hsp Hn. by apply (Hrest s0 st0).
           ++ by apply (Hrest (c :: s) st).
        -- by apply (Hrest (c :: s) st).
    + by apply (Hrest s (set_mark st)).
    + apply (IH s (set_span st) st' H). by left.
Qed.

Lemma extract_group_closed line m :
  re_match nd numbered_pattern line = Some m
  ∨ re_match nd bulleted_pattern line = Some m →
  is_Some (group1 m).
Proof.
  unfold re_match, group1. intros [H|H];
    destruct (sre_match nd _ line _) as [st|] eqn:E; simplify_eq;
    apply sre_span in E as [[a b] Hsp]; cbn [mo_span];
    try (rewrite Hsp; eauto);
    right; unfold numbered_pattern, bulleted_pattern;
    rewrite ?in_app_iff; simpl; tauto.
Qed.

End GroupFacts.

(** ** The loop of the extractor and the lines of a text *)

Section ExtractFacts.
Variable nd : char -> bool.
Import Py.

Lemma extract_line_rule tasks line :
  no_newline line →
  extract_line nd tasks line =
  tasks ++ match strip line with
           | [] => []
           | l => match Spec.line_rule nd l with Some t => [t] | None => [] end
           end.
Proof.
  intros Hn. unfold extract_line.
  pose proof (no_newline_strip _ Hn) as Hns.
  pose proof (strip_right_clean line) as Hrc.
  destruct (strip line) as [|c l] eqn:E; [by rewrite app_nil_r|].
  cbn [truthy negb]. unfold Spec.line_rule.
  pose proof (numbered_agrees nd (c :: l) tasks Hns Hrc) as Hnum.
  destruct (Re.re_match nd numbered_pattern (c :: l)).
  { destruct Hnum as (t & -> & ->). done. }
  rewrite Hnum.
  pose proof (bulleted_agrees nd (c :: l) tasks Hns Hrc) as Hbul.
  destruct (Re.re_match nd bulleted_pattern (c :: l)).
  { destruct Hbul as (t & -> & ->). done. }
  rewrite Hbul. unfold Spec.substantial.
  destruct (_ && _); [done | by rewrite app_nil_r].
Qed.

Lemma extract_loop lines tasks :
  Forall no_newline lines →
  fold_left (extract_line nd) lines tasks =
  tasks ++ omap (Spec.line_rule nd) (List.filter truthy (map strip lines)).
Proof.
  intros H. revert tasks. induction H as [|line lines Hl Hls IH]; intros tasks.
  - simpl. by rewrite app_nil_r.
  - simpl. rewrite IH, extract_line_rule by done.
    destruct (strip line) as [|c l]; simpl.
    + by rewrite app_nil_r.
    + destruct (Spec.line_rule nd (c :: l)); simpl.
      * by rewrite <- app_assoc.
      * by rewrite app_nil_r.
Qed.

Lemma split_nl_no_newline s : Forall no_newline (split_nl s).
Proof.
  induction s as [|c s IH]; simpl.
  - repeat constructor.
  - destruct (N.eqb_spec c newline) as [|Hc].
    + constructor; [constructor | done].
    + destruct (split_nl s) as [|l ls]; [repeat constructor; done|].
      inversion IH; subst. constructor; [by constructor | done].
Qed.

Lemma split_nl_nonempty s : split_nl s ≠ [].
Proof.
  destruct s as [|c s]; simpl; [done|].
  destruct (c =? newline); [done|]. by destruct (split_nl s).
Qed.

(** The comprehension of the fallback keeps the same lines. *)
Lemma fallback_lines text :
  map strip (List.filter (fun line => truthy (strip line)) (split_nl text))
  = Spec.nonblank_lines text.
Proof.
  unfold Spec.nonblank_lines.
  induction (split_nl text) as [|l ls IH]; simpl; [done|].
  destruct (truthy (strip l)); simpl; by rewrite IH.
Qed.

(** [lstrip] and [rstrip] commute. *)
Lemma lstrip_rstrip s : lstrip (rstrip s) = rstrip (lstrip s).
Proof.
  induction s as [|c s IH]; simpl; [done|].
  destruct (isspace c) eqn:Ec.
  - rewrite <- IH. destruct (rstrip s); simpl; by rewrite ?Ec.
  - simpl. destruct (rstrip s); simpl; by rewrite ?Ec.
Qed.

Lemma line_view_cons c s : line_view (c :: s) = view_cons c (line_view s).
Proof.
  unfold line_view, view_cons. simpl.
  pose proof (split_nl_nonempty s).
  destruct (split_nl s) as [|l ls]; [done|].
  destruct (c =? newline); simpl; [|done].
  unfold strip. rewrite lstrip_rstrip. by destruct (truthy _).
Qed.

Lemma line_view_rstrip s : line_view (rstrip s) = line_view s.
Proof.
  induction s as [|c s IH]; [done|].
  rewrite line_view_cons. simpl.
  destruct (rstrip s) as [|a r] eqn:E.
  - rewrite <- IH.
    destruct (isspace c) eqn:Ec.
    + unfold view_cons. cbn.
      destruct (N.eqb_spec c newline) as [->|]; [done|]. by rewrite Ec.
    + by rewrite line_view_cons.
  - by rewrite line_view_cons, IH.
Qed.

Lemma nonblank_lines_view s :
  Spec.nonblank_lines s =
  List.filter truthy [lstrip (fst (line_view s))] ++ snd (line_view s).
Proof.
  unfold Spec.nonblank_lines, line_view.
  pose proof (split_nl_nonempty s).
  destruct (split_nl s) as [|l ls]; [done|]. simpl.
  unfold strip. rewrite lstrip_rstrip. by destruct (truthy _).
Qed.

Lemma nonblank_lines_rstrip s :
  Spec.nonblank_lines (rstrip s) = Spec.nonblank_lines s.
Proof. by rewrite !nonblank_lines_view, line_view_rstrip. Qed.

Lemma nonblank_lines_lstrip s :
  Spec.nonblank_lines (lstrip s) = Spec.nonblank_lines s.
Proof.
  induction s as [|c s IH]; simpl; [done|].
  destruct (isspace c) eqn:Ec; [|done].
  rewrite IH. unfold Spec.nonblank_lines. simpl.
  pose proof (split_nl_nonempty s).
  destruct (c =? newline); [done|].
  destruct (split_nl s) as [|l ls]; [done|]. simpl.
  unfold strip. simpl. by rewrite Ec.
Qed.

(** Stripping the whole text first loses no line. *)
Lemma nonblank_lines_strip s :
  Spec.nonblank_lines (strip s) = Spec.nonblank_lines s.
Proof. unfold strip. by rewrite nonblank_lines_rstrip, nonblank_lines_lstrip. Qed.

Lemma extract_refines text :
  extract_tasks_from_text nd text = Spec.extract nd text.
Proof.
  unfold extract_tasks_from_text, Spec.extract.
  rewrite extract_loop by apply split_nl_no_newline.
  rewrite fallback_lines. simpl app.
  change (List.filter truthy (map strip (split_nl (strip text))))
    with (Spec.nonblank_lines (strip text)).
  rewrite nonblank_lines_strip.
  by destruct (omap (Spec.line_rule nd) (Spec.nonblank_lines text)).
Qed.

End ExtractFacts.

(** ** The shape of the items of the policy *)

Section PolicyFacts.
Variable nd : char -> bool.
Import Py.

Lemma take_drop_while p s : s = Spec.take_while p s ++ Spec.drop_while p s.
Proof. induction s as [|c s IH]; simpl; [done|]. destruct (p c); simpl; congruence. Qed.

Lemma take_while_all p s : Forall (fun c => p c = true) (Spec.take_while p s).
Proof. induction s as [|c s IH]; simpl; [done|]. destruct (p c) eqn:E; by constructor. Qed.

Lemma span_app p ds c r :
  Forall (fun c => p c = true) ds → p c = false →
  Spec.take_while p (ds ++ c :: r) = ds ∧ Spec.drop_while p (ds ++ c :: r) = c :: r.
Proof.
  intros H Hc. induction H as [|d ds Hd Hds [IH1 IH2]]; simpl.
  - by rewrite Hc.
  - rewrite Hd. by rewrite IH1, IH2.
Qed.

Lemma trailing_text_shape r t :
  Spec.trailing_text r = Some t ↔
  ∃ ws c t', r = ws ++ t ∧ t = c :: t' ∧ isspace c = false
             ∧ Forall (fun c => isspace c = true) ws.
Proof.
  unfold Spec.trailing_text. rewrite <- lstrip_drop_while. split.
  - intros E. assert (lstrip r = t) as Et by (destruct (lstrip r); congruence).
    destruct (lstrip_split r) as (ws & Er & F).
    destruct t as [|c t']; [by rewrite Et in E|].
    exists ws, c, t'. rewrite Et in Er. repeat split; try done.
    by apply (lstrip_head r c t').
  - intros (ws & c & t' & -> & -> & Hc & F).
    rewrite lstrip_drop_while.
    destruct (span_app isspace ws c t' F Hc) as [_ ->]. done.
Qed.

(** A numbered item is digits, a dot, optional blanks and the text. *)
Lemma numbered_item_shape line t :
  Spec.numbered_item nd line = Some t ↔
  ∃ ds ws c t',
    line = ds ++ dot :: ws ++ t ∧ ds ≠ []
    ∧ Forall (fun c => isdecimal nd c = true) ds
    ∧ Forall (fun c => isspace c = true) ws
    ∧ t = c :: t' ∧ isspace c = false.
Proof.
  unfold Spec.numbered_item. split.
  - pose proof (take_drop_while (isdecimal nd) line) as E.
    pose proof (take_while_all (isdecimal nd) line) as F.
    destruct (Spec.take_while (isdecimal nd) line) as [|d ds]; [done|].
    destruct (Spec.drop_while (isdecimal nd) line) as [|x r]; [done|].
    destruct (N.eqb_spec x dot) as [->|]; [|done].
    intros (ws & c & t' & -> & -> & Hc & Fw)%trailing_text_shape.
    by exists (d :: ds), ws, c, t'.
  - intros (ds & ws & c & t' & -> & Hds & F & Fw & -> & Hc).
    destruct (span_app (isdecimal nd) ds dot (ws ++ c :: t') F eq_refl) as [-> ->].
    destruct ds; [done|]. rewrite N.eqb_refl.
    apply trailing_text_shape. by exists ws, c, t'.
Qed.

(** A bulleted item is a marker, optional blanks and the text. *)
Lemma bulleted_item_shape line t :
  Spec.bulleted_item line = Some t ↔
  ∃ m ws c t',
    line = m :: ws ++ t ∧ In m bullet_markers
    ∧ Forall (fun c => isspace c = true) ws
    ∧ t = c :: t' ∧ isspace c = false.
Proof.
  unfold Spec.bulleted_item. split.
  - destruct line as [|m r]; [done|].
    destruct (existsb (N.eqb m) bullet_markers) eqn:E; [|done].
    apply existsb_exists in E as (x & Hx & ->%N.eqb_eq).
    intros (ws & c & t' & -> & -> & Hc & Fw)%trailing_text_shape.
    by exists x, ws, c, t'.
  - intros (m & ws & c & t' & -> & Hm & Fw & -> & Hc).
    assert (existsb (N.eqb m) bullet_markers = true) as ->.
    { apply existsb_exists. exists m. split; [done | apply N.eqb_refl]. }
    apply trailing_text_shape. by exists ws, c, t'.
Qed.

(** A line of the policy: a line of the input, stripped and not blank. *)
Lemma nonblank_lines_shape text line :
  In line (Spec.nonblank_lines text) ↔
  ∃ raw, In raw (split_nl text) ∧ line = strip raw ∧ line ≠ [].
Proof.
  unfold Spec.nonblank_lines. rewrite filter_In, in_map_iff. split.
  - intros [(raw & <- & Hraw) Ht]. exists raw. repeat split; try done.
    by destruct (strip raw).
  - intros (raw & Hraw & -> & Hne). split; [by exists raw|].
    by destruct (strip raw).
Qed.

End PolicyFacts.

(** ** The extractor: claims C3, C4, C5, C10 *)

(** C3.  For every input text the extractor applies the stated policy to
    the lines of the input (each with its surrounding whitespace removed,
    blank ones dropped): a numbered or bulleted item contributes its text
    with the pattern stripped, another line longer than 10 characters that
    does not start with a filler word is kept as it is, and when no line
    qualifies the result is every non-blank line, stripped. *)
Theorem C3_extract_policy (nd : char -> bool) (text : str) :
  extract_tasks_from_text nd text =
  match omap (Spec.line_rule nd) (Spec.nonblank_lines text) with
  | [] => Spec.nonblank_lines text
  | items => items
  end.
Proof. apply extract_refines. Qed.

(** C4.  The filler exclusion is a prefix test: some line of an input is
    longer than 10 characters, matches neither pattern, has a first word
    that is none of the filler words, starts with one of them as a prefix,
    and is left out of the extracted list. *)
Theorem C4_filler_prefix (nd : char -> bool) :
  ∃ text line : str,
    In line (Spec.nonblank_lines text)
    ∧ (10 < length line)%nat
    ∧ Re.re_match nd numbered_pattern line = None
    ∧ Re.re_match nd bulleted_pattern line = None
    ∧ ¬ In (Spec.first_word line) filler_prefixes
    ∧ Py.startswith_any line filler_prefixes = true
    ∧ extract_tasks_from_text nd text ≠ []
    ∧ ¬ In line (extract_tasks_from_text nd text).
Proof.
  exists (Py.lit "Therefore ship the order" ++ [Py.newline] ++ Py.lit "1. Pack items").
  exists (Py.lit "Therefore ship the order").
  split; [vm_compute; tauto|].
  split; [vm_compute; lia|].
  split; [by vm_compute|].
  split; [by vm_compute|].
  split; [vm_compute; intuition discriminate|].
  split; [by vm_compute|].
  split; [by vm_compute|].
  vm_compute. intuition discriminate.
Qed.

(** C5.  A text with at least one non-blank line yields a non-empty list. *)
Theorem C5_extract_nonempty (nd : char -> bool) (text : str) :
  (∃ line, In line (Py.split_nl text) ∧ Py.strip line ≠ []) →
  extract_tasks_from_text nd text ≠ [].
Proof.
  intros (raw & Hraw & Hne). rewrite extract_refines. unfold Spec.extract.
  destruct (omap _ _); [|done].
  intros E.
  assert (In (Py.strip raw) (Spec.nonblank_lines text)) as H.
  { apply nonblank_lines_shape. by exists raw. }
  by rewrite E in H.
Qed.

Lemma C5_extract_nonempty_witness :
  (∃ line, In line (Py.split_nl (Py.lit "ship the order")) ∧ Py.strip line ≠ [])
  ∧ extract_tasks_from_text (fun _ => false) (Py.lit "ship the order") ≠ [].
Proof.
  assert (∃ line, In line (Py.split_nl (Py.lit "ship the order")) ∧ Py.strip line ≠ []) as H.
  { exists (Py.lit "ship the order"). split; [vm_compute; tauto | by vm_compute]. }
  split; [exact H | exact (C5_extract_nonempty (fun _ => false) _ H)].
Defined.

(** C10.  The three numbered lines "1. A", "2. B", "3. C" give exactly
    the list A, B, C in that order. *)
Theorem C10_numbered_example (nd : char -> bool) :
  extract_tasks_from_text nd
    (Py.lit "1. A" ++ [Py.newline] ++ Py.lit "2. B" ++ [Py.newline] ++ Py.lit "3. C")
  = [Py.lit "A"; Py.lit "B"; Py.lit "C"].
Proof. by vm_compute. Qed.

(** ** The document builder *)

Section BpmnFacts.
Import Py Bpmn.

Lemma enumerate_snoc {A} (l : list A) (x : A) :
  enumerate (l ++ [x]) = enumerate l ++ [(length l, x)].
Proof.
  unfold enumerate. rewrite length_app, seq_app.
  rewrite zip_with_app by by rewrite length_seq. done.
Qed.

Lemma dict_get_last d k v :
  dict_get d k = None → dict_get (d ++ [(k, v)]) k = Some v.
Proof.
  induction d as [|[k' v'] d IH]; simpl.
  - intros _. by rewrite decide_True.
  - destruct (decide (k' = k)); [done | exact IH].
Qed.

Lemma dict_get_other d k k' v :
  k' ≠ k → dict_get (d ++ [(k', v)]) k = dict_get d k.
Proof.
  intros Hk. induction d as [|[k0 v0] d IH]; simpl.
  - by rewrite decide_False.
  - by destruct (decide (k0 = k)).
Qed.

Lemma dict_set_new d k v :
  dict_get d k = None → dict_set d k v = d ++ [(k, v)].
Proof.
  induction d as [|[k' v'] d IH]; simpl; [done|].
  destruct (decide (k' = k)); [done|]. intros H. by rewrite IH.
Qed.

Lemma dict_set_last d k v v' :
  dict_get d k = None → dict_set (d ++ [(k, v)]) k v' = d ++ [(k, v')].
Proof.
  induction d as [|[k0 v0] d IH]; simpl.
  - intros _. by rewrite decide_True.
  - destruct (decide (k0 = k)); [done|]. intros H. by rewrite IH.
Qed.

Lemma add_element_new d k v :
  dict_get d k = None →
  add_element d (Element k v) = d ++ [(k, VList [v])].
Proof.
  intros H. unfold add_element, dict_has. cbn [tag attrs]. rewrite H. cbn [negb].
  rewrite dict_set_new, dict_get_last by done.
  by rewrite dict_set_last.
Qed.

Lemma add_element_last d k v l :
  dict_get d k = None →
  add_element (d ++ [(k, VList l)]) (Element k v) = d ++ [(k, VList (l ++ [v]))].
Proof.
  intros H. unfold add_element, dict_has. cbn [tag attrs].
  rewrite dict_get_last by done. cbn [negb].
  rewrite dict_get_last by done. by rewrite dict_set_last.
Qed.

Lemma add_elements_same d k l (vs : list pyval) :
  dict_get d k = None →
  fold_left add_element (map (Element k) vs) (d ++ [(k, VList l)])
  = d ++ [(k, VList (l ++ vs))].
Proof.
  intros H. revert l. induction vs as [|v vs IH]; intros l; simpl.
  - by rewrite app_nil_r.
  - rewrite (add_element_last d k v l H).
    rewrite IH. by rewrite <- app_assoc.
Qed.

(** The first loop lists the tasks in order. *)
Lemma add_task_loop tasks elements :
  fold_left add_task (enumerate tasks) elements
  = elements ++ map (Element (lit "task")) (imap task_entry tasks).
Proof.
  induction tasks as [|t tasks IH] using rev_ind; simpl.
  - by rewrite app_nil_r.
  - rewrite enumerate_snoc, fold_left_app, IH. simpl.
    rewrite imap_app, map_app, app_assoc. simpl.
    by rewrite Nat.add_0_r.
Qed.

(** The second loop links each task to the node before it. *)
Lemma add_flow_loop (tasks : list str) :
  fold_left add_flow (enumerate tasks) ([], start_id)
  = (imap (fun i _ => Flow (flow_name i) (node_ref i) (task_id i)) tasks,
     node_ref (length tasks)).
Proof.
  induction tasks as [|t tasks IH] using rev_ind; simpl; [done|].
  rewrite enumerate_snoc, fold_left_app, IH. simpl.
  rewrite imap_app, length_app. simpl.
  rewrite Nat.add_0_r, Nat.add_1_r. done.
Qed.

Lemma add_flows_loop d l (flows : list flow) :
  dict_get d (lit "sequenceFlow") = None →
  fold_left
    (fun process f =>
       match dict_get process (lit "sequenceFlow") with
       | Some (VList l) =>
           dict_set process (lit "sequenceFlow") (VList (l ++ [flow_dict f]))
       | _ => process
       end)
    flows (d ++ [(lit "sequenceFlow", VList l)])
  = d ++ [(lit "sequenceFlow", VList (l ++ map flow_dict flows))].
Proof.
  intros H. revert l. induction flows as [|f flows IH]; intros l; simpl.
  - by rewrite app_nil_r.
  - rewrite dict_get_last, dict_set_last by done.
    rewrite IH. by rewrite <- app_assoc.
Qed.

(** The flows of a document with [n] tasks, as the chain names them. *)
Lemma flows_chain (tasks : list str) :
  imap (fun i _ => Flow (flow_name i) (node_ref i) (task_id i)) tasks
  ++ [Flow (flow_name (length tasks)) (node_ref (length tasks)) end_id]
  = map (chain_flow (length tasks)) (seq 0 (S (length tasks))).
Proof.
  rewrite seq_S, map_app. simpl. f_equal.
  - apply list_eq. intros i.
    rewrite list_lookup_imap, list_lookup_fmap.
    destruct (tasks !! i) as [t|] eqn:E; simpl.
    + apply lookup_lt_Some in E.
      rewrite lookup_seq_lt by done. simpl.
      unfold chain_flow, chain_node.
      rewrite !(proj2 (Nat.leb_le _ _)) by lia. done.
    + apply lookup_ge_None in E. by rewrite lookup_seq_ge.
  - unfold chain_flow, chain_node.
    rewrite Nat.leb_refl.
    rewrite (proj2 (Nat.leb_gt _ _)) by lia. done.
Qed.

(** The document of a non-empty task list. *)
Lemma generate_document tasks process_name :
  tasks ≠ [] →
  generate_enhanced_bpmn_xml tasks process_name =
  Unparse
    (VDict
       [(lit "definitions",
         VDict
           [(lit "@xmlns", VStr (lit "http://www.omg.org/spec/BPMN/20100524/MODEL"));
            (lit "@xmlns:xsi", VStr (lit "http://www.w3.org/2001/XMLSchema-instance"));
            (lit "@targetNamespace", VStr (lit "http://bpmn.io/schema/bpmn"));
            (lit "process",
             VDict
               (process_head process_name
                ++ [(lit "startEvent", VList [attrs start_element])]
                ++ [(lit "task", VList (imap task_entry tasks))]
                ++ [(lit "endEvent", VList [attrs end_element])]
                ++ [(lit "sequenceFlow",
                     VList (map flow_dict
                                (map (chain_flow (length tasks))
                                     (seq 0 (S (length tasks))))))]))])]).
Proof.
  intros Hne. unfold generate_enhanced_bpmn_xml.
  destruct tasks as [|t ts]; [done|]. cbn [truthy negb].
  rewrite add_task_loop, add_flow_loop, flows_chain.
  set (tasks := t :: ts). set (flows := map _ (seq _ _)).
  do 2 f_equal. do 4 f_equal.
  change (VDict ?a = VDict ?b) with (VDict a = VDict b). f_equal.
  rewrite <- !app_assoc. rewrite !fold_left_app.
  cbn [fold_left]. unfold start_element, end_element.
  fold (process_head process_name).
  rewrite (add_element_new (process_head process_name)) by done.
  set (d1 := process_head process_name ++ _).
  assert (dict_get d1 (lit "task") = None) as H1 by done.
  subst tasks. cbn [imap map fold_left].
  rewrite (add_element_new d1 _ _ H1).
  rewrite (add_elements_same d1 (lit "task") _ _ H1).
  set (d2 := d1 ++ _).
  assert (dict_get d2 (lit "endEvent") = None) as H2.
  { subst d2. by rewrite dict_get_other. }
  rewrite (add_element_new d2 _ _ H2).
  set (d3 := d2 ++ _).
  assert (dict_get d3 (lit "sequenceFlow") = None) as H3.
  { subst d3 d2. by rewrite !dict_get_other. }
  rewrite (dict_set_new d3 _ _ H3).
  rewrite (add_flows_loop d3 [] flows H3).
  subst d3 d2 d1. rewrite <- !app_assoc. done.
Qed.

End BpmnFacts.

(** ** Identifiers *)

Section IdFacts.
Import Py Bpmn.

Lemma lit_inj a b : lit a = lit b → a = b.
Proof.
  unfold lit. intros H.
  rewrite <- (string_of_list_ascii_of_string a), <- (string_of_list_ascii_of_string b).
  f_equal. revert H.
  generalize (list_ascii_of_string a) (list_ascii_of_string b).
  induction l as [|x l IH]; intros [|y l']; simpl; try done.
  intros [= Hxy Hl]. f_equal; [|by apply IH].
  by rewrite <- (ascii_N_embedding x), <- (ascii_N_embedding y), Hxy.
Qed.

Lemma str_of_nat_inj i j : str_of_nat i = str_of_nat j → i = j.
Proof.
  unfold str_of_nat. intros H%lit_inj.
  assert (Some (Nat.to_uint i) = Some (Nat.to_uint j)) as [= E].
  { by rewrite <- !NilEmpty.usu, H. }
  by rewrite <- (Unsigned.of_to i), <- (Unsigned.of_to j), E.
Qed.

Lemma task_id_inj i j : task_id i = task_id j → i = j.
Proof.
  unfold task_id. intros H%app_inv_head%str_of_nat_inj. lia.
Qed.

Lemma task_id_head i : head (task_id i) = Some 0x54.
Proof. reflexivity. Qed.

Lemma chain_node_inj n i j :
  (i <= S n)%nat → (j <= S n)%nat → chain_node n i = chain_node n j → i = j.
Proof.
  unfold chain_node. intros Hi Hj.
  destruct (Nat.leb_spec i n), (Nat.leb_spec j n);
    destruct i as [|i], j as [|j]; simpl; try lia; intros Heq;
    try (apply task_id_inj in Heq; lia);
    apply (f_equal head) in Heq; rewrite ?task_id_head in Heq; by vm_compute in Heq.
Qed.

Lemma chain_nodes_distinct n : NoDup (map (chain_node n) (seq 0 (n + 2))).
Proof.
  apply (NoDup_fmap_2_strong (chain_node n)); [|apply NoDup_seq].
  intros i j Hi%elem_of_seq Hj%elem_of_seq. apply chain_node_inj; lia.
Qed.

End IdFacts.

(** ** The document builder: claims C1, C2 *)

Lemma document_is_linear_chain (tasks : list str) (process_name : str) :
  tasks ≠ [] →
  linear_chain_document tasks (Bpmn.generate_enhanced_bpmn_xml tasks process_name).
Proof.
  intros Hne. rewrite generate_document by done.
  unfold linear_chain_document.
  set (x := Bpmn.Unparse _).
  assert (Bpmn.task_entries x = imap task_entry tasks) as Ht by reflexivity.
  assert (Bpmn.flow_entries x
          = map Bpmn.flow_dict (map (chain_flow (length tasks)) (seq 0 (S (length tasks)))))
    as Hf by reflexivity.
  split_and!.
  - exact Ht.
  - rewrite Ht. apply length_imap.
  - rewrite Hf, !length_map, length_seq. lia.
  - exact Hf.
  - reflexivity.
  - reflexivity.
  - apply chain_nodes_distinct.
Qed.

(** C1, as amended.  For every non-empty task list of length n the
    document has exactly n task entries, in list order, and n + 1 flow
    entries, and flow k goes from node k to node k + 1 of the chain start,
    task 1, ..., task n, end, whose nodes are distinct. *)
Theorem C1_linear_chain (tasks : list str) (process_name : str) :
  tasks ≠ [] →
  linear_chain_document tasks (Bpmn.generate_enhanced_bpmn_xml tasks process_name).
Proof. apply document_is_linear_chain. Qed.

Lemma C1_linear_chain_witness :
  [Py.lit "Pack"; Py.lit "Ship"] ≠ []
  ∧ linear_chain_document [Py.lit "Pack"; Py.lit "Ship"]
      (Bpmn.generate_enhanced_bpmn_xml [Py.lit "Pack"; Py.lit "Ship"] (Py.lit "Order")).
Proof.
  split; [discriminate | apply C1_linear_chain; discriminate].
Defined.

(** C1, as stated, fails on the empty task list: no document is built, so
    there is no flow entry where one is asked for. *)
Lemma C1_empty_counterexample :
  ¬ linear_chain_document [] (Bpmn.generate_enhanced_bpmn_xml [] (Py.lit "Business Process")).
Proof.
  unfold linear_chain_document. intros (_ & _ & H & _). vm_compute in H. discriminate.
Qed.

(** C2.  For the empty task list the builder returns the empty string:
    no start element, no end element, no task and no flow entry. *)
Theorem C2_empty_tasks (process_name : str) :
  Bpmn.generate_enhanced_bpmn_xml [] process_name = Bpmn.EmptyText
  ∧ Bpmn.start_entries (Bpmn.generate_enhanced_bpmn_xml [] process_name) = []
  ∧ Bpmn.end_entries (Bpmn.generate_enhanced_bpmn_xml [] process_name) = []
  ∧ Bpmn.task_entries (Bpmn.generate_enhanced_bpmn_xml [] process_name) = []
  ∧ Bpmn.flow_entries (Bpmn.generate_enhanced_bpmn_xml [] process_name) = [].
Proof. repeat split. Qed.

(** ** The diagram builder *)

Section GraphFacts.
Import Py Graphviz.

Lemma add_task_node_loop (tasks : list str) dot :
  fold_left add_task_node (enumerate tasks) (dot, lit "start")
  = (MkDigraph (comment dot)
       (body dot
        ++ concat (imap (fun i t => [NodeStmt (node_id i) (display_name t) [];
                                     EdgeStmt (graph_prev i) (node_id i)]) tasks)),
     graph_prev (length tasks)).
Proof.
  induction tasks as [|t tasks IH] using rev_ind; simpl.
  - rewrite app_nil_r. by destruct dot.
  - rewrite enumerate_snoc, fold_left_app, IH. simpl.
    rewrite imap_app, concat_app, length_app. simpl.
    rewrite Nat.add_0_r, Nat.add_1_r. unfold node, edge. simpl.
    by rewrite <- !app_assoc.
Qed.

Lemma filter_concat_imap {A} (p : stmt -> bool) (f : nat -> A -> list stmt)
      (g : nat -> A -> list stmt) (l : list A) :
  (∀ i t, List.filter p (f i t) = g i t) →
  List.filter p (concat (imap f l)) = concat (imap g l).
Proof.
  revert f g. induction l as [|x l IH]; intros f g H; simpl; [done|].
  rewrite List.filter_app, H. f_equal. apply IH. intros i t. apply H.
Qed.

Lemma concat_imap_singleton {A B} (g : nat -> A -> B) (l : list A) :
  concat (imap (fun i t => [g i t]) l) = imap g l.
Proof.
  revert g. induction l as [|x l IH]; intros g; simpl; [done|].
  f_equal. apply (IH (g ∘ S)).
Qed.

(** The nodes of the diagram: start, one per task in order, end. *)
Lemma graph_nodes tasks title :
  nodes (create_enhanced_graph tasks title)
  = [NodeStmt (lit "start") (lit "START")
       [(lit "shape", lit "circle"); (lit "fillcolor", lit "lightgreen")]]
    ++ imap (fun i t => NodeStmt (node_id i) (display_name t) []) tasks
    ++ [NodeStmt (lit "end") (lit "END")
          [(lit "shape", lit "circle"); (lit "fillcolor", lit "lightcoral")]].
Proof.
  unfold create_enhanced_graph. rewrite add_task_node_loop.
  unfold nodes.
  assert (∀ d e, List.filter is_node (body (if truthy tasks then edge e (lit "end") d else d))
                 = List.filter is_node (body d)) as ->.
  { intros d e. destruct (truthy tasks); [|done]. simpl.
    rewrite List.filter_app. simpl. by rewrite app_nil_r. }
  simpl. rewrite !List.filter_app. simpl.
  rewrite (filter_concat_imap is_node _
             (fun i t => [NodeStmt (node_id i) (display_name t) []])) by done.
  by rewrite concat_imap_singleton.
Qed.

(** The edges of the diagram: one into each task node, and one into the
    end node when there is a task. *)
Lemma graph_edges tasks title :
  edges (create_enhanced_graph tasks title)
  = imap (fun i (_ : str) => EdgeStmt (graph_prev i) (node_id i)) tasks
    ++ (if truthy tasks then [EdgeStmt (graph_prev (length tasks)) (lit "end")] else []).
Proof.
  unfold create_enhanced_graph. rewrite add_task_node_loop.
  unfold edges.
  destruct (truthy tasks); simpl; rewrite !List.filter_app; simpl;
    rewrite (filter_concat_imap is_edge _
               (fun i t => [EdgeStmt (graph_prev i) (node_id i)])) by done;
    rewrite concat_imap_singleton; by rewrite ?app_nil_r.
Qed.

Lemma startswith_app p s : startswith (p ++ s) p = true.
Proof. induction p as [|c p IH]; simpl; [by destruct s|]. rewrite N.eqb_refl. exact IH. Qed.

Lemma endswith_app s p : endswith (s ++ p) p = true.
Proof. unfold endswith. rewrite rev_app_distr. apply startswith_app. Qed.

End GraphFacts.

(** ** Display names and the empty diagram: claims C8, C9 *)

(** C8.  In both builders the display name of a task ends with the
    ellipsis marker when the task is longer than the budget (50 characters
    for a task entry of the document, 30 for a node of the diagram), is never
    longer than the budget plus the ellipsis marker, and is the task itself
    when the task is within the budget. *)
Theorem C8_display_names (tasks : list str) (process_name title : str)
        (i : nat) (task : str) :
  tasks !! i = Some task →
  (∃ name,
      Bpmn.task_entries (Bpmn.generate_enhanced_bpmn_xml tasks process_name) !! i
      = Some (Bpmn.VDict [(Py.lit "id", Bpmn.VStr (Bpmn.task_id i));
                          (Py.lit "name", Bpmn.VStr name)])
      ∧ ((50 < length task)%nat → Py.endswith name (Py.lit "...") = true)
      ∧ (length name <= 50 + length (Py.lit "..."))%nat
      ∧ ((length task <= 50)%nat → name = task))
  ∧ (∃ label,
        Graphviz.nodes (Graphviz.create_enhanced_graph tasks title) !! S i
        = Some (Graphviz.NodeStmt (Graphviz.node_id i) label [])
        ∧ ((30 < length task)%nat → Py.endswith label (Py.lit "...") = true)
        ∧ (length label <= 30 + length (Py.lit "..."))%nat
        ∧ ((length task <= 30)%nat → label = task)).
Proof.
  intros Hi. split.
  - exists (Bpmn.task_name task).
    assert (tasks ≠ []) as Hne by (intros ->; done).
    destruct (document_is_linear_chain tasks process_name Hne) as [Ht _].
    split_and!.
    + rewrite Ht, list_lookup_imap, Hi. done.
    + intros H. unfold Bpmn.task_name.
      rewrite (proj2 (Nat.ltb_lt _ _) H). apply endswith_app.
    + unfold Bpmn.task_name. rewrite length_app, length_take.
      change (length (Py.lit "...")) with 3%nat.
      destruct (50 <? length task)%nat;
        [change (length (Py.lit "...")) with 3%nat
        |change (length (Py.lit "")) with 0%nat]; lia.
    + intros H. unfold Bpmn.task_name.
      rewrite (proj2 (Nat.ltb_ge _ _) H), firstn_all2 by done. apply app_nil_r.
  - exists (Graphviz.display_name task).
    split_and!.
    + rewrite graph_nodes. simpl. rewrite lookup_app_l.
      * rewrite list_lookup_imap, Hi. done.
      * rewrite length_imap. by apply lookup_lt_Some in Hi.
    + intros H. unfold Graphviz.display_name.
      rewrite (proj2 (Nat.ltb_lt _ _) H). apply endswith_app.
    + unfold Graphviz.display_name.
      destruct (Nat.ltb_spec 30 (length task)).
      * rewrite length_app, length_take.
        change (length (Py.lit "...")) with 3%nat. lia.
      * lia.
    + intros H. unfold Graphviz.display_name.
      by rewrite (proj2 (Nat.ltb_ge _ _) H).
Qed.

Lemma C8_display_names_witness :
  let long := Py.lit "Check the delivery note against the purchase order line by line" in
  [long] !! 0%nat = Some long
  ∧ (∃ name,
        Bpmn.task_entries (Bpmn.generate_enhanced_bpmn_xml [long] (Py.lit "Order")) !! 0%nat
        = Some (Bpmn.VDict [(Py.lit "id", Bpmn.VStr (Bpmn.task_id 0));
                            (Py.lit "name", Bpmn.VStr name)])
        ∧ ((50 < length long)%nat → Py.endswith name (Py.lit "...") = true)
        ∧ (length name <= 50 + length (Py.lit "..."))%nat
        ∧ ((length long <= 50)%nat → name = long))
  ∧ (∃ label,
        Graphviz.nodes (Graphviz.create_enhanced_graph [long] (Py.lit "Flow")) !! 1%nat
        = Some (Graphviz.NodeStmt (Graphviz.node_id 0) label [])
        ∧ ((30 < length long)%nat → Py.endswith label (Py.lit "...") = true)
        ∧ (length label <= 30 + length (Py.lit "..."))%nat
        ∧ ((length long <= 30)%nat → label = long)).
Proof.
  intros long. split; [reflexivity|].
  exact (C8_display_names [long] (Py.lit "Order") (Py.lit "Flow") 0 long eq_refl).
Defined.

(** C9.  For the empty task list the diagram has exactly two nodes, the
    start node and the end node, and no edge. *)
Theorem C9_empty_graph (title : str) :
  Graphviz.nodes (Graphviz.create_enhanced_graph [] title)
  = [Graphviz.NodeStmt (Py.lit "start") (Py.lit "START")
       [(Py.lit "shape", Py.lit "circle"); (Py.lit "fillcolor", Py.lit "lightgreen")];
     Graphviz.NodeStmt (Py.lit "end") (Py.lit "END")
       [(Py.lit "shape", Py.lit "circle"); (Py.lit "fillcolor", Py.lit "lightcoral")]]
  ∧ length (Graphviz.nodes (Graphviz.create_enhanced_graph [] title)) = 2%nat
  ∧ Graphviz.edges (Graphviz.create_enhanced_graph [] title) = [].
Proof. split_and!; reflexivity. Qed.

(** ** The orchestration, tab by tab *)

Section AppFacts.
Import App.
Variable nd : char -> bool.
Variable str_lower : str -> str.
Variable template : attribute.
Variable llm : stage -> list (string * str) -> reply.
Variables show_xml show_prompts : bool.
Variables process_description process_name : str.

Local Abbreviation tab1 := (tab1 template (of_replies llm) show_prompts process_description).
Local Abbreviation tab2 :=
  (tab2 nd str_lower template (of_replies llm) show_xml show_prompts
     process_description process_name).
Local Abbreviation tab3 := (tab3 template (of_replies llm) show_prompts).
Local Abbreviation tab4 :=
  (tab4 nd str_lower template (of_replies llm) show_xml show_prompts process_name).
Local Abbreviation tab5 := (tab5 template (of_replies llm) show_prompts).
Local Abbreviation prompt := (prompt_events show_prompts).
Local Abbreviation blocked := (prompt_fails show_prompts template).
Local Abbreviation flow :=
  (flow_events show_xml (file_stem str_lower process_name) process_name).

Local Arguments Py.lit : simpl never.
Local Arguments emoji : simpl never.

Ltac step :=
  cbv [App.tab1 App.tab2 App.tab3 App.tab4 App.tab5 show_flow view_prompt of_replies
       bind emit in_locals try_except when chain_run load store ret raise
       ui locals prompt_events prompt_fails flow_events].

Ltac crunch :=
  repeat first
    [ progress cbn
    | match goal with
      | E : ?x = _ |- context [match ?x with _ => _ end] => rewrite E
      | |- context [match ?m !! ?k with _ => _ end] => destruct (m !! k) eqn:?
      | |- context [match llm ?s ?a with _ => _ end] => destruct (llm s a) eqn:?
      | |- context [if Py.truthy ?t then _ else _] => destruct (Py.truthy t) eqn:?
      | |- context [if show_prompts then _ else _] => destruct show_prompts
      | |- context [match template with _ => _ end] => destruct template
      | |- context [if show_xml then _ else _] => destruct show_xml
      end ];
  rewrite <- ?app_assoc; try done.

Ltac tab_spec := intros [page0 vars]; step; crunch.

Lemma tab1_spec st :
  tab1 st =
  (inl tt,
   let page := ui st
     ++ [Header (emoji 0x1F3AF " Process Identification");
         Markdown (Py.lit "*Understanding the business context and value proposition*")] in
   match blocked with
   | Some e => State (page ++ [stage_error Identification e]) (locals st)
   | None =>
       let page := page ++ prompt Identification
         ++ [Run Identification [("description"%string, process_description)]] in
       match llm Identification [("description"%string, process_description)] with
       | Returned out =>
           State (page ++ [Markdown out])
                 (<["identification_result"%string := out]> (locals st))
       | Raised e => State (page ++ [stage_error Identification e]) (locals st)
       end
   end).
Proof. revert st. tab_spec. Qed.

Lemma tab2_spec st :
  tab2 st =
  (inl tt,
   let page := ui st
     ++ [Header (emoji 0x1F50D " Process Discovery");
         Markdown (Py.lit "*Mapping out the current state process flow*")] in
   match blocked with
   | Some e => State (page ++ [stage_error Discovery e]) (locals st)
   | None =>
       let page := page ++ prompt Discovery
         ++ [Run Discovery [("description"%string, process_description)]] in
       match llm Discovery [("description"%string, process_description)] with
       | Returned out =>
           State (page
                  ++ [Subheader (Py.lit "Process Steps"); Markdown out;
                      Subheader (Py.lit "As-Is Process Flow")]
                  ++ flow (extract_tasks_from_text nd out)
                       "Current Process" " - As-Is" " Download As-Is BPMN" "_as_is.bpmn")
                 (<["discovery_result"%string := out]> (locals st))
       | Raised e => State (page ++ [stage_error Discovery e]) (locals st)
       end
   end).
Proof. revert st. tab_spec. Qed.

Lemma tab3_spec st :
  tab3 st =
  (inl tt,
   let page := ui st
     ++ [Header (emoji 0x1F4CA " Process Analysis");
         Markdown (Py.lit "*Identifying bottlenecks, risks, and improvement opportunities*")] in
   match locals st !! "discovery_result"%string with
   | None => State (page ++ [skip_notice Analysis]) (locals st)
   | Some steps =>
       match blocked with
       | Some e => State (page ++ [stage_error Analysis e]) (locals st)
       | None =>
           let page := page ++ prompt Analysis ++ [Run Analysis [("steps"%string, steps)]] in
           match llm Analysis [("steps"%string, steps)] with
           | Returned out =>
               State (page ++ [Markdown out])
                     (<["analysis_result"%string := out]> (locals st))
           | Raised e => State (page ++ [stage_error Analysis e]) (locals st)
           end
       end
   end).
Proof. revert st. tab_spec. Qed.

Lemma tab4_spec st :
  tab4 st =
  (inl tt,
   let page := ui st
     ++ [Header (emoji 0x1F504 " Process Redesign");
         Markdown (Py.lit "*Creating an optimized future state process*")] in
   match locals st !! "analysis_result"%string with
   | None => State (page ++ [skip_notice Redesign]) (locals st)
   | Some analysis =>
       match blocked with
       | Some e => State (page ++ [stage_error Redesign e]) (locals st)
       | None =>
           match locals st !! "discovery_result"%string with
           | None =>
               State (page ++ prompt Redesign
                      ++ [stage_error Redesign
                            (unbound_local "discovery_result")])
                     (locals st)
           | Some steps =>
               let args := [("steps"%string, steps); ("analysis"%string, analysis)] in
               let page := page ++ prompt Redesign ++ [Run Redesign args] in
               match llm Redesign args with
               | Returned out =>
                   State (page
                          ++ [Subheader (Py.lit "Redesigned Process"); Markdown out;
                              Subheader (Py.lit "To-Be Process Flow")]
                          ++ flow (extract_tasks_from_text nd out)
                               "Redesigned Process" " - To-Be" " Download To-Be BPMN"
                               "_to_be.bpmn")
                         (<["redesign_result"%string := out]> (locals st))
               | Raised e => State (page ++ [stage_error Redesign e]) (locals st)
               end
           end
       end
   end).
Proof. revert st. tab_spec. Qed.

Lemma tab5_spec st :
  tab5 st =
  (inl tt,
   let page := ui st
     ++ [Header (emoji 0x1F4C8 " Process Monitoring & Optimization");
         Markdown (Py.lit "*Establishing KPIs and continuous improvement framework*")] in
   match locals st !! "redesign_result"%string with
   | None => State (page ++ [skip_notice Monitoring]) (locals st)
   | Some redesigned =>
       match blocked with
       | Some e => State (page ++ [stage_error Monitoring e]) (locals st)
       | None =>
           let args := [("redesigned_process"%string, redesigned)] in
           let page := page ++ prompt Monitoring ++ [Run Monitoring args] in
           match llm Monitoring args with
           | Returned out =>
               State (page ++ [Markdown out])
                     (<["monitoring_result"%string := out]> (locals st))
           | Raised e => State (page ++ [stage_error Monitoring e]) (locals st)
           end
       end
   end).
Proof. revert st. tab_spec. Qed.

Lemma summary_app p q : summary (p ++ q) = summary p ++ summary q.
Proof. apply List.filter_app. Qed.

Lemma summary_prompt s : summary (prompt s) = [].
Proof. unfold prompt_events. by destruct show_prompts. Qed.

Lemma summary_flow tasks title suffix label file_suffix :
  summary (flow tasks title suffix label file_suffix) = [].
Proof. unfold flow_events. by destruct (Py.truthy tasks), show_xml. Qed.

Lemma elem_of_summary e page : e ∈ summary page ↔ e ∈ page ∧ is_control e = true.
Proof. unfold summary. rewrite !list_elem_of_In. apply filter_In. Qed.

Local Abbreviation pressed :=
  (pressed nd str_lower template llm show_xml show_prompts process_description process_name).

Local Abbreviation description := [("description"%string, process_description)].

Ltac lookups :=
  repeat first [ rewrite lookup_insert_eq
               | rewrite lookup_insert_ne by done
               | rewrite lookup_empty ].

Ltac run_tab L :=
  rewrite L;
  match goal with H : blocked = _ |- _ => rewrite ?H end;
  cbv beta iota zeta; cbn [ui locals]; lookups; cbv beta iota zeta;
  try match goal with
      | |- context [match llm ?s ?a with _ => _ end] => destruct (llm s a) as [?out|?exn] eqn:?
      end.

Ltac run_all :=
  try unfold App.pressed; unfold run_complete_analysis;
  match goal with
  | H : Py.strip process_description ≠ [] |- _ =>
      destruct (Py.strip process_description); [done|]
  end;
  destruct blocked as [?exn|] eqn:?;
  cbn [Py.truthy negb]; cbv [bind];
  run_tab tab1_spec; run_tab tab2_spec; run_tab tab3_spec;
  run_tab tab4_spec; run_tab tab5_spec;
  cbv [emit]; cbn [snd ui locals].

(** The calls, errors and notices of one run, by the replies of the
    model.  When showing the prompts fails, no call is made. *)
Lemma summary_pressed :
  Py.strip process_description ≠ [] →
  summary (ui pressed) =
  match blocked with
  | Some e =>
      [stage_error Identification e; stage_error Discovery e;
       skip_notice Analysis; skip_notice Redesign; skip_notice Monitoring]
  | None =>
      Run Identification description
      :: match llm Identification description with
         | Returned _ => []
         | Raised e => [stage_error Identification e]
         end
      ++ Run Discovery description
      :: match llm Discovery description with
         | Raised e =>
             [stage_error Discovery e; skip_notice Analysis; skip_notice Redesign;
              skip_notice Monitoring]
         | Returned steps =>
             Run Analysis [("steps"%string, steps)]
             :: match llm Analysis [("steps"%string, steps)] with
                | Raised e =>
                    [stage_error Analysis e; skip_notice Redesign; skip_notice Monitoring]
                | Returned analysis =>
                    Run Redesign [("steps"%string, steps); ("analysis"%string, analysis)]
                    :: match llm Redesign [("steps"%string, steps);
                                           ("analysis"%string, analysis)] with
                       | Raised e => [stage_error Redesign e; skip_notice Monitoring]
                       | Returned redesigned =>
                           Run Monitoring [("redesigned_process"%string, redesigned)]
                           :: match llm Monitoring
                                        [("redesigned_process"%string, redesigned)] with
                              | Raised e => [stage_error Monitoring e]
                              | Returned _ => []
                              end
                       end
                end
         end
  end.
Proof.
  intros Hd. run_all;
    rewrite ?summary_app, ?summary_prompt, ?summary_flow; reflexivity.
Qed.

(** The locals bound at the end of one run. *)
Lemma locals_pressed :
  Py.strip process_description ≠ [] →
  locals pressed =
  match blocked with
  | Some _ => ∅
  | None =>
      let m1 :=
        match llm Identification description with
        | Returned out => <["identification_result"%string := out]> ∅
        | Raised _ => ∅
        end in
      match llm Discovery description with
      | Raised _ => m1
      | Returned steps =>
          let m2 := <["discovery_result"%string := steps]> m1 in
          match llm Analysis [("steps"%string, steps)] with
          | Raised _ => m2
          | Returned analysis =>
              let m3 := <["analysis_result"%string := analysis]> m2 in
              match llm Redesign [("steps"%string, steps); ("analysis"%string, analysis)] with
              | Raised _ => m3
              | Returned redesigned =>
                  let m4 := <["redesign_result"%string := redesigned]> m3 in
                  match llm Monitoring [("redesigned_process"%string, redesigned)] with
                  | Raised _ => m4
                  | Returned out => <["monitoring_result"%string := out]> m4
                  end
              end
          end
      end
  end.
Proof. intros Hd. run_all; reflexivity. Qed.

(** No exception leaves the run, and the page ends with the success
    message and the balloons. *)
Lemma run_completes :
  Py.strip process_description ≠ [] →
  ∃ page vars,
    run_complete_analysis nd str_lower template (of_replies llm) show_xml show_prompts
      process_description process_name (State [] ∅)
    = (inl tt,
       State (page
              ++ [Success (emoji 0x2705 " Complete BPM Lifecycle Analysis Generated Successfully!");
                  Balloons])
             vars).
Proof.
  intros Hd. run_all; rewrite <- app_assoc; eauto.
Qed.

End AppFacts.

(** ** The orchestration: claims C6, C7 *)

Section Orchestration.
Import App.
Variable nd : char -> bool.
Variable str_lower : str -> str.
Variable template : attribute.
Variable llm : stage -> list (string * str) -> reply.
Variables show_xml show_prompts : bool.
Variables process_description process_name : str.

Local Abbreviation pressed :=
  (pressed nd str_lower template llm show_xml show_prompts process_description process_name).
Local Abbreviation description := [("description"%string, process_description)].
Local Abbreviation blocked := (prompt_fails show_prompts template).

Lemma run_in_page s args page : Run s args ∈ page ↔ Run s args ∈ summary page.
Proof. rewrite elem_of_summary. tauto. Qed.

Lemma error_in_page s e page : stage_error s e ∈ page ↔ stage_error s e ∈ summary page.
Proof. rewrite elem_of_summary. unfold stage_error, is_control. tauto. Qed.

Lemma notice_in_page s page : skip_notice s ∈ page ↔ skip_notice s ∈ summary page.
Proof. rewrite elem_of_summary. unfold skip_notice, is_control. tauto. Qed.

Ltac paths Hd :=
  rewrite ?(summary_pressed nd str_lower template llm show_xml show_prompts
              process_description process_name Hd),
          ?(locals_pressed nd str_lower template llm show_xml show_prompts
              process_description process_name Hd);
  cbv zeta;
  try match goal with
    | |- context [prompt_fails ?b ?t] => destruct (prompt_fails b t) as [?exn|] eqn:?
    end;
  repeat match goal with
    | |- context [match llm ?s ?a with _ => _ end] =>
        destruct (llm s a) as [?out|?exn] eqn:?
    end.

Ltac members :=
  repeat first [ setoid_rewrite elem_of_cons | setoid_rewrite elem_of_nil
               | setoid_rewrite elem_of_app ].

Ltac lookups :=
  repeat first [ rewrite lookup_insert_eq | rewrite lookup_insert_ne by done
               | rewrite lookup_empty ].

Ltac in_list := repeat first [ by left | right ].

(** Whether a stage has left its output is whether its call was made
    and returned. *)
Lemma output_iff_returned_summary s out :
  Py.strip process_description ≠ [] →
  locals pressed !! result_var s = Some out ↔
  ∃ args, Run s args ∈ summary (ui pressed) ∧ llm s args = Returned out.
Proof.
  intros Hd. destruct s; paths Hd; cbn [result_var]; lookups; members;
    unfold stage_error, skip_notice.
  all: split;
    [ intros [= <-]; eexists; (split; [|eassumption]); in_list
    | intros (args & Hin & Hl); destruct_or?; simplify_eq; congruence ].
Qed.

Ltac settle Hd :=
  paths Hd; lookups; members; unfold stage_error, skip_notice;
  intros; destruct_or?; simplify_eq;
  repeat match goal with
    | H1 : llm ?s ?a = _, H2 : llm ?s ?a = _ |- _ => rewrite H1 in H2; simplify_eq
    end;
  try done; try congruence; in_list.

Lemma skipped_without_output s p :
  Py.strip process_description ≠ [] →
  predecessor s = Some p →
  locals pressed !! result_var p = None →
  ¬ attempted s (ui pressed) ∧ skip_notice s ∈ ui pressed.
Proof.
  intros Hd Hp Hnone. split.
  - intros [args Hin%run_in_page]. revert Hnone Hin.
    destruct s; cbn [predecessor] in Hp; simplify_eq; cbn [result_var]; settle Hd.
  - apply notice_in_page. revert Hnone.
    destruct s; cbn [predecessor] in Hp; simplify_eq; cbn [result_var]; settle Hd.
Qed.

Lemma no_output_after_failure s args e :
  Py.strip process_description ≠ [] →
  Run s args ∈ ui pressed → llm s args = Raised e →
  locals pressed !! result_var s = None.
Proof.
  intros Hd Hin%run_in_page Hl. revert Hin Hl.
  destruct s; cbn [result_var]; settle Hd.
Qed.

Lemma failure_reported s args e :
  Py.strip process_description ≠ [] →
  Run s args ∈ ui pressed → llm s args = Raised e →
  stage_error s e ∈ ui pressed.
Proof.
  intros Hd Hin%run_in_page Hl. apply error_in_page. revert Hin Hl.
  destruct s; settle Hd.
Qed.

(** A stage that waits for no other is called, unless showing its prompt
    raises: then the error of the stage is shown.  A stage that waits for
    another is called as soon as that one has left its output. *)
Lemma attempted_with_output s :
  Py.strip process_description ≠ [] →
  match predecessor s with
  | None =>
      match blocked with
      | None => Run s description ∈ ui pressed
      | Some e => stage_error s e ∈ ui pressed
      end
  | Some p => is_Some (locals pressed !! result_var p) → attempted s (ui pressed)
  end.
Proof.
  intros Hd. destruct s; cbn [predecessor result_var].
  1,2: destruct blocked as [e|] eqn:Hb;
    [apply error_in_page | apply run_in_page];
    rewrite (summary_pressed nd str_lower template llm show_xml show_prompts
               process_description process_name Hd), Hb;
    settle Hd.
  all: intros [out Hout]; unfold attempted; revert Hout; paths Hd; lookups;
    intros; simplify_eq; eexists; apply run_in_page;
    rewrite (summary_pressed nd str_lower template llm show_xml show_prompts
               process_description process_name Hd);
    repeat match goal with
      | E : llm _ _ = _ |- _ => rewrite E
      | E : prompt_fails _ _ = _ |- _ => rewrite E
      end;
    members; in_list.
Qed.

Lemma discovery_after_identification args :
  Py.strip process_description ≠ [] →
  Run Identification args ∈ ui pressed → Run Discovery description ∈ ui pressed.
Proof.
  intros Hd Hin%run_in_page. apply run_in_page. revert Hin. settle Hd.
Qed.

(** C6.  In one run of the five stages, a stage whose predecessor has
    left no output is not attempted and its notice is shown; this covers
    the predecessor whose call failed.  Analysis waits for discovery,
    redesign for analysis, monitoring for redesign. *)
Theorem C6_skipped_stages (s p : stage) :
  Py.strip process_description ≠ [] →
  predecessor s = Some p →
  (locals pressed !! result_var p = None →
   ¬ attempted s (ui pressed) ∧ skip_notice s ∈ ui pressed)
  ∧ (∀ args e,
        Run p args ∈ ui pressed → llm p args = Raised e →
        ¬ attempted s (ui pressed) ∧ skip_notice s ∈ ui pressed).
Proof.
  intros Hd Hp. split.
  - by apply skipped_without_output.
  - intros args e Hin Hl. apply (skipped_without_output s p Hd Hp).
    by apply (no_output_after_failure p args e).
Qed.

(** C7.  A call that fails is reported as an error of its stage, the run
    goes on to its end, and every stage is called as soon as the stage it
    takes its input from has left its output.  Identification and
    discovery wait for no stage: each is called, unless showing its prompt
    raises before the call, which is reported as the error of the stage.
    A failed call of identification is followed by the call of
    discovery. *)
Theorem C7_failures_caught :
  Py.strip process_description ≠ [] →
  (∀ s args e,
      Run s args ∈ ui pressed → llm s args = Raised e → stage_error s e ∈ ui pressed)
  ∧ (∃ page vars,
        run_complete_analysis nd str_lower template (of_replies llm) show_xml show_prompts
          process_description process_name (State [] ∅)
        = (inl tt,
           State (page
                  ++ [Success (emoji 0x2705
                                 " Complete BPM Lifecycle Analysis Generated Successfully!");
                      Balloons])
                 vars))
  ∧ (∀ s, match predecessor s with
          | None =>
              match blocked with
              | None => Run s description ∈ ui pressed
              | Some e => stage_error s e ∈ ui pressed
              end
          | Some p => is_Some (locals pressed !! result_var p) → attempted s (ui pressed)
          end)
  ∧ (∀ args e,
        Run Identification args ∈ ui pressed → llm Identification args = Raised e →
        Run Discovery description ∈ ui pressed).
Proof.
  intros Hd. split_and!.
  - intros s args e. by apply failure_reported.
  - by apply run_completes.
  - intros s. by apply attempted_with_output.
  - intros args e Hin _. by apply (discovery_after_identification args).
Qed.

End Orchestration.

(** One run in which every call fails: the hypotheses of C6 and C7 hold. *)
Lemma C6_skipped_stages_witness :
  let llm := fun (_ : App.stage) (_ : list (string * list N)) => App.Raised (Py.lit "timeout") in
  let st := App.pressed (fun _ => false) (fun s => s) App.Present llm false false
              (Py.lit "Ship the order") (Py.lit "Order") in
  Py.strip (Py.lit "Ship the order") ≠ []
  ∧ predecessor App.Analysis = Some App.Discovery
  ∧ (App.locals st !! App.result_var App.Discovery = None →
     ¬ App.attempted App.Analysis (App.ui st) ∧ skip_notice App.Analysis ∈ App.ui st)
  ∧ (∀ args e,
        App.Run App.Discovery args ∈ App.ui st → llm App.Discovery args = App.Raised e →
        ¬ App.attempted App.Analysis (App.ui st) ∧ skip_notice App.Analysis ∈ App.ui st).
Proof.
  intros llm st.
  split; [by vm_compute|]. split; [reflexivity|].
  apply (C6_skipped_stages (fun _ => false) (fun s => s) App.Present llm false false
           (Py.lit "Ship the order") (Py.lit "Order") App.Analysis App.Discovery);
    [by vm_compute | reflexivity].
Defined.

Lemma C7_failures_caught_witness :
  let llm := fun (_ : App.stage) (_ : list (string * list N)) => App.Raised (Py.lit "timeout") in
  let st := App.pressed (fun _ => false) (fun s => s)
              (App.Missing (Py.lit "'ChatPromptTemplate' object has no attribute 'template'"))
              llm false false (Py.lit "Ship the order") (Py.lit "Order") in
  Py.strip (Py.lit "Ship the order") ≠ []
  ∧ (∀ s args e,
        App.Run s args ∈ App.ui st → llm s args = App.Raised e →
        stage_error s e ∈ App.ui st)
  ∧ App.Run App.Identification [("description"%string, Py.lit "Ship the order")] ∈ App.ui st
  ∧ App.Run App.Discovery [("description"%string, Py.lit "Ship the order")] ∈ App.ui st.
Proof.
  intros llm st.
  pose proof (C7_failures_caught (fun _ => false) (fun s => s)
                (App.Missing (Py.lit "'ChatPromptTemplate' object has no attribute 'template'"))
                llm false false (Py.lit "Ship the order") (Py.lit "Order")) as H.
  assert (Py.strip (Py.lit "Ship the order") ≠ []) as Hd by (by vm_compute).
  destruct (H Hd) as (H1 & _ & H3 & H4).
  pose proof (H3 App.Identification) as Hi.
  split; [exact Hd|]. split; [exact H1|]. split; [exact Hi|].
  exact (H4 _ (Py.lit "timeout") Hi eq_refl).
Defined.

(** ** Worked examples *)

Example extract_mixed_text nd :
  extract_tasks_from_text nd
    (Py.lit "Steps:" ++ [Py.newline]
     ++ Py.lit "  1.  Pack   the box " ++ [Py.newline]
     ++ [Py.newline]
     ++ 0x2022 :: Py.lit " ship it" ++ [Py.newline]
     ++ Py.lit "This is only a remark" ++ [Py.newline]
     ++ Py.lit "Finally close the order  ")
  = [Py.lit "Pack   the box"; Py.lit "ship it"; Py.lit "Finally close the order"].
Proof. vm_compute. by destruct (nd 8226). Qed.

Example extract_fallback nd :
  extract_tasks_from_text nd (Py.lit "  Pack " ++ [Py.newline; Py.newline] ++ Py.lit "Ship")
  = [Py.lit "Pack"; Py.lit "Ship"].
Proof. by vm_compute. Qed.

(** The end-to-end scenario: three numbered steps give a document with
    three task entries and the four flows start-1, 1-2, 2-3, 3-end. *)
Example three_steps_document nd :
  let tasks :=
    extract_tasks_from_text nd
      (Py.lit "1. Step one" ++ [Py.newline] ++ Py.lit "2. Step two" ++ [Py.newline]
       ++ Py.lit "3. Step three") in
  let doc := Bpmn.generate_enhanced_bpmn_xml tasks (Py.lit "Demo") in
  length (Bpmn.task_entries doc) = 3%nat
  ∧ Bpmn.flow_entries doc
    = map Bpmn.flow_dict
        [Bpmn.Flow (Py.lit "Flow_1") (Py.lit "StartEvent_1") (Py.lit "Task_1");
         Bpmn.Flow (Py.lit "Flow_2") (Py.lit "Task_1") (Py.lit "Task_2");
         Bpmn.Flow (Py.lit "Flow_3") (Py.lit "Task_2") (Py.lit "Task_3");
         Bpmn.Flow (Py.lit "Flow_4") (Py.lit "Task_3") (Py.lit "EndEvent_1")].
Proof. by vm_compute. Qed.

Example long_name_truncated :
  Bpmn.task_name (Py.lit "Check the delivery note against the purchase order line by line")
  = Py.lit "Check the delivery note against the purchase order..."
  ∧ Graphviz.display_name (Py.lit "Check the delivery note against the purchase order line by line")
    = Py.lit "Check the delivery note agains...".
Proof. by vm_compute. Qed.

(** * Further properties of the code *)

(** ** The extractor *)

Section ExtractMore.
Variable nd : char -> bool.
Import Py.

Lemma listed_items text :
  listed nd text = omap (Spec.line_rule nd) (Spec.nonblank_lines text).
Proof.
  unfold listed. rewrite extract_loop by apply split_nl_no_newline. simpl app.
  change (List.filter truthy (map strip (split_nl (strip text))))
    with (Spec.nonblank_lines (strip text)).
  by rewrite nonblank_lines_strip.
Qed.

Lemma extract_listed text :
  extract_tasks_from_text nd text =
  if truthy (listed nd text) then listed nd text else Spec.nonblank_lines text.
Proof.
  rewrite extract_refines, listed_items. unfold Spec.extract.
  by destruct (omap _ _).
Qed.

Lemma strip_idemp s : strip (strip s) = strip s.
Proof.
  apply strip_clean; [apply strip_right_clean|].
  unfold strip. by rewrite lstrip_rstrip, lstrip_idemp.
Qed.

Lemma lstrip_fixed c t : isspace c = false → lstrip (c :: t) = c :: t.
Proof. intros H. simpl. by rewrite H. Qed.

(** A line of the policy is clean: not empty, stripped, without newline. *)
Lemma nonblank_line_clean text line :
  In line (Spec.nonblank_lines text) →
  line ≠ [] ∧ strip line = line ∧ no_newline line.
Proof.
  intros (raw & Hraw & -> & Hne)%nonblank_lines_shape. split_and!.
  - done.
  - apply strip_idemp.
  - apply no_newline_strip.
    pose proof (split_nl_no_newline text) as H.
    rewrite Forall_forall in H. apply H. by apply list_elem_of_In.
Qed.

(** What a rule keeps of a clean line is a clean, non-empty end of it. *)
Lemma line_rule_suffix line t :
  line ≠ [] → strip line = line →
  Spec.line_rule nd line = Some t →
  t ≠ [] ∧ strip t = t ∧ ∃ pre, line = pre ++ t.
Proof.
  intros Hne Hs. unfold Spec.line_rule.
  assert (right_clean line) as Hrc by (rewrite <- Hs; apply strip_right_clean).
  assert (∀ pre c t', line = pre ++ c :: t' → isspace c = false →
                      c :: t' ≠ [] ∧ strip (c :: t') = c :: t'
                      ∧ ∃ pre0, line = pre0 ++ c :: t') as Hend.
  { intros pre c t' E Hc. split_and!; [done| |by exists pre].
    apply strip_clean; [|by apply lstrip_fixed].
    rewrite E in Hrc. by apply right_clean_suffix in Hrc. }
  destruct (Spec.numbered_item nd line) as [t0|] eqn:En.
  { intros [= <-].
    apply numbered_item_shape in En as (ds & ws & c & t' & E & _ & _ & _ & -> & Hc).
    apply (Hend (ds ++ dot :: ws)); [|done]. by rewrite <- app_assoc. }
  destruct (Spec.bulleted_item line) as [t0|] eqn:Eb.
  { intros [= <-].
    apply bulleted_item_shape in Eb as (m & ws & c & t' & E & _ & _ & -> & Hc).
    by apply (Hend (m :: ws)). }
  destruct (Spec.substantial line); [|done]. intros [= <-].
  split_and!; [done | done | by exists []].
Qed.

(** X1.  Every task returned is non-empty, has no whitespace at either
    end and holds no newline. *)
Theorem extract_tasks_clean text t :
  In t (extract_tasks_from_text nd text) →
  t ≠ [] ∧ strip t = t ∧ no_newline t.
Proof.
  rewrite extract_refines. unfold Spec.extract.
  destruct (omap (Spec.line_rule nd) (Spec.nonblank_lines text)) as [|t0 items] eqn:E.
  - apply nonblank_line_clean.
  - rewrite <- E. clear E. intros Ht.
    apply list_elem_of_In, list_elem_of_omap in Ht as (line & Hline%list_elem_of_In & Hr).
    destruct (nonblank_line_clean _ _ Hline) as (Hne & Hs & Hn).
    destruct (line_rule_suffix line t Hne Hs Hr) as (H1 & H2 & pre & E).
    split_and!; [done | done |]. rewrite E in Hn. by apply no_newline_app in Hn.
Qed.



Lemma filter_sublist {A} (p : A → bool) (l : list A) : List.filter p l `sublist_of` l.
Proof.
  induction l as [|x l IH]; simpl; [done|].
  destruct (p x); [by apply sublist_skip | by apply sublist_cons].
Qed.

Lemma omap_sublist {A B} (f : A → option B) (R : B → A → Prop) (l : list A) :
  (∀ x y, In x l → f x = Some y → R y x) →
  ∃ l', l' `sublist_of` l ∧ Forall2 R (omap f l) l'.
Proof.
  induction l as [|x l IH]; intros H.
  - exists []. by split.
  - destruct IH as (l' & Hsub & HF); [intros x0 y Hx; apply H; by right|].
    cbn. destruct (f x) as [y|] eqn:E.
    + exists (x :: l'). split; [by apply sublist_skip|].
      constructor; [apply H; [by left | done] | done].
    + exists l'. split; [by apply sublist_cons | done].
Qed.

Lemma tasks_are_line_ends text :
  ∃ lines,
    lines `sublist_of` map strip (split_nl text)
    ∧ Forall2 (fun t line => t `suffix_of` line)
              (extract_tasks_from_text nd text) lines.
Proof.
  rewrite extract_refines. unfold Spec.extract.
  assert (Spec.nonblank_lines text `sublist_of` map strip (split_nl text)) as Hsub
    by apply filter_sublist.
  destruct (omap (Spec.line_rule nd) (Spec.nonblank_lines text)) as [|t0 items] eqn:E.
  - exists (Spec.nonblank_lines text). split; [done|].
    apply Forall2_same_length_lookup. split; [done|].
    intros i x y Hx Hy. by simplify_eq.
  - rewrite <- E. clear E.
    destruct (omap_sublist (Spec.line_rule nd) (fun t line => t `suffix_of` line)
                (Spec.nonblank_lines text)) as (l' & Hl' & HF).
    { intros line t Hline Hr.
      destruct (nonblank_line_clean _ _ Hline) as (Hne & Hs & _).
      destruct (line_rule_suffix line t Hne Hs Hr) as (_ & _ & pre & ->).
      by exists pre. }
    exists l'. split; [by etrans | done].
Qed.

(** X2.  Each task is the end of a stripped line of the text; the tasks
    come in the order of their lines, at most one for a line. *)
Theorem extract_tasks_from_lines text :
  ∃ lines,
    lines `sublist_of` map strip (split_nl text)
    ∧ Forall2 (fun t line => t `suffix_of` line)
              (extract_tasks_from_text nd text) lines.
Proof. apply tasks_are_line_ends. Qed.

(** No more tasks than lines. *)
Corollary extract_tasks_length text :
  (length (extract_tasks_from_text nd text) <= length (split_nl text))%nat.
Proof.
  destruct (tasks_are_line_ends text) as (lines & Hsub & HF).
  rewrite (Forall2_length _ _ _ HF).
  apply sublist_length in Hsub. by rewrite length_map in Hsub.
Qed.

Lemma extract_after_strip text :
  extract_tasks_from_text nd (strip text) = extract_tasks_from_text nd text.
Proof.
  rewrite !extract_refines. unfold Spec.extract. by rewrite nonblank_lines_strip.
Qed.

(** X3.  Whitespace around the whole text changes nothing. *)
Theorem extract_strip_text text :
  extract_tasks_from_text nd (strip text) = extract_tasks_from_text nd text.
Proof. apply extract_after_strip. Qed.

Lemma lstrip_keeps_head c r : lstrip (c :: r) = c :: r → isspace c = false.
Proof.
  simpl. destruct (isspace c); [|done]. intros E.
  pose proof (lstrip_length r) as H. rewrite E in H. simpl in H. lia.
Qed.

Lemma nonblank_lines_nonempty text :
  strip text ≠ [] → Spec.nonblank_lines text ≠ [].
Proof.
  intros Hne. rewrite <- nonblank_lines_strip.
  destruct (strip text) as [|c r] eqn:E; [done|].
  assert (isspace c = false) as Hc.
  { apply (lstrip_keeps_head c r). rewrite <- E. unfold strip.
    by rewrite lstrip_rstrip, lstrip_idemp. }
  unfold Spec.nonblank_lines. simpl.
  destruct (N.eqb_spec c newline) as [->|_]; [done|].
  pose proof (split_nl_nonempty r).
  destruct (split_nl r) as [|l ls]; [done|]. simpl.
  unfold strip at 1. simpl. rewrite Hc. simpl.
  rewrite Hc. by destruct (rstrip l).
Qed.

Lemma extract_nil_iff text :
  extract_tasks_from_text nd text = [] ↔ strip text = [].
Proof.
  split.
  - intros H. destruct (strip text) as [|c r] eqn:E; [done|]. exfalso.
    rewrite extract_refines in H. unfold Spec.extract in H.
    destruct (omap _ _); [|done].
    apply (nonblank_lines_nonempty text); [by rewrite E | done].
  - intros H. by rewrite <- extract_after_strip, H.
Qed.

(** X4.  The result is empty exactly when the text is blank. *)
Theorem extract_empty_iff text :
  extract_tasks_from_text nd text = [] ↔ strip text = [].
Proof. apply extract_nil_iff. Qed.

Lemma split_nl_app a b :
  split_nl (a ++ newline :: b) = split_nl a ++ split_nl b.
Proof.
  induction a as [|c a IH]; simpl; [done|].
  destruct (c =? newline); [by rewrite IH|].
  rewrite IH. pose proof (split_nl_nonempty a). by destruct (split_nl a).
Qed.

Lemma listed_app a b :
  listed nd (a ++ newline :: b) = listed nd a ++ listed nd b.
Proof.
  rewrite !listed_items. unfold Spec.nonblank_lines.
  rewrite split_nl_app, map_app, List.filter_app. apply omap_app.
Qed.

Lemma extract_over_lines a b :
  extract_tasks_from_text nd (a ++ [newline] ++ b) =
  if truthy (listed nd a ++ listed nd b)
  then listed nd a ++ listed nd b
  else extract_tasks_from_text nd a ++ extract_tasks_from_text nd b.
Proof.
  simpl app. rewrite !extract_listed, listed_app.
  destruct (listed nd a), (listed nd b); simpl; try done.
  unfold Spec.nonblank_lines.
  by rewrite split_nl_app, map_app, List.filter_app.
Qed.

(** X5.  Two texts put on consecutive lines: as soon as a line of either
    is taken by a rule, the result is what the rules take from both, and
    the lines that only the fallback would have returned are gone; else
    the result is the two results one after the other. *)
Theorem extract_two_texts a b :
  extract_tasks_from_text nd (a ++ [newline] ++ b) =
  if truthy (listed nd a ++ listed nd b)
  then listed nd a ++ listed nd b
  else extract_tasks_from_text nd a ++ extract_tasks_from_text nd b.
Proof. apply extract_over_lines. Qed.

(** When both texts hold a line taken by a rule, extraction distributes. *)
Corollary extract_two_lists a b :
  listed nd a ≠ [] → listed nd b ≠ [] →
  extract_tasks_from_text nd (a ++ [newline] ++ b)
  = extract_tasks_from_text nd a ++ extract_tasks_from_text nd b.
Proof.
  intros Ha Hb. rewrite extract_over_lines, !extract_listed.
  by destruct (listed nd a), (listed nd b).
Qed.

(** *** A numbered list is read back as it was written *)

Lemma split_nl_line l : no_newline l → split_nl l = [l].
Proof.
  induction 1 as [|c l Hc Hl IH]; simpl; [done|].
  destruct (N.eqb_spec c newline); [done|]. by rewrite IH.
Qed.

Lemma strip_lstrip s : lstrip (strip s) = strip s.
Proof. unfold strip. by rewrite lstrip_rstrip, lstrip_idemp. Qed.

Lemma decimal_digits d :
  Forall (fun c => (0x30 <=? c) && (c <=? 0x39) = true)
         (lit (NilEmpty.string_of_uint d)).
Proof. induction d; simpl; constructor; done. Qed.

Lemma to_little_uint_nonnil n acc :
  acc ≠ Decimal.Nil → Nat.to_little_uint n acc ≠ Decimal.Nil.
Proof.
  revert acc. induction n as [|n IH]; intros acc H; simpl; [done|].
  apply IH. by destruct acc.
Qed.

Lemma str_of_nat_digits n :
  str_of_nat n ≠ []
  ∧ Forall (fun c => (0x30 <=? c) && (c <=? 0x39) = true) (str_of_nat n).
Proof.
  unfold str_of_nat. split; [|apply decimal_digits].
  assert (Nat.to_uint n ≠ Decimal.Nil) as H.
  { unfold Nat.to_uint. intros E%DecimalFacts.rev_nil_inv.
    by apply (to_little_uint_nonnil n (Decimal.D0 Decimal.Nil)). }
  by destruct (Nat.to_uint n).
Qed.

Lemma ascii_digit_facts c :
  (0x30 <=? c) && (c <=? 0x39) = true →
  isdecimal nd c = true ∧ isspace c = false ∧ c ≠ newline.
Proof.
  intros [H1%N.leb_le H2%N.leb_le]%andb_true_iff. unfold isdecimal.
  assert ((c <? 128) = true) as -> by (apply N.ltb_lt; lia).
  split_and!.
  - apply andb_true_iff. split; by apply N.leb_le.
  - unfold isspace.
    repeat match goal with
           | |- context [?a <=? ?b] => destruct (N.leb_spec a b); try lia
           | |- context [?a =? ?b] => destruct (N.eqb_spec a b); try lia
           end; done.
  - unfold newline. lia.
Qed.

Lemma right_clean_app a b : b ≠ [] → right_clean b → right_clean (a ++ b).
Proof.
  unfold right_clean. intros Hb H.
  destruct b as [|x b _] using rev_ind; [done|].
  rewrite app_assoc, last_snoc. by rewrite last_snoc in H.
Qed.

(** One numbered line. *)
Lemma listed_numbered_line ds t :
  ds ≠ [] → Forall (fun c => (0x30 <=? c) && (c <=? 0x39) = true) ds →
  t ≠ [] → strip t = t → no_newline t →
  listed nd (ds ++ lit ". " ++ t) = [t].
Proof.
  intros Hds Fds Ht Hs Hn.
  assert (right_clean t) as Hrc by (rewrite <- Hs; apply strip_right_clean).
  assert (lstrip t = t) as Hl by (rewrite <- Hs; apply strip_lstrip).
  destruct t as [|c t']; [done|].
  assert (isspace c = false) as Hc by (by apply (lstrip_keeps_head c t')).
  set (line := ds ++ lit ". " ++ c :: t').
  assert (no_newline line) as Hnl.
  { unfold line, no_newline. rewrite !Forall_app. split_and!.
    - eapply Forall_impl; [exact Fds|]. intros x Hx. by apply ascii_digit_facts.
    - repeat constructor; done.
    - done. }
  assert (strip line = line) as Hsl.
  { apply strip_clean.
    - unfold line. rewrite app_assoc. by apply right_clean_app.
    - unfold line. destruct ds as [|d ds']; [done|].
      inversion Fds; subst. apply lstrip_fixed. by apply ascii_digit_facts. }
  rewrite listed_items. unfold Spec.nonblank_lines.
  rewrite (split_nl_line line Hnl). simpl. rewrite Hsl.
  assert (Spec.numbered_item nd line = Some (c :: t')) as Hnum.
  { apply numbered_item_shape. exists ds, [0x20], c, t'. split_and!; try done.
    - eapply Forall_impl; [exact Fds|]. intros x Hx. by apply ascii_digit_facts.
    - by repeat constructor. }
  destruct line; [by destruct ds|]. cbn. unfold Spec.line_rule.
  by rewrite Hnum.
Qed.

Lemma listed_join_lines lines tasks :
  Forall2 (fun l t => listed nd l = [t]) lines tasks →
  listed nd (join_lines lines) = tasks.
Proof.
  induction 1 as [|l t lines tasks Hl HF IH]; [done|].
  destruct lines as [|l' lines].
  - inversion HF; subst. exact Hl.
  - change (join_lines (l :: l' :: lines))
      with (l ++ newline :: join_lines (l' :: lines)).
    by rewrite listed_app, Hl, IH.
Qed.

(** X6.  Round trip: a list of clean tasks written one to a line as
    "1. task", "2. task", ... is read back unchanged. *)
Theorem extract_numbered_lines (tasks : list str) :
  Forall (fun t => t ≠ [] ∧ strip t = t ∧ no_newline t) tasks →
  extract_tasks_from_text nd (numbered_lines tasks) = tasks.
Proof.
  intros H. rewrite extract_listed.
  assert (listed nd (numbered_lines tasks) = tasks) as ->.
  { unfold numbered_lines. apply listed_join_lines.
    apply Forall2_same_length_lookup. split; [by rewrite length_imap|].
    intros i l t Hl Ht. rewrite list_lookup_imap, Ht in Hl. injection Hl as <-.
    rewrite Forall_forall in H.
    destruct (H t) as (H1 & H2 & H3); [by eapply list_elem_of_lookup_2|].
    destruct (str_of_nat_digits (i + 1)) as [Hd1 Hd2].
    by apply listed_numbered_line. }
  destruct tasks; [by vm_compute | done].
Qed.

End ExtractMore.

Lemma extract_tasks_clean_witness :
  In (Py.lit "Pack") (extract_tasks_from_text (fun _ => false) (Py.lit " 1. Pack "))
  ∧ Py.lit "Pack" ≠ [] ∧ Py.strip (Py.lit "Pack") = Py.lit "Pack" ∧ no_newline (Py.lit "Pack").
Proof.
  assert (In (Py.lit "Pack") (extract_tasks_from_text (fun _ => false) (Py.lit " 1. Pack "))) as H
    by (vm_compute; tauto).
  split; [exact H | exact (extract_tasks_clean (fun _ => false) _ _ H)].
Defined.

(** ** The document builder *)

Section BpmnMore.
Import Py Bpmn.

Lemma flow_name_inj i j : flow_name i = flow_name j → i = j.
Proof. unfold flow_name. intros H%app_inv_head%str_of_nat_inj. lia. Qed.

Lemma omap_imap {A B C} (f : B → option C) (g : nat → A → B) (h : nat → A → C)
      (l : list A) :
  (∀ i x, f (g i x) = Some (h i x)) → omap f (imap g l) = imap h l.
Proof.
  revert g h. induction l as [|x l IH]; intros g h H; [done|].
  cbn. rewrite H. f_equal. apply IH. intros i y. apply H.
Qed.

Lemma omap_map {A B C} (f : B → option C) (g : A → B) (h : A → C) (l : list A) :
  (∀ x, f (g x) = Some (h x)) → omap f (map g l) = map h l.
Proof. intros H. induction l as [|x l IH]; [done|]. cbn. by rewrite H, IH. Qed.

Lemma element_ids_chain (tasks : list str) process_name :
  tasks ≠ [] →
  element_ids (generate_enhanced_bpmn_xml tasks process_name)
  = map (chain_node (length tasks)) (seq 0 (length tasks + 2)).
Proof.
  intros Hne.
  destruct (document_is_linear_chain tasks process_name Hne)
    as (Ht & _ & _ & _ & Hs & He & _).
  unfold element_ids. rewrite Ht, Hs, He.
  rewrite !omap_app.
  replace (length tasks + 2)%nat with (1 + (length tasks + 1))%nat by lia.
  rewrite seq_app, map_app, seq_app, map_app.
  f_equal. f_equal.
  - rewrite (omap_imap _ _ (fun i _ => task_id i)) by done.
    apply list_eq. intros i. rewrite list_lookup_imap, list_lookup_fmap.
    destruct (tasks !! i) as [t|] eqn:E; simpl.
    + apply lookup_lt_Some in E. rewrite lookup_seq_lt by done. simpl.
      unfold chain_node. rewrite (proj2 (Nat.leb_le _ _)) by lia. done.
    + apply lookup_ge_None in E. by rewrite lookup_seq_ge.
  - simpl. unfold chain_node. rewrite (proj2 (Nat.leb_gt _ _)) by lia. done.
Qed.

Lemma flow_ids_chain (tasks : list str) process_name :
  tasks ≠ [] →
  flow_ids (generate_enhanced_bpmn_xml tasks process_name)
  = map flow_name (seq 0 (S (length tasks))).
Proof.
  intros Hne.
  destruct (document_is_linear_chain tasks process_name Hne)
    as (_ & _ & _ & Hf & _).
  unfold flow_ids. rewrite Hf, map_map.
  by apply omap_map.
Qed.

(** X7.  In the document of a non-empty task list the ids of the elements
    are pairwise distinct, and so are the ids of the flows. *)
Theorem document_ids_unique (tasks : list str) process_name :
  tasks ≠ [] →
  NoDup (element_ids (generate_enhanced_bpmn_xml tasks process_name))
  ∧ NoDup (flow_ids (generate_enhanced_bpmn_xml tasks process_name)).
Proof.
  intros Hne. rewrite element_ids_chain, flow_ids_chain by done. split.
  - apply chain_nodes_distinct.
  - apply (NoDup_fmap_2_strong flow_name); [|apply NoDup_seq].
    intros i j _ _. apply flow_name_inj.
Qed.

(** X8.  Every flow of the document joins two different elements of the
    document; none enters the start event and none leaves the end event. *)
Theorem document_flows_closed (tasks : list str) process_name f :
  tasks ≠ [] →
  f ∈ flow_entries (generate_enhanced_bpmn_xml tasks process_name) →
  ∃ src tgt,
    field (lit "@sourceRef") f = Some src
    ∧ field (lit "@targetRef") f = Some tgt
    ∧ src ∈ element_ids (generate_enhanced_bpmn_xml tasks process_name)
    ∧ tgt ∈ element_ids (generate_enhanced_bpmn_xml tasks process_name)
    ∧ src ≠ tgt ∧ src ≠ end_id ∧ tgt ≠ start_id.
Proof.
  intros Hne Hf. rewrite element_ids_chain by done.
  destruct (document_is_linear_chain tasks process_name Hne)
    as (_ & _ & _ & Hfl & _).
  rewrite Hfl in Hf.
  apply list_elem_of_fmap in Hf as (fl & -> & Hfl').
  apply list_elem_of_fmap in Hfl' as (k & -> & Hk%elem_of_seq).
  set (n := length tasks) in *.
  exists (chain_node n k), (chain_node n (S k)). split_and!.
  - reflexivity.
  - reflexivity.
  - apply list_elem_of_fmap. exists k. split; [done|]. apply elem_of_seq. lia.
  - apply list_elem_of_fmap. exists (S k). split; [done|]. apply elem_of_seq. lia.
  - intros E%chain_node_inj; lia.
  - assert (end_id = chain_node n (S n)) as ->.
    { unfold chain_node. by rewrite (proj2 (Nat.leb_gt _ _)) by lia. }
    intros E%chain_node_inj; lia.
  - change start_id with (chain_node n 0). intros E%chain_node_inj; lia.
Qed.

End BpmnMore.

(** ** The diagram builder *)

Section GraphMore.
Import Py Graphviz.

Lemma node_id_inj i j : node_id i = node_id j → i = j.
Proof. unfold node_id. by intros H%app_inv_head%str_of_nat_inj. Qed.

Lemma node_id_head i : head (node_id i) = Some 0x74.
Proof. reflexivity. Qed.

Lemma graph_node_inj n i j :
  (i <= S n)%nat → (j <= S n)%nat → graph_node n i = graph_node n j → i = j.
Proof.
  unfold graph_node. intros Hi Hj.
  destruct (Nat.leb_spec i n), (Nat.leb_spec j n);
    destruct i as [|i], j as [|j]; simpl; try lia; intros Heq;
    try (apply node_id_inj in Heq; lia);
    apply (f_equal head) in Heq; rewrite ?node_id_head in Heq; by vm_compute in Heq.
Qed.

Lemma graph_names (tasks : list str) title :
  declared (nodes (create_enhanced_graph tasks title))
  = map (graph_node (length tasks)) (seq 0 (length tasks + 2)).
Proof.
  rewrite graph_nodes. unfold declared. rewrite !omap_app.
  replace (length tasks + 2)%nat with (1 + (length tasks + 1))%nat by lia.
  rewrite seq_app, map_app, seq_app, map_app.
  f_equal. f_equal.
  - rewrite (omap_imap _ _ (fun i _ => node_id i)) by done.
    apply list_eq. intros i. rewrite list_lookup_imap, list_lookup_fmap.
    destruct (tasks !! i) as [t|] eqn:E; simpl.
    + apply lookup_lt_Some in E. rewrite lookup_seq_lt by done. simpl.
      unfold graph_node. rewrite (proj2 (Nat.leb_le _ _)) by lia. done.
    + apply lookup_ge_None in E. by rewrite lookup_seq_ge.
  - simpl. unfold graph_node. rewrite (proj2 (Nat.leb_gt _ _)) by lia. done.
Qed.

Lemma graph_links (tasks : list str) title :
  tasks ≠ [] →
  edges (create_enhanced_graph tasks title)
  = map (fun k => EdgeStmt (graph_node (length tasks) k) (graph_node (length tasks) (S k)))
        (seq 0 (S (length tasks))).
Proof.
  intros Hne. rewrite graph_edges.
  assert (truthy tasks = true) as -> by (by destruct tasks).
  rewrite seq_S, map_app. simpl. f_equal.
  - apply list_eq. intros i. rewrite list_lookup_imap, list_lookup_fmap.
    destruct (tasks !! i) as [t|] eqn:E; simpl.
    + apply lookup_lt_Some in E. rewrite lookup_seq_lt by done. simpl.
      unfold graph_node. rewrite !(proj2 (Nat.leb_le _ _)) by lia. done.
    + apply lookup_ge_None in E. by rewrite lookup_seq_ge.
  - unfold graph_node. rewrite Nat.leb_refl.
    rewrite (proj2 (Nat.leb_gt _ _)) by lia. done.
Qed.

(** X9.  For a non-empty task list of length n the diagram has the n + 2
    nodes start, task_0, ..., task_(n-1), end, with distinct names, and the
    n + 1 edges that join each node to the next. *)
Theorem graph_linear_chain (tasks : list str) title :
  tasks ≠ [] →
  let n := length tasks in
  let g := create_enhanced_graph tasks title in
  declared (nodes g) = map (graph_node n) (seq 0 (n + 2))
  ∧ length (nodes g) = (n + 2)%nat
  ∧ NoDup (declared (nodes g))
  ∧ edges g = map (fun k => EdgeStmt (graph_node n k) (graph_node n (S k))) (seq 0 (S n))
  ∧ length (edges g) = (n + 1)%nat.
Proof.
  intros Hne n g. split_and!.
  - apply graph_names.
  - unfold g. rewrite graph_nodes, !length_app, length_imap. simpl. lia.
  - unfold g. rewrite graph_names.
    apply (NoDup_fmap_2_strong (graph_node n)); [|apply NoDup_seq].
    intros i j Hi%elem_of_seq Hj%elem_of_seq. apply graph_node_inj; lia.
  - by apply graph_links.
  - unfold g. rewrite graph_links by done. rewrite length_map, length_seq. lia.
Qed.

(** *** Edges only join declared nodes *)

Lemma snoc_split {A} (body pre post : list A) (s e : A) :
  body ++ [s] = pre ++ e :: post →
  (∃ post', post = post' ++ [s] ∧ body = pre ++ e :: post')
  ∨ (post = [] ∧ s = e ∧ body = pre).
Proof.
  destruct post as [|x post _] using rev_ind.
  - intros [-> ->]%app_inj_tail. by right.
  - rewrite app_comm_cons, app_assoc. intros [-> ->]%app_inj_tail.
    left. by exists post.
Qed.

Lemma declared_app body more x : x ∈ declared body → x ∈ declared (body ++ more).
Proof. unfold declared. rewrite omap_app, elem_of_app. by left. Qed.

Lemma edges_declared_nil : edges_declared [].
Proof. intros pre a b post E. by destruct pre. Qed.

Lemma edges_declared_other body s :
  is_edge s = false → edges_declared body → edges_declared (body ++ [s]).
Proof.
  intros Hs H pre a b post [(post' & -> & ->)|(-> & -> & ->)]%snoc_split.
  - by apply (H pre a b post').
  - done.
Qed.

Lemma edges_declared_edge body a b :
  a ∈ declared body → b ∈ declared body → edges_declared body →
  edges_declared (body ++ [EdgeStmt a b]).
Proof.
  intros Ha Hb H pre a' b' post [(post' & -> & ->)|(-> & E & ->)]%snoc_split.
  - by apply (H pre a' b' post').
  - by injection E as <- <-.
Qed.

Lemma declared_snoc_node body name label attrs :
  name ∈ declared (body ++ [NodeStmt name label attrs]).
Proof. unfold declared. rewrite omap_app, elem_of_app. right. cbn. by left. Qed.

Lemma add_task_node_keeps dot prev it :
  edges_declared (body dot) → prev ∈ declared (body dot) →
  edges_declared (body (add_task_node (dot, prev) it).1)
  ∧ (add_task_node (dot, prev) it).2 ∈ declared (body (add_task_node (dot, prev) it).1).
Proof.
  intros H Hp. destruct it as [i task]. simpl. split.
  - apply edges_declared_edge.
    + by apply declared_app.
    + apply declared_snoc_node.
    + by apply edges_declared_other.
  - apply declared_app, declared_snoc_node.
Qed.

Lemma add_task_nodes_keep items dot prev :
  edges_declared (body dot) → prev ∈ declared (body dot) →
  edges_declared (body (fold_left add_task_node items (dot, prev)).1)
  ∧ (fold_left add_task_node items (dot, prev)).2
    ∈ declared (body (fold_left add_task_node items (dot, prev)).1).
Proof.
  revert dot prev. induction items as [|it items IH]; intros dot prev H Hp; [done|].
  cbn [fold_left]. destruct (add_task_node_keeps dot prev it H Hp) as [H' Hp'].
  destruct (add_task_node (dot, prev) it) as [dot' prev']. by apply IH.
Qed.

(** X10.  In the body of a diagram every edge joins two nodes that were
    declared before it, for every task list. *)
Theorem graph_edges_declared (tasks : list str) title :
  edges_declared (body (create_enhanced_graph tasks title)).
Proof.
  unfold create_enhanced_graph.
  set (dot0 := node (lit "start") _ _ _).
  assert (edges_declared (body dot0)) as H0.
  { unfold dot0. simpl.
    apply (edges_declared_other [_; _]); [done|].
    apply (edges_declared_other [_]); [done|].
    apply (edges_declared_other []); [done|].
    apply edges_declared_nil. }
  assert (lit "start" ∈ declared (body dot0)) as Hp0.
  { apply (declared_snoc_node [_; _]). }
  destruct (add_task_nodes_keep (enumerate tasks) dot0 (lit "start") H0 Hp0) as [H Hp].
  destruct (fold_left add_task_node (enumerate tasks) (dot0, lit "start")) as [dot prev].
  simpl in H, Hp.
  assert (edges_declared (body (node (lit "end") (lit "END")
            [(lit "shape", lit "circle"); (lit "fillcolor", lit "lightcoral")] dot))) as He.
  { simpl. by apply edges_declared_other. }
  destruct (truthy tasks); [|exact He].
  simpl. apply edges_declared_edge.
  - by apply declared_app.
  - apply declared_snoc_node.
  - exact He.
Qed.

End GraphMore.

(** ** The orchestration *)

Section OrchestrationMore.
Import App.
Variable nd : char -> bool.
Variable str_lower : str -> str.
Variable template : attribute.
Variable llm : stage -> list (string * str) -> reply.
Variables show_xml show_prompts : bool.
Variables process_description process_name : str.

Local Abbreviation pressed :=
  (pressed nd str_lower template llm show_xml show_prompts process_description process_name).
Local Abbreviation description := [("description"%string, process_description)].

Ltac paths Hd :=
  rewrite ?(summary_pressed nd str_lower template llm show_xml show_prompts
              process_description process_name Hd),
          ?(locals_pressed nd str_lower template llm show_xml show_prompts
              process_description process_name Hd);
  cbv zeta;
  try match goal with
    | |- context [prompt_fails ?b ?t] => destruct (prompt_fails b t) as [?exn|] eqn:?
    end;
  repeat match goal with
    | |- context [match llm ?s ?a with _ => _ end] =>
        destruct (llm s a) as [?out|?exn] eqn:?
    end.

Ltac members :=
  repeat first [ setoid_rewrite elem_of_cons | setoid_rewrite elem_of_nil
               | setoid_rewrite elem_of_app ].

Ltac lookups :=
  repeat first [ rewrite lookup_insert_eq | rewrite lookup_insert_ne by done
               | rewrite lookup_empty ].

Ltac in_list := repeat first [ by left | right ].

Ltac settle Hd :=
  paths Hd; lookups; members; unfold stage_error, skip_notice;
  intros; destruct_or?; simplify_eq;
  repeat match goal with
    | H1 : llm ?s ?a = _, H2 : llm ?s ?a = _ |- _ => rewrite H1 in H2; simplify_eq
    end;
  try done; try congruence; in_list.

Lemma run_on_page s args page : Run s args ∈ page ↔ Run s args ∈ summary page.
Proof. rewrite elem_of_summary. split; [by intros H | by intros [H _]]. Qed.

Lemma notice_on_page s page : skip_notice s ∈ page ↔ skip_notice s ∈ summary page.
Proof. rewrite elem_of_summary. split; [by intros H | by intros [H _]]. Qed.

Lemma calls_summary page : calls (summary page) = calls page.
Proof.
  unfold calls, summary. induction page as [|e page IH]; [done|].
  destruct e; cbn; by rewrite ?IH.
Qed.

(** X11.  The stages are called in the order of the lifecycle, each at
    most once: the stages called are the first k of the five.  When the
    prompts are shown and reading them raises, no stage is called; in
    every other run identification and discovery are, so k is at least
    2. *)
Theorem calls_in_order :
  Py.strip process_description ≠ [] →
  ∃ k, calls (ui pressed) = take k lifecycle
       ∧ match prompt_fails show_prompts template with
         | Some _ => k = 0%nat
         | None => (2 <= k <= 5)%nat
         end.
Proof.
  intros Hd. rewrite <- calls_summary. paths Hd.
  all: unfold stage_error, skip_notice; cbn [calls omap list_omap app].
  all: first [ by exists 0%nat
             | by exists 2%nat; split; [|lia]
             | by exists 3%nat; split; [|lia]
             | by exists 4%nat; split; [|lia]
             | by exists 5%nat; split; [|lia] ].
Qed.

(** X26.  With the prompts shown and no attribute [template] on them,
    reading the prompt raises in every stage that is entered, before its
    call: no stage is called and no result is bound; identification and
    discovery show their error with the message of the exception, the
    three later stages their notice. *)
Theorem prompts_block_calls e :
  Py.strip process_description ≠ [] →
  show_prompts = true → template = Missing e →
  calls (ui pressed) = []
  ∧ locals pressed = ∅
  ∧ ∀ s, match predecessor s with
         | None => stage_error s e ∈ ui pressed
         | Some _ => skip_notice s ∈ ui pressed
         end.
Proof.
  intros Hd Hs Ht.
  assert (prompt_fails show_prompts template = Some e) as Hb by (by rewrite Hs, Ht).
  assert (∀ x, x ∈ summary (ui pressed) → x ∈ ui pressed) as Hin
    by (by intros x [? _]%elem_of_summary).
  rewrite <- calls_summary.
  rewrite (locals_pressed nd str_lower template llm show_xml show_prompts
             process_description process_name Hd), Hb.
  split_and!; [|done|].
  - by rewrite (summary_pressed nd str_lower template llm show_xml show_prompts
               process_description process_name Hd), Hb.
  - intros s.
    destruct s; cbn [predecessor]; apply Hin;
      rewrite (summary_pressed nd str_lower template llm show_xml show_prompts
                 process_description process_name Hd), Hb;
      members; in_list.
Qed.

Lemma inputs_of_calls (s : stage) args :
  Py.strip process_description ≠ [] →
  Run s args ∈ ui pressed →
  match s with
  | Identification | Discovery => args = description
  | Analysis =>
      ∃ steps, llm Discovery description = Returned steps
               ∧ args = [("steps"%string, steps)]
  | Redesign =>
      ∃ steps analysis,
        llm Discovery description = Returned steps
        ∧ llm Analysis [("steps"%string, steps)] = Returned analysis
        ∧ args = [("steps"%string, steps); ("analysis"%string, analysis)]
  | Monitoring =>
      ∃ steps analysis redesigned,
        llm Discovery description = Returned steps
        ∧ llm Analysis [("steps"%string, steps)] = Returned analysis
        ∧ llm Redesign [("steps"%string, steps); ("analysis"%string, analysis)]
          = Returned redesigned
        ∧ args = [("redesigned_process"%string, redesigned)]
  end.
Proof.
  intros Hd Hin%run_on_page. revert Hin.
  destruct s; paths Hd; members; unfold stage_error, skip_notice;
    intros; destruct_or?; simplify_eq; try done;
    repeat eexists; try eassumption; reflexivity.
Qed.

(** X12.  Each stage is called with the texts returned by the stages
    before it: analysis with the steps of discovery, redesign with those
    steps and the analysis, monitoring with the redesigned process. *)
Theorem stage_inputs (s : stage) args :
  Py.strip process_description ≠ [] →
  Run s args ∈ ui pressed →
  match s with
  | Identification | Discovery => args = description
  | Analysis =>
      ∃ steps, llm Discovery description = Returned steps
               ∧ args = [("steps"%string, steps)]
  | Redesign =>
      ∃ steps analysis,
        llm Discovery description = Returned steps
        ∧ llm Analysis [("steps"%string, steps)] = Returned analysis
        ∧ args = [("steps"%string, steps); ("analysis"%string, analysis)]
  | Monitoring =>
      ∃ steps analysis redesigned,
        llm Discovery description = Returned steps
        ∧ llm Analysis [("steps"%string, steps)] = Returned analysis
        ∧ llm Redesign [("steps"%string, steps); ("analysis"%string, analysis)]
          = Returned redesigned
        ∧ args = [("redesigned_process"%string, redesigned)]
  end.
Proof. apply inputs_of_calls. Qed.

(** X13.  A later stage is either called or skipped with its notice,
    never both and never neither. *)
Theorem called_or_skipped (s p : stage) :
  Py.strip process_description ≠ [] →
  predecessor s = Some p →
  attempted s (ui pressed) ↔ skip_notice s ∉ ui pressed.
Proof.
  intros Hd Hp. unfold attempted.
  rewrite notice_on_page. setoid_rewrite run_on_page.
  destruct s; cbn [predecessor] in Hp; simplify_eq;
    paths Hd; members; unfold stage_error, skip_notice;
    (split; [intros [args H] H'; destruct_or?; simplify_eq
            | intros H; first [ by eexists; in_list
                              | exfalso; apply H; in_list ] ]).
Qed.

(** X14.  After a failed call of discovery, analysis or redesign, no
    later stage is called and each later stage shows its notice. *)
Theorem failure_cascades (s s' : stage) args e :
  Py.strip process_description ≠ [] →
  Run s args ∈ ui pressed → llm s args = Raised e →
  s ≠ Identification → (stage_index s < stage_index s')%nat →
  ¬ attempted s' (ui pressed) ∧ skip_notice s' ∈ ui pressed.
Proof.
  intros Hd Hin%run_on_page Hl Hs Hlt. unfold attempted.
  rewrite notice_on_page. setoid_rewrite run_on_page. revert Hin Hl.
  destruct s; [done|..]; destruct s'; cbn [stage_index] in Hlt; try lia;
    paths Hd; members; unfold stage_error, skip_notice;
    intros; destruct_or?; simplify_eq;
    repeat match goal with
      | H1 : llm ?s ?a = _, H2 : llm ?s ?a = _ |- _ => rewrite H1 in H2; simplify_eq
      end;
    (split; [intros [args' H']; destruct_or?; simplify_eq | in_list]).
Qed.

(** X15.  The result of a stage is bound exactly when its call was made
    and returned, and it holds the text returned. *)
Theorem result_iff_returned (s : stage) out :
  Py.strip process_description ≠ [] →
  locals pressed !! result_var s = Some out ↔
  ∃ args, Run s args ∈ ui pressed ∧ llm s args = Returned out.
Proof.
  intros Hd.
  rewrite (output_iff_returned_summary nd str_lower template llm show_xml show_prompts
             process_description process_name s out Hd).
  by setoid_rewrite <- run_on_page.
Qed.

End OrchestrationMore.

(** ** How a run ends *)

Section RunEnds.
Import App.
Variable nd : char -> bool.
Variable str_lower : str -> str.
Variable template : attribute.
Variable llm : stage -> list (string * str) -> outcome.
Variables show_xml show_prompts : bool.
Variables process_description process_name : str.

Local Arguments Py.lit : simpl never.
Local Arguments emoji : simpl never.

Lemma stops_emit e : stops_at_escape llm (emit e).
Proof. by intros st. Qed.

Lemma stops_bind {A B} (m : M A) (k : A → M B) :
  stops_at_escape llm m → (∀ a, stops_at_escape llm (k a)) →
  stops_at_escape llm (bind m k).
Proof.
  intros Hm Hk st. unfold bind. specialize (Hm st).
  destruct (m st) as [[a|e] st']; [apply Hk | exact Hm].
Qed.

(** A call stops the run when it ends in an exception outside
    [Exception]; the call is then the last event of the page. *)
Lemma chain_run_ends s args st :
  match chain_run llm s args st with
  | (inl out, st') => llm s args = Reply (Returned out)
  | (inr (Exception e), st') => llm s args = Reply (Raised e)
  | (inr (BaseException e), st') =>
      llm s args = Escapes e ∧ last (ui st') = Some (Run s args)
  end.
Proof.
  unfold chain_run, bind, emit, ret, raise.
  destruct (llm s args) as [[out|e]|e]; cbn [ui]; [done|done|].
  split; [done | apply last_snoc].
Qed.

(** A handler that ends well makes a block that lets through only what
    escaped from a call in its body. *)
Lemma stops_try (body : M unit) (handler : str → M unit) :
  (∀ st, match body st with
         | (inr (BaseException e), st') =>
             ∃ s args, last (ui st') = Some (Run s args) ∧ llm s args = Escapes e
         | _ => True
         end) →
  (∀ e, stops_at_escape llm (handler e)) →
  stops_at_escape llm (try_except body handler).
Proof.
  intros Hbody Hh st. unfold try_except. specialize (Hbody st).
  destruct (body st) as [[[]|[e|e]] st']; [done | apply Hh | exact Hbody].
Qed.

(** What a block lets through, step by step. *)
Lemma body_bind {A} (m : M A) (k : A → M unit) :
  (∀ st, match m st with
         | (inr (BaseException e), st') =>
             ∃ s args, last (ui st') = Some (Run s args) ∧ llm s args = Escapes e
         | _ => True
         end) →
  (∀ a st, match k a st with
           | (inr (BaseException e), st') =>
               ∃ s args, last (ui st') = Some (Run s args) ∧ llm s args = Escapes e
           | _ => True
           end) →
  ∀ st, match bind m k st with
        | (inr (BaseException e), st') =>
            ∃ s args, last (ui st') = Some (Run s args) ∧ llm s args = Escapes e
        | _ => True
        end.
Proof.
  intros Hm Hk st. unfold bind. specialize (Hm st).
  destruct (m st) as [[a|e] st']; [apply Hk | exact Hm].
Qed.

Lemma body_run s args st :
  match chain_run llm s args st with
  | (inr (BaseException e), st') =>
      ∃ s args, last (ui st') = Some (Run s args) ∧ llm s args = Escapes e
  | _ => True
  end.
Proof.
  pose proof (chain_run_ends s args st) as H.
  destruct (chain_run llm s args st) as [[out|[e|e]] st']; [done|done|].
  destruct H as [H1 H2]. by exists s, args.
Qed.

Lemma body_quiet {A} (m : M A) :
  (∀ st, match m st with (inr (BaseException _), _) => False | _ => True end) →
  ∀ st, match m st with
        | (inr (BaseException e), st') =>
            ∃ s args, last (ui st') = Some (Run s args) ∧ llm s args = Escapes e
        | _ => True
        end.
Proof.
  intros H st. specialize (H st). by destruct (m st) as [[a|[e|e]] st'].
Qed.

Ltac quiet :=
  apply body_quiet; intros [page vars];
  cbv [when view_prompt emit raise ret load store show_flow bind];
  repeat first
    [ done
    | match goal with
      | |- context [if ?b then _ else _] => destruct b
      | |- context [match template with _ => _ end] => destruct template
      | |- context [match ?m !! ?k with _ => _ end] => destruct (m !! k)
      end ].

Ltac body :=
  repeat first
    [ apply body_run
    | apply body_bind; [|intros ?]
    | quiet ].

Ltac block :=
  apply stops_try; [body | intros ?; apply stops_emit].

Lemma tab1_stops :
  stops_at_escape llm (tab1 template llm show_prompts process_description).
Proof.
  unfold tab1. do 2 (apply stops_bind; [apply stops_emit | intros _]). block.
Qed.

Lemma tab2_stops :
  stops_at_escape llm
    (tab2 nd str_lower template llm show_xml show_prompts process_description process_name).
Proof.
  unfold tab2. do 2 (apply stops_bind; [apply stops_emit | intros _]). block.
Qed.

Lemma tab3_stops : stops_at_escape llm (tab3 template llm show_prompts).
Proof.
  unfold tab3. do 2 (apply stops_bind; [apply stops_emit | intros _]).
  apply stops_bind; [by intros st | intros [|]]; [block | apply stops_emit].
Qed.

Lemma tab4_stops :
  stops_at_escape llm (tab4 nd str_lower template llm show_xml show_prompts process_name).
Proof.
  unfold tab4. do 2 (apply stops_bind; [apply stops_emit | intros _]).
  apply stops_bind; [by intros st | intros [|]]; [block | apply stops_emit].
Qed.

Lemma tab5_stops : stops_at_escape llm (tab5 template llm show_prompts).
Proof.
  unfold tab5. do 2 (apply stops_bind; [apply stops_emit | intros _]).
  apply stops_bind; [by intros st | intros [|]]; [block | apply stops_emit].
Qed.

(** X16.  The body of the button lets no [Exception] through: not a
    failure of the model, not the error of reading a prompt, not a local
    read before it is bound.  It ends normally, or in an exception outside
    [Exception] in which a call of the model ended; that call is then the
    last event of the page.  This holds whatever the page and the locals
    it starts from. *)
Theorem run_stops_at_escape st :
  match run_complete_analysis nd str_lower template llm show_xml show_prompts
          process_description process_name st with
  | (inl _, _) => True
  | (inr (Exception _), _) => False
  | (inr (BaseException e), st') =>
      ∃ s args, last (ui st') = Some (Run s args) ∧ llm s args = Escapes e
  end.
Proof.
  revert st. change (stops_at_escape llm
    (run_complete_analysis nd str_lower template llm show_xml show_prompts
       process_description process_name)).
  unfold run_complete_analysis. destruct (negb _); [apply stops_emit|].
  apply stops_bind; [apply tab1_stops | intros _].
  apply stops_bind; [apply tab2_stops | intros _].
  apply stops_bind; [apply tab3_stops | intros _].
  apply stops_bind; [apply tab4_stops | intros _].
  apply stops_bind; [apply tab5_stops | intros _].
  apply stops_bind; [apply stops_emit | intros _]. apply stops_emit.
Qed.

End RunEnds.

(** ** Diagrams and downloads of a run *)

Section OrchestrationFlows.
Import App.
Variable nd : char -> bool.
Variable str_lower : str -> str.
Variable template : attribute.
Variable llm : stage -> list (string * str) -> reply.
Variables show_xml show_prompts : bool.
Variables process_description process_name : str.

Local Abbreviation pressed :=
  (pressed nd str_lower template llm show_xml show_prompts process_description process_name).
Local Abbreviation description := [("description"%string, process_description)].
Local Abbreviation flow :=
  (flow_events show_xml (file_stem str_lower process_name) process_name).

Ltac members :=
  repeat first [ setoid_rewrite elem_of_cons | setoid_rewrite elem_of_nil
               | setoid_rewrite elem_of_app ].

Ltac lookups :=
  repeat first [ rewrite lookup_insert_eq | rewrite lookup_insert_ne by done
               | rewrite lookup_empty ].

Ltac in_list := repeat first [ by left | right ].

Ltac run_tab L :=
  rewrite L;
  match goal with H : prompt_fails _ _ = _ |- _ => rewrite ?H end;
  cbv beta iota zeta; cbn [ui locals]; lookups; cbv beta iota zeta;
  try match goal with
      | |- context [match llm ?s ?a with _ => _ end] => destruct (llm s a) as [?out|?exn] eqn:?
      end.

Ltac run_all Hd :=
  try unfold App.pressed; unfold run_complete_analysis;
  destruct (Py.strip process_description); [done|];
  destruct (prompt_fails show_prompts template) as [?exn|] eqn:?;
  cbn [Py.truthy negb]; cbv [bind];
  run_tab tab1_spec; run_tab tab2_spec; run_tab tab3_spec;
  run_tab tab4_spec; run_tab tab5_spec;
  cbv [emit]; cbn [snd ui locals].

Lemma shown_app p q : shown_flows (p ++ q) = shown_flows p ++ shown_flows q.
Proof. apply List.filter_app. Qed.

Lemma shown_prompt s : shown_flows (prompt_events show_prompts s) = [].
Proof. unfold prompt_events. by destruct show_prompts. Qed.

Lemma shown_flow tasks title suffix label fs :
  shown_flows (flow tasks title suffix label fs) = flow tasks title suffix label fs.
Proof. unfold flow_events. by destruct (Py.truthy tasks), show_xml. Qed.

Lemma elem_of_shown e page : e ∈ shown_flows page ↔ e ∈ page ∧ is_flow_event e = true.
Proof. unfold shown_flows. rewrite !list_elem_of_In. apply filter_In. Qed.

(** The diagrams and downloads of one run, by the replies of the model. *)
Lemma shown_pressed :
  Py.strip process_description ≠ [] →
  shown_flows (ui pressed) =
  match prompt_fails show_prompts template with
  | Some _ => []
  | None =>
      match llm Discovery description with
      | Raised _ => []
      | Returned steps =>
          flow (extract_tasks_from_text nd steps)
            "Current Process" " - As-Is" " Download As-Is BPMN" "_as_is.bpmn"
          ++ match llm Analysis [("steps"%string, steps)] with
             | Raised _ => []
             | Returned analysis =>
                 match llm Redesign [("steps"%string, steps);
                                     ("analysis"%string, analysis)] with
                 | Raised _ => []
                 | Returned redesigned =>
                     flow (extract_tasks_from_text nd redesigned)
                       "Redesigned Process" " - To-Be" " Download To-Be BPMN" "_to_be.bpmn"
                 end
             end
      end
  end.
Proof.
  intros Hd. run_all Hd;
    rewrite ?shown_app, ?shown_prompt, ?shown_flow; cbn [shown_flows List.filter is_flow_event stage_error skip_notice app];
    rewrite ?app_nil_r; reflexivity.
Qed.

Lemma download_in_flow l d f tasks title suffix label fs :
  DownloadButton l d f ∈ flow tasks title suffix label fs →
  tasks ≠ []
  ∧ d = Bpmn.generate_enhanced_bpmn_xml tasks (process_name ++ Py.lit suffix)
  ∧ f = file_stem str_lower process_name ++ Py.lit fs.
Proof.
  unfold flow_events. destruct tasks as [|t tasks]; cbn [Py.truthy].
  - by intros ?%elem_of_nil.
  - destruct show_xml; members; intros; destruct_or?; simplify_eq; done.
Qed.

(** What a download button on the page offers. *)
Lemma download_on_page l d f :
  Py.strip process_description ≠ [] →
  DownloadButton l d f ∈ ui pressed →
  ∃ s out suffix fs,
    (s = Discovery ∨ s = Redesign)
    ∧ locals pressed !! result_var s = Some out
    ∧ extract_tasks_from_text nd out ≠ []
    ∧ d = Bpmn.generate_enhanced_bpmn_xml (extract_tasks_from_text nd out)
            (process_name ++ Py.lit suffix)
    ∧ f = file_stem str_lower process_name ++ Py.lit fs
    ∧ (fs = "_as_is.bpmn" ∨ fs = "_to_be.bpmn")%string.
Proof.
  intros Hd H.
  assert (DownloadButton l d f ∈ shown_flows (ui pressed)) as H'
    by (by apply elem_of_shown).
  clear H. revert H'.
  rewrite (shown_pressed Hd),
    (locals_pressed nd str_lower template llm show_xml show_prompts
       process_description process_name Hd).
  cbv zeta.
  destruct (prompt_fails show_prompts template) as [?exn|];
    [by intros ?%elem_of_nil|].
  repeat match goal with
    | |- context [match llm ?s ?a with _ => _ end] =>
        destruct (llm s a) as [?out|?exn] eqn:?
    end;
    rewrite ?elem_of_app, ?elem_of_nil; intros H; destruct_or?; try done.
  all: apply download_in_flow in H as (Ht & -> & ->).
  all: first
    [ by eexists Discovery, _, _, _; split_and!;
        [by left | cbn [result_var]; lookups; reflexivity | exact Ht
        | reflexivity | reflexivity | by left]
    | by eexists Redesign, _, _, _; split_and!;
        [by right | cbn [result_var]; lookups; reflexivity | exact Ht
        | reflexivity | reflexivity | by right] ].
Qed.

(** X17.  Every document offered for download is built from the tasks
    extracted from the text that discovery or redesign returned; those tasks
    are not empty, so the document is never the empty string and is the
    linear chain of those tasks. *)
Theorem download_is_document l d f :
  Py.strip process_description ≠ [] →
  DownloadButton l d f ∈ ui pressed →
  ∃ s out,
    (s = Discovery ∨ s = Redesign)
    ∧ locals pressed !! result_var s = Some out
    ∧ extract_tasks_from_text nd out ≠ []
    ∧ d ≠ Bpmn.EmptyText
    ∧ linear_chain_document (extract_tasks_from_text nd out) d.
Proof.
  intros Hd H.
  destruct (download_on_page l d f Hd H) as (s & out & suffix & fs & Hs & Hl & Ht & -> & _).
  exists s, out. split_and!; try done.
  - rewrite generate_document by done. done.
  - by apply document_is_linear_chain.
Qed.

(** X18.  The file name of a download holds no space. *)
Theorem download_name_no_space l d f :
  Py.strip process_description ≠ [] →
  DownloadButton l d f ∈ ui pressed →
  0x20 ∉ f.
Proof.
  intros Hd H.
  destruct (download_on_page l d f Hd H) as (s & out & suffix & fs & _ & _ & _ & _ & -> & Hfs).
  rewrite not_elem_of_app. split.
  - unfold file_stem. intros (c & Hc & _)%list_elem_of_fmap.
    destruct (N.eqb_spec c 32); [done|]. congruence.
  - destruct Hfs as [-> | ->]; vm_compute; intros H';
      repeat (apply elem_of_cons in H' as [H'|H']; [done|]); by apply elem_of_nil in H'.
Qed.

Lemma chart_in_flow g tasks title suffix label fs :
  GraphvizChart g ∈ flow tasks title suffix label fs →
  tasks ≠ [] ∧ g = Graphviz.create_enhanced_graph tasks (Py.lit title).
Proof.
  unfold flow_events. destruct tasks as [|t tasks]; cbn [Py.truthy].
  - by intros ?%elem_of_nil.
  - destruct show_xml; members; intros; destruct_or?; simplify_eq; done.
Qed.

(** X27.  Every diagram on the page is the diagram of the tasks extracted
    from the text that discovery or redesign returned, under the title of
    that stage; those tasks are not empty. *)
Theorem diagram_is_of_tasks g :
  Py.strip process_description ≠ [] →
  GraphvizChart g ∈ ui pressed →
  ∃ s out (title : string),
    ((s = Discovery ∧ title = "Current Process")
     ∨ (s = Redesign ∧ title = "Redesigned Process"))%string
    ∧ locals pressed !! result_var s = Some out
    ∧ extract_tasks_from_text nd out ≠ []
    ∧ g = Graphviz.create_enhanced_graph (extract_tasks_from_text nd out) (Py.lit title).
Proof.
  intros Hd H.
  assert (GraphvizChart g ∈ shown_flows (ui pressed)) as H'
    by (by apply elem_of_shown).
  clear H. revert H'.
  rewrite (shown_pressed Hd),
    (locals_pressed nd str_lower template llm show_xml show_prompts
       process_description process_name Hd).
  cbv zeta.
  destruct (prompt_fails show_prompts template) as [?exn|];
    [by intros ?%elem_of_nil|].
  repeat match goal with
    | |- context [match llm ?s ?a with _ => _ end] =>
        destruct (llm s a) as [?out|?exn] eqn:?
    end;
    rewrite ?elem_of_app, ?elem_of_nil; intros H; destruct_or?; try done.
  all: apply chart_in_flow in H as (Ht & ->).
  all: first
    [ by eexists Discovery, _, _; split_and!;
        [left; split; reflexivity | cbn [result_var]; lookups; reflexivity | exact Ht
        | reflexivity]
    | by eexists Redesign, _, _; split_and!;
        [right; split; reflexivity | cbn [result_var]; lookups; reflexivity | exact Ht
        | reflexivity] ].
Qed.

Lemma flow_of_discovery out :
  Py.strip process_description ≠ [] →
  Run Discovery description ∈ ui pressed →
  llm Discovery description = Returned out →
  Py.strip out ≠ [] →
  GraphvizChart (Graphviz.create_enhanced_graph (extract_tasks_from_text nd out)
                   (Py.lit "Current Process")) ∈ ui pressed
  ∧ DownloadButton (emoji 0x1F4C4 " Download As-Is BPMN")
      (Bpmn.generate_enhanced_bpmn_xml (extract_tasks_from_text nd out)
         (process_name ++ Py.lit " - As-Is"))
      (file_stem str_lower process_name ++ Py.lit "_as_is.bpmn") ∈ ui pressed.
Proof.
  intros Hd Hrun Hl Hout.
  assert (Py.truthy (extract_tasks_from_text nd out) = true) as Ht.
  { destruct (extract_tasks_from_text nd out) eqn:E; [|done].
    by apply extract_nil_iff in E. }
  assert (∀ e, e ∈ shown_flows (ui pressed) → e ∈ ui pressed) as Hin
    by (by intros e [? _]%elem_of_shown).
  assert (prompt_fails show_prompts template = None) as Hb.
  { apply run_on_page in Hrun. revert Hrun.
    rewrite (summary_pressed nd str_lower template llm show_xml show_prompts
               process_description process_name Hd).
    destruct (prompt_fails show_prompts template); [|done].
    unfold stage_error, skip_notice. members.
    intros H; destruct_or?; simplify_eq. }
  split; apply Hin; rewrite (shown_pressed Hd), Hb, Hl; apply elem_of_app; left;
    unfold flow_events; rewrite Ht; members; in_list.
Qed.

(** X19.  When the call of discovery is made and returns a text that is
    not blank, the diagram of the extracted tasks and the download of
    their document are shown. *)
Theorem discovery_flow_shown out :
  Py.strip process_description ≠ [] →
  Run Discovery description ∈ ui pressed →
  llm Discovery description = Returned out →
  Py.strip out ≠ [] →
  GraphvizChart (Graphviz.create_enhanced_graph (extract_tasks_from_text nd out)
                   (Py.lit "Current Process")) ∈ ui pressed
  ∧ DownloadButton (emoji 0x1F4C4 " Download As-Is BPMN")
      (Bpmn.generate_enhanced_bpmn_xml (extract_tasks_from_text nd out)
         (process_name ++ Py.lit " - As-Is"))
      (file_stem str_lower process_name ++ Py.lit "_as_is.bpmn") ∈ ui pressed.
Proof. apply flow_of_discovery. Qed.

End OrchestrationFlows.

(** ** What a run does not depend on *)

Lemma pressed_blank nd str_lower template llm show_xml show_prompts d name :
  Py.strip d = [] →
  App.pressed nd str_lower template llm show_xml show_prompts d name
  = App.State [App.Error (Py.lit "Please provide a process description!")] ∅.
Proof.
  intros H. unfold App.pressed, App.run_complete_analysis. by rewrite H.
Qed.

(** X20.  The calls made, the errors and notices shown and the results
    stored depend on the description, on the replies of the model and on
    whether showing the prompts raises, and on nothing else: not on the
    toggle of the document, the process name or the tables, and not on
    the toggle of the prompts when reading a prompt does not raise. *)
Theorem run_ignores_display nd nd' str_lower str_lower' template template' llm
        show_xml show_xml' show_prompts show_prompts' d name name' :
  prompt_fails show_prompts template = prompt_fails show_prompts' template' →
  summary (App.ui (App.pressed nd str_lower template llm show_xml show_prompts d name))
  = summary (App.ui (App.pressed nd' str_lower' template' llm show_xml' show_prompts' d name'))
  ∧ App.locals (App.pressed nd str_lower template llm show_xml show_prompts d name)
    = App.locals (App.pressed nd' str_lower' template' llm show_xml' show_prompts' d name').
Proof.
  intros Hb. destruct (Py.strip d) as [|c r] eqn:E.
  - rewrite (pressed_blank nd str_lower template llm show_xml show_prompts d name E).
    rewrite (pressed_blank nd' str_lower' template' llm show_xml' show_prompts' d name' E).
    split; reflexivity.
  - assert (Py.strip d ≠ []) as Hd by (rewrite E; discriminate).
    rewrite (summary_pressed nd str_lower template llm show_xml show_prompts d name Hd).
    rewrite (summary_pressed nd' str_lower' template' llm show_xml' show_prompts' d name' Hd).
    rewrite (locals_pressed nd str_lower template llm show_xml show_prompts d name Hd).
    rewrite (locals_pressed nd' str_lower' template' llm show_xml' show_prompts' d name' Hd).
    rewrite Hb. split; reflexivity.
Qed.

Lemma later_stages_same llm llm' d :
  (∀ s args, s ≠ App.Identification → llm s args = llm' s args) →
  later_stages llm d = later_stages llm' d.
Proof.
  intros H. unfold later_stages.
  rewrite <- (H App.Discovery) by done. destruct (llm App.Discovery _); [|done].
  rewrite <- (H App.Analysis) by done. destruct (llm App.Analysis _); [|done].
  rewrite <- (H App.Redesign) by done. destruct (llm App.Redesign _); [|done].
  by rewrite <- (H App.Monitoring) by done.
Qed.

Lemma later_results_same llm llm' d m :
  (∀ s args, s ≠ App.Identification → llm s args = llm' s args) →
  later_results llm d m = later_results llm' d m.
Proof.
  intros H. unfold later_results.
  rewrite <- (H App.Discovery) by done. destruct (llm App.Discovery _); [|done].
  rewrite <- (H App.Analysis) by done. destruct (llm App.Analysis _); [|done].
  rewrite <- (H App.Redesign) by done. destruct (llm App.Redesign _); [|done].
  by rewrite <- (H App.Monitoring) by done.
Qed.

Lemma later_results_lookup llm d m m' (k : string) :
  m !! k = m' !! k → later_results llm d m !! k = later_results llm d m' !! k.
Proof.
  intros H. unfold later_results.
  destruct (llm App.Discovery _); [|done].
  destruct (llm App.Analysis _); [|by rewrite !lookup_insert, H].
  destruct (llm App.Redesign _); [|by rewrite !lookup_insert, H].
  destruct (llm App.Monitoring _); by rewrite !lookup_insert, H.
Qed.

(** X21.  Nothing reads the result of identification: two models that
    differ on identification only lead to the same calls, results and
    notices for the four other stages. *)
Theorem identification_is_isolated nd str_lower template llm llm' show_xml show_prompts
        d name (s : App.stage) :
  Py.strip d ≠ [] →
  (∀ s args, s ≠ App.Identification → llm s args = llm' s args) →
  s ≠ App.Identification →
  let st := App.pressed nd str_lower template llm show_xml show_prompts d name in
  let st' := App.pressed nd str_lower template llm' show_xml show_prompts d name in
  (∀ args, App.Run s args ∈ App.ui st ↔ App.Run s args ∈ App.ui st')
  ∧ App.locals st !! App.result_var s = App.locals st' !! App.result_var s
  ∧ (skip_notice s ∈ App.ui st ↔ skip_notice s ∈ App.ui st').
Proof.
  intros Hd Hsame Hs st st'. unfold st, st'.
  destruct (prompt_fails show_prompts template) as [e|] eqn:Hb.
  { split_and!.
    - intros args.
      rewrite (run_on_page s args
                 (App.ui (App.pressed nd str_lower template llm show_xml show_prompts d name))).
      rewrite (run_on_page s args
                 (App.ui (App.pressed nd str_lower template llm' show_xml show_prompts d name))).
      by rewrite !summary_pressed, Hb by done.
    - by rewrite !locals_pressed, Hb by done.
    - rewrite (notice_on_page s
                 (App.ui (App.pressed nd str_lower template llm show_xml show_prompts d name))).
      rewrite (notice_on_page s
                 (App.ui (App.pressed nd str_lower template llm' show_xml show_prompts d name))).
      by rewrite !summary_pressed, Hb by done. }
  assert (∀ l, summary (App.ui (App.pressed nd str_lower template l show_xml show_prompts d name))
               = App.Run App.Identification [("description"%string, d)]
                 :: match l App.Identification [("description"%string, d)] with
                    | App.Returned _ => []
                    | App.Raised e => [stage_error App.Identification e]
                    end ++ later_stages l d) as Hsum
    by (intros l;
        rewrite (summary_pressed nd str_lower template l show_xml show_prompts d name Hd), Hb;
        reflexivity).
  assert (∀ l, App.locals (App.pressed nd str_lower template l show_xml show_prompts d name)
               = later_results l d
                   match l App.Identification [("description"%string, d)] with
                   | App.Returned out => <["identification_result"%string := out]> ∅
                   | App.Raised _ => ∅
                   end) as Hloc
    by (intros l;
        rewrite (locals_pressed nd str_lower template l show_xml show_prompts d name Hd), Hb;
        reflexivity).
  split_and!.
  - intros args.
    rewrite (run_on_page s args
               (App.ui (App.pressed nd str_lower template llm show_xml show_prompts d name))).
    rewrite (run_on_page s args
               (App.ui (App.pressed nd str_lower template llm' show_xml show_prompts d name))).
    rewrite !Hsum, <- (later_stages_same llm llm' d Hsame).
    rewrite !elem_of_cons, !elem_of_app.
    destruct (llm App.Identification _), (llm' App.Identification _);
      rewrite ?elem_of_cons, ?elem_of_nil; unfold stage_error;
      split; intros H; destruct_or?; simplify_eq; auto.
  - rewrite !Hloc, <- (later_results_same llm llm' d _ Hsame).
    apply later_results_lookup.
    destruct (llm App.Identification _), (llm' App.Identification _), s; try done;
      cbn [App.result_var];
      repeat first [ rewrite lookup_insert_ne by done | rewrite lookup_empty ]; done.
  - rewrite (notice_on_page s
               (App.ui (App.pressed nd str_lower template llm show_xml show_prompts d name))).
    rewrite (notice_on_page s
               (App.ui (App.pressed nd str_lower template llm' show_xml show_prompts d name))).
    rewrite !Hsum, <- (later_stages_same llm llm' d Hsame).
    rewrite !elem_of_cons, !elem_of_app.
    destruct (llm App.Identification _), (llm' App.Identification _);
      rewrite ?elem_of_cons, ?elem_of_nil; unfold stage_error, skip_notice;
      split; intros H; destruct_or?; simplify_eq; auto.
Qed.

(** ** The templates *)

Lemma template_fields :
  BPMStageTemplates.input_variables BPMStageTemplates.identification_prompt
  = [Py.lit "description"]
  ∧ BPMStageTemplates.input_variables BPMStageTemplates.discovery_prompt
    = [Py.lit "description"]
  ∧ BPMStageTemplates.input_variables BPMStageTemplates.analysis_prompt
    = [Py.lit "steps"]
  ∧ BPMStageTemplates.input_variables BPMStageTemplates.redesign_prompt
    = [Py.lit "steps"; Py.lit "analysis"]
  ∧ BPMStageTemplates.input_variables BPMStageTemplates.monitoring_prompt
    = [Py.lit "redesigned_process"].
Proof. split_and!; by vm_compute. Qed.

(** X22.  Every call of a stage passes exactly the fields of the
    template of that stage, in the order they occur in it: no call can fail
    for a missing input. *)
Theorem call_fills_template nd str_lower template llm show_xml show_prompts d name
        (s : App.stage) args :
  Py.strip d ≠ [] →
  App.Run s args
  ∈ App.ui (App.pressed nd str_lower template llm show_xml show_prompts d name) →
  map (fun kv => Py.lit kv.1) args
  = BPMStageTemplates.input_variables (BPMStageTemplates.template s).
Proof.
  intros Hd Hin.
  pose proof (inputs_of_calls nd str_lower template llm show_xml show_prompts d name
                s args Hd Hin) as H.
  destruct template_fields as (H1 & H2 & H3 & H4 & H5).
  destruct s; cbn [BPMStageTemplates.template].
  - by rewrite H1, H.
  - by rewrite H2, H.
  - destruct H as (steps & _ & ->). by rewrite H3.
  - destruct H as (steps & analysis & _ & _ & ->). by rewrite H4.
  - destruct H as (steps & analysis & redesigned & _ & _ & _ & ->). by rewrite H5.
Qed.

(** ** [main] and [init_llm] *)

Section ScriptFacts.
Import App Script.
Variable nd : char -> bool.
Variable str_lower : str -> str.
Variable template : attribute.
Variable chat_openai : str -> str -> construction.
Variables api_key model_choice : str.
Variable scenario_choice : choice.
Variables show_xml show_prompts : bool.
Variable process_description : str.
Variable name_input : str.
Variable button : bool.

Local Abbreviation main :=
  (main nd str_lower template chat_openai api_key model_choice scenario_choice
     show_xml show_prompts process_description name_input button).
Local Abbreviation the_name := (process_name scenario_choice name_input).

Lemma ev_in_map e page : Ev e ∈ map Ev page ↔ e ∈ page.
Proof.
  rewrite list_elem_of_fmap. split.
  - by intros (e' & [= ->] & H).
  - intros H. by exists e.
Qed.

Lemma run_not_blank llm s args :
  Run s args ∈ ui (pressed nd str_lower template llm show_xml show_prompts
                     process_description the_name) →
  Py.strip process_description ≠ [].
Proof.
  intros H E. rewrite (pressed_blank _ _ _ _ _ _ _ _ E) in H. cbn [ui] in H.
  apply elem_of_cons in H as [H|H]; [done | by apply elem_of_nil in H].
Qed.

(** X23.  A stage is called from the page exactly when an API key was
    entered, the client could be constructed, the button was pressed and the
    description is not blank. *)
Theorem main_calls s args :
  Ev (Run s args) ∈ main ↔
  api_key ≠ []
  ∧ ∃ llm, chat_openai api_key model_choice = Constructed llm
           ∧ button = true
           ∧ Py.strip process_description ≠ []
           ∧ Run s args ∈ ui (pressed nd str_lower template llm show_xml show_prompts
                                process_description the_name).
Proof.
  unfold Script.main, init_llm.
  destruct api_key as [|k0 key] eqn:Ek; cbn [Py.truthy negb].
  - split; [|by intros [? _]].
    rewrite !elem_of_app, !elem_of_cons, !elem_of_nil.
    intros H; destruct_or?; simplify_eq.
  - destruct (chat_openai (k0 :: key) model_choice) as [llm|e] eqn:Ec.
    + cbv beta iota zeta. rewrite !elem_of_app. split.
      * intros [H|[H|[H|[H|H]]]].
        -- rewrite !elem_of_cons, elem_of_nil in H. destruct_or?; simplify_eq.
        -- rewrite !elem_of_cons, elem_of_nil in H. destruct_or?; simplify_eq.
        -- rewrite !elem_of_cons, elem_of_nil in H. destruct_or?; simplify_eq.
        -- unfold sidebar in H. rewrite !elem_of_cons, elem_of_nil in H.
           destruct_or?; simplify_eq.
        -- destruct button; [|by apply elem_of_nil in H].
           apply ev_in_map in H. split; [done|]. exists llm. split_and!; try done.
           by apply (run_not_blank llm s args).
      * intros (_ & llm' & [= <-] & -> & _ & H). do 4 right. by apply ev_in_map.
    + cbv beta iota zeta. split.
      * rewrite !elem_of_app, !elem_of_cons, !elem_of_nil.
        intros H; destruct_or?; simplify_eq.
      * by intros (_ & llm' & ? & _).
Qed.

Local Abbreviation script :=
  (script nd str_lower template chat_openai api_key model_choice scenario_choice
     show_xml show_prompts process_description name_input button).

(** X24.  The client is constructed only when a key was entered, and then
    once, with that key and the chosen model. *)
Theorem script_connects k m :
  Connect k m ∈ script ↔ api_key ≠ [] ∧ k = api_key ∧ m = model_choice.
Proof.
  unfold Script.script, Script.main, init_llm, show_footer.
  destruct api_key as [|k0 key] eqn:Ek; cbn [Py.truthy negb].
  - split; [|by intros [? _]].
    rewrite !elem_of_app, !elem_of_cons, !elem_of_nil.
    intros H; destruct_or?; simplify_eq.
  - destruct (chat_openai (k0 :: key) model_choice) as [llm|e] eqn:Ec;
      cbv beta iota zeta; rewrite !elem_of_app; unfold sidebar;
      rewrite !elem_of_cons, !elem_of_nil.
    + split.
      * intros H. destruct_or?; simplify_eq; try (by split_and!).
        destruct button; [|by apply elem_of_nil in H].
        apply list_elem_of_fmap in H as (? & ? & _). done.
      * intros (_ & -> & ->). left. right. left. by left.
    + split.
      * intros H. destruct_or?; simplify_eq; by split_and!.
      * intros (_ & -> & ->). left. right. left. by left.
Qed.

(** X25.  When the client cannot be constructed, the page is the heading,
    the error of the construction with its message and the error that asks
    to check the key; the sidebar and the stages are not reached. *)
Theorem main_failed_client e :
  api_key ≠ [] →
  chat_openai api_key model_choice = Failed e →
  main =
  [Title (emoji 0x1F680 " LLM for BPM Lifecycle");
   Ev (Markdown intro_text);
   Info (emoji 0x1F511 " **Please provide your OpenAI API key to use this application**");
   Connect api_key model_choice;
   Ev (Error (Py.lit "Error initializing OpenAI API: " ++ e));
   Ev (Error (Py.lit "Failed to initialize OpenAI API. Please check your API key."))].
Proof.
  intros Hk Hc. unfold Script.main, init_llm.
  destruct api_key; [done|]. cbn [Py.truthy negb]. by rewrite Hc.
Qed.

End ScriptFacts.

(** ** Instances *)

Lemma extract_numbered_lines_witness :
  Forall (fun t => t ≠ [] ∧ Py.strip t = t ∧ no_newline t) [Py.lit "Pack"; Py.lit "Ship it"]
  ∧ extract_tasks_from_text (fun _ => false)
      (numbered_lines [Py.lit "Pack"; Py.lit "Ship it"])
    = [Py.lit "Pack"; Py.lit "Ship it"].
Proof.
  assert (Forall (fun t => t ≠ [] ∧ Py.strip t = t ∧ no_newline t)
                 [Py.lit "Pack"; Py.lit "Ship it"]) as H.
  { repeat constructor; try done; vm_compute; repeat constructor; discriminate. }
  split; [exact H | exact (extract_numbered_lines (fun _ => false) _ H)].
Defined.

Lemma document_ids_unique_witness :
  [Py.lit "Pack"; Py.lit "Ship"] ≠ []
  ∧ NoDup (element_ids (Bpmn.generate_enhanced_bpmn_xml [Py.lit "Pack"; Py.lit "Ship"] (Py.lit "Order")))
  ∧ NoDup (flow_ids (Bpmn.generate_enhanced_bpmn_xml [Py.lit "Pack"; Py.lit "Ship"] (Py.lit "Order"))).
Proof.
  split; [discriminate | apply document_ids_unique; discriminate].
Defined.

Lemma graph_linear_chain_witness :
  [Py.lit "Pack"; Py.lit "Ship"] ≠ []
  ∧ length (Graphviz.edges (Graphviz.create_enhanced_graph [Py.lit "Pack"; Py.lit "Ship"] (Py.lit "Flow")))
    = 3%nat.
Proof.
  split; [discriminate|].
  exact (proj2 (proj2 (proj2 (proj2
    (graph_linear_chain [Py.lit "Pack"; Py.lit "Ship"] (Py.lit "Flow") ltac:(discriminate)))))).
Defined.

Lemma document_flows_closed_witness :
  [Py.lit "Pack"] ≠ []
  ∧ Bpmn.flow_dict (chain_flow 1 0)
    ∈ Bpmn.flow_entries (Bpmn.generate_enhanced_bpmn_xml [Py.lit "Pack"] (Py.lit "Order"))
  ∧ ∃ src tgt,
      field (Py.lit "@sourceRef") (Bpmn.flow_dict (chain_flow 1 0)) = Some src
      ∧ field (Py.lit "@targetRef") (Bpmn.flow_dict (chain_flow 1 0)) = Some tgt
      ∧ src ∈ element_ids (Bpmn.generate_enhanced_bpmn_xml [Py.lit "Pack"] (Py.lit "Order"))
      ∧ tgt ∈ element_ids (Bpmn.generate_enhanced_bpmn_xml [Py.lit "Pack"] (Py.lit "Order"))
      ∧ src ≠ tgt ∧ src ≠ Bpmn.end_id ∧ tgt ≠ Bpmn.start_id.
Proof.
  assert (Bpmn.flow_dict (chain_flow 1 0)
          ∈ Bpmn.flow_entries
              (Bpmn.generate_enhanced_bpmn_xml [Py.lit "Pack"] (Py.lit "Order"))) as Hf.
  { vm_compute. left. }
  split; [discriminate|]. split; [exact Hf|].
  exact (document_flows_closed [Py.lit "Pack"] (Py.lit "Order") _ ltac:(discriminate) Hf).
Defined.

Lemma calls_in_order_witness :
  Py.strip (Py.lit "Ship the order") ≠ []
  ∧ ∃ k : nat,
      calls (App.ui (App.pressed (fun _ => false) (fun s => s) App.Present
                       (fun _ _ => App.Returned (Py.lit "1. Pack")) false false
                       (Py.lit "Ship the order") (Py.lit "Order")))
      = take k lifecycle
      ∧ (2 <= k <= 5)%nat.
Proof.
  assert (Py.strip (Py.lit "Ship the order") ≠ []) as Hd by (by vm_compute).
  split; [exact Hd|].
  exact (calls_in_order _ _ _ _ _ _ _ _ Hd).
Defined.

Lemma stage_inputs_witness :
  Py.strip (Py.lit "Ship the order") ≠ []
  ∧ App.Run App.Analysis [("steps", Py.lit "1. Pack")]
    ∈ App.ui (App.pressed (fun _ => false) (fun s => s) App.Present
                (fun _ _ => App.Returned (Py.lit "1. Pack")) false false
                (Py.lit "Ship the order") (Py.lit "Order"))
  ∧ ∃ steps,
      App.Returned (Py.lit "1. Pack") = App.Returned steps
      ∧ [("steps", Py.lit "1. Pack")] = [("steps", steps)].
Proof.
  assert (Py.strip (Py.lit "Ship the order") ≠ []) as Hd by (by vm_compute).
  assert (App.Run App.Analysis [("steps", Py.lit "1. Pack")]
          ∈ App.ui (App.pressed (fun _ => false) (fun s => s) App.Present
                      (fun _ _ => App.Returned (Py.lit "1. Pack")) false false
                      (Py.lit "Ship the order") (Py.lit "Order"))) as Hr.
  { vm_compute. repeat first [apply list_elem_of_here | apply list_elem_of_further]. }
  split; [exact Hd|]. split; [exact Hr|].
  exact (stage_inputs (fun _ => false) (fun s => s) App.Present
           (fun _ _ => App.Returned (Py.lit "1. Pack")) false false
           (Py.lit "Ship the order") (Py.lit "Order") App.Analysis _ Hd Hr).
Defined.

Lemma called_or_skipped_witness :
  Py.strip (Py.lit "Ship the order") ≠ []
  ∧ predecessor App.Analysis = Some App.Discovery
  ∧ (App.attempted App.Analysis
       (App.ui (App.pressed (fun _ => false) (fun s => s) App.Present
                  (fun _ _ => App.Raised (Py.lit "timeout")) false false
                  (Py.lit "Ship the order") (Py.lit "Order")))
     ↔ skip_notice App.Analysis
       ∉ App.ui (App.pressed (fun _ => false) (fun s => s) App.Present
                   (fun _ _ => App.Raised (Py.lit "timeout")) false false
                   (Py.lit "Ship the order") (Py.lit "Order"))).
Proof.
  assert (Py.strip (Py.lit "Ship the order") ≠ []) as Hd by (by vm_compute).
  split; [exact Hd|]. split; [reflexivity|].
  exact (called_or_skipped _ _ _ _ _ _ _ _ App.Analysis App.Discovery Hd eq_refl).
Defined.

Lemma failure_cascades_witness :
  Py.strip (Py.lit "Ship the order") ≠ []
  ∧ App.Run App.Discovery [("description", Py.lit "Ship the order")]
    ∈ App.ui (App.pressed (fun _ => false) (fun s => s) App.Present
                (fun _ _ => App.Raised (Py.lit "timeout")) false false
                (Py.lit "Ship the order") (Py.lit "Order"))
  ∧ (stage_index App.Discovery < stage_index App.Monitoring)%nat
  ∧ ¬ App.attempted App.Monitoring
        (App.ui (App.pressed (fun _ => false) (fun s => s) App.Present
                   (fun _ _ => App.Raised (Py.lit "timeout")) false false
                   (Py.lit "Ship the order") (Py.lit "Order")))
  ∧ skip_notice App.Monitoring
    ∈ App.ui (App.pressed (fun _ => false) (fun s => s) App.Present
                (fun _ _ => App.Raised (Py.lit "timeout")) false false
                (Py.lit "Ship the order") (Py.lit "Order")).
Proof.
  assert (Py.strip (Py.lit "Ship the order") ≠ []) as Hd by (by vm_compute).
  assert (App.Run App.Discovery [("description", Py.lit "Ship the order")]
          ∈ App.ui (App.pressed (fun _ => false) (fun s => s) App.Present
                      (fun _ _ => App.Raised (Py.lit "timeout")) false false
                      (Py.lit "Ship the order") (Py.lit "Order"))) as Hr.
  { exact (attempted_with_output _ _ App.Present _ false false _ _ App.Discovery Hd). }
  assert (stage_index App.Discovery < stage_index App.Monitoring)%nat as Hlt
    by (vm_compute; lia).
  split; [exact Hd|]. split; [exact Hr|]. split; [exact Hlt|].
  exact (failure_cascades (fun _ => false) (fun s => s) App.Present
           (fun _ _ => App.Raised (Py.lit "timeout")) false false
           (Py.lit "Ship the order") (Py.lit "Order")
           App.Discovery App.Monitoring _ (Py.lit "timeout")
           Hd Hr eq_refl ltac:(discriminate) Hlt).
Defined.

Lemma result_iff_returned_witness :
  Py.strip (Py.lit "Ship the order") ≠ []
  ∧ (App.locals (App.pressed (fun _ => false) (fun s => s) App.Present
                   (fun _ _ => App.Returned (Py.lit "1. Pack")) false false
                   (Py.lit "Ship the order") (Py.lit "Order"))
       !! App.result_var App.Discovery = Some (Py.lit "1. Pack")
     ↔ ∃ args,
         App.Run App.Discovery args
         ∈ App.ui (App.pressed (fun _ => false) (fun s => s) App.Present
                     (fun _ _ => App.Returned (Py.lit "1. Pack")) false false
                     (Py.lit "Ship the order") (Py.lit "Order"))
         ∧ App.Returned (Py.lit "1. Pack") = App.Returned (Py.lit "1. Pack")).
Proof.
  assert (Py.strip (Py.lit "Ship the order") ≠ []) as Hd by (by vm_compute).
  split; [exact Hd|].
  exact (result_iff_returned (fun _ => false) (fun s => s) App.Present
           (fun _ _ => App.Returned (Py.lit "1. Pack")) false false
           (Py.lit "Ship the order") (Py.lit "Order")
           App.Discovery (Py.lit "1. Pack") Hd).
Defined.

Lemma download_is_document_witness :
  Py.strip (Py.lit "Ship the order") ≠ []
  ∧ App.DownloadButton (App.emoji 128196 " Download As-Is BPMN")
      (Bpmn.generate_enhanced_bpmn_xml
         (extract_tasks_from_text (fun _ => false) (Py.lit "1. Pack"))
         (Py.lit "Order" ++ Py.lit " - As-Is"))
      (App.file_stem (fun s => s) (Py.lit "Order") ++ Py.lit "_as_is.bpmn")
    ∈ App.ui (App.pressed (fun _ => false) (fun s => s) App.Present
                (fun _ _ => App.Returned (Py.lit "1. Pack")) false false
                (Py.lit "Ship the order") (Py.lit "Order"))
  ∧ ∃ s out,
      (s = App.Discovery ∨ s = App.Redesign)
      ∧ App.locals (App.pressed (fun _ => false) (fun s => s) App.Present
                      (fun _ _ => App.Returned (Py.lit "1. Pack")) false false
                      (Py.lit "Ship the order") (Py.lit "Order"))
        !! App.result_var s = Some out
      ∧ extract_tasks_from_text (fun _ => false) out ≠ []
      ∧ Bpmn.generate_enhanced_bpmn_xml
          (extract_tasks_from_text (fun _ => false) (Py.lit "1. Pack"))
          (Py.lit "Order" ++ Py.lit " - As-Is") ≠ Bpmn.EmptyText
      ∧ linear_chain_document (extract_tasks_from_text (fun _ => false) out)
          (Bpmn.generate_enhanced_bpmn_xml
             (extract_tasks_from_text (fun _ => false) (Py.lit "1. Pack"))
             (Py.lit "Order" ++ Py.lit " - As-Is")).
Proof.
  assert (Py.strip (Py.lit "Ship the order") ≠ []) as Hd by (by vm_compute).
  assert (Py.strip (Py.lit "1. Pack") ≠ []) as Ho by (by vm_compute).
  pose proof (proj2 (flow_of_discovery (fun _ => false) (fun s => s) App.Present
                       (fun _ _ => App.Returned (Py.lit "1. Pack")) false false
                       (Py.lit "Ship the order") (Py.lit "Order") (Py.lit "1. Pack")
                       Hd (attempted_with_output _ _ App.Present _ false false _ _
                             App.Discovery Hd)
                       eq_refl Ho)) as Hb.
  split; [exact Hd|]. split; [exact Hb|].
  exact (download_is_document _ _ _ _ _ _ _ _ _ _ _ Hd Hb).
Defined.

Lemma download_name_no_space_witness :
  Py.strip (Py.lit "Ship the order") ≠ []
  ∧ App.DownloadButton (App.emoji 128196 " Download As-Is BPMN")
      (Bpmn.generate_enhanced_bpmn_xml
         (extract_tasks_from_text (fun _ => false) (Py.lit "1. Pack"))
         (Py.lit "Order Handling" ++ Py.lit " - As-Is"))
      (App.file_stem (fun s => s) (Py.lit "Order Handling") ++ Py.lit "_as_is.bpmn")
    ∈ App.ui (App.pressed (fun _ => false) (fun s => s) App.Present
                (fun _ _ => App.Returned (Py.lit "1. Pack")) false false
                (Py.lit "Ship the order") (Py.lit "Order Handling"))
  ∧ 32 ∉ App.file_stem (fun s => s) (Py.lit "Order Handling") ++ Py.lit "_as_is.bpmn".
Proof.
  assert (Py.strip (Py.lit "Ship the order") ≠ []) as Hd by (by vm_compute).
  assert (Py.strip (Py.lit "1. Pack") ≠ []) as Ho by (by vm_compute).
  pose proof (proj2 (flow_of_discovery (fun _ => false) (fun s => s) App.Present
                       (fun _ _ => App.Returned (Py.lit "1. Pack")) false false
                       (Py.lit "Ship the order") (Py.lit "Order Handling")
                       (Py.lit "1. Pack") Hd
                       (attempted_with_output _ _ App.Present _ false false _ _
                          App.Discovery Hd)
                       eq_refl Ho)) as Hb.
  split; [exact Hd|]. split; [exact Hb|].
  exact (download_name_no_space _ _ _ _ _ _ _ _ _ _ _ Hd Hb).
Defined.

Lemma discovery_flow_shown_witness :
  Py.strip (Py.lit "Ship the order") ≠ []
  ∧ App.Run App.Discovery [("description"%string, Py.lit "Ship the order")]
    ∈ App.ui (App.pressed (fun _ => false) (fun s => s) App.Present
                (fun _ _ => App.Returned (Py.lit "1. Pack")) false false
                (Py.lit "Ship the order") (Py.lit "Order"))
  ∧ Py.strip (Py.lit "1. Pack") ≠ []
  ∧ App.GraphvizChart
      (Graphviz.create_enhanced_graph
         (extract_tasks_from_text (fun _ => false) (Py.lit "1. Pack"))
         (Py.lit "Current Process"))
    ∈ App.ui (App.pressed (fun _ => false) (fun s => s) App.Present
                (fun _ _ => App.Returned (Py.lit "1. Pack")) false false
                (Py.lit "Ship the order") (Py.lit "Order"))
  ∧ App.DownloadButton (App.emoji 128196 " Download As-Is BPMN")
      (Bpmn.generate_enhanced_bpmn_xml
         (extract_tasks_from_text (fun _ => false) (Py.lit "1. Pack"))
         (Py.lit "Order" ++ Py.lit " - As-Is"))
      (App.file_stem (fun s => s) (Py.lit "Order") ++ Py.lit "_as_is.bpmn")
    ∈ App.ui (App.pressed (fun _ => false) (fun s => s) App.Present
                (fun _ _ => App.Returned (Py.lit "1. Pack")) false false
                (Py.lit "Ship the order") (Py.lit "Order")).
Proof.
  assert (Py.strip (Py.lit "Ship the order") ≠ []) as Hd by (by vm_compute).
  assert (Py.strip (Py.lit "1. Pack") ≠ []) as Ho by (by vm_compute).
  assert (App.Run App.Discovery [("description"%string, Py.lit "Ship the order")]
          ∈ App.ui (App.pressed (fun _ => false) (fun s => s) App.Present
                      (fun _ _ => App.Returned (Py.lit "1. Pack")) false false
                      (Py.lit "Ship the order") (Py.lit "Order"))) as Hr.
  { exact (attempted_with_output _ _ App.Present _ false false _ _ App.Discovery Hd). }
  split; [exact Hd|]. split; [exact Hr|]. split; [exact Ho|].
  exact (discovery_flow_shown (fun _ => false) (fun s => s) App.Present
           (fun _ _ => App.Returned (Py.lit "1. Pack")) false false
           (Py.lit "Ship the order") (Py.lit "Order") (Py.lit "1. Pack")
           Hd Hr eq_refl Ho).
Defined.

Lemma identification_is_isolated_witness :
  Py.strip (Py.lit "Ship the order") ≠ []
  ∧ (∀ args,
       App.Run App.Analysis args
       ∈ App.ui (App.pressed (fun _ => false) (fun s => s) App.Present
                   (fun _ _ => App.Returned (Py.lit "1. Pack")) false false
                   (Py.lit "Ship the order") (Py.lit "Order"))
       ↔ App.Run App.Analysis args
         ∈ App.ui (App.pressed (fun _ => false) (fun s => s) App.Present
                     (fun s _ => match s with
                                 | App.Identification => App.Raised (Py.lit "timeout")
                                 | _ => App.Returned (Py.lit "1. Pack")
                                 end) false false
                     (Py.lit "Ship the order") (Py.lit "Order"))).
Proof.
  assert (Py.strip (Py.lit "Ship the order") ≠ []) as Hd by (by vm_compute).
  split; [exact Hd|].
  refine (proj1 (identification_is_isolated (fun _ => false) (fun s => s) App.Present
           (fun _ _ => App.Returned (Py.lit "1. Pack"))
           (fun s _ => match s with
                       | App.Identification => App.Raised (Py.lit "timeout")
                       | _ => App.Returned (Py.lit "1. Pack")
                       end) false false
           (Py.lit "Ship the order") (Py.lit "Order") App.Analysis
           Hd _ ltac:(discriminate))).
  intros [] args Hs; first [reflexivity | by destruct Hs].
Defined.

Lemma call_fills_template_witness :
  Py.strip (Py.lit "Ship the order") ≠ []
  ∧ App.Run App.Discovery [("description", Py.lit "Ship the order")]
    ∈ App.ui (App.pressed (fun _ => false) (fun s => s) App.Present
                (fun _ _ => App.Returned (Py.lit "1. Pack")) false false
                (Py.lit "Ship the order") (Py.lit "Order"))
  ∧ map (fun kv : string * list N => Py.lit kv.1)
      [("description", Py.lit "Ship the order")]
    = BPMStageTemplates.input_variables (BPMStageTemplates.template App.Discovery).
Proof.
  assert (Py.strip (Py.lit "Ship the order") ≠ []) as Hd by (by vm_compute).
  assert (App.Run App.Discovery [("description", Py.lit "Ship the order")]
          ∈ App.ui (App.pressed (fun _ => false) (fun s => s) App.Present
                      (fun _ _ => App.Returned (Py.lit "1. Pack")) false false
                      (Py.lit "Ship the order") (Py.lit "Order"))) as Hr.
  { exact (attempted_with_output _ _ App.Present _ false false _ _ App.Discovery Hd). }
  split; [exact Hd|]. split; [exact Hr|].
  exact (call_fills_template _ _ _ _ _ _ _ _ _ _ Hd Hr).
Defined.

Lemma main_failed_client_witness :
  Py.lit "sk-test" ≠ []
  ∧ Script.main (fun _ => false) (fun s => s) App.Present
      (fun _ _ => Script.Failed (Py.lit "invalid key"))
      (Py.lit "sk-test") (Py.lit "gpt-4") Script.CustomInput false false
      (Py.lit "Ship the order") (Py.lit "Order") true
    = [Script.Title (App.emoji 128640 " LLM for BPM Lifecycle");
       Script.Ev (App.Markdown Script.intro_text);
       Script.Info
         (App.emoji 128273
            " **Please provide your OpenAI API key to use this application**");
       Script.Connect (Py.lit "sk-test") (Py.lit "gpt-4");
       Script.Ev (App.Error (Py.lit "Error initializing OpenAI API: "
                             ++ Py.lit "invalid key"));
       Script.Ev
         (App.Error
            (Py.lit "Failed to initialize OpenAI API. Please check your API key."))].
Proof.
  split; [discriminate|].
  exact (main_failed_client (fun _ => false) (fun s => s) App.Present
           (fun _ _ => Script.Failed (Py.lit "invalid key"))
           (Py.lit "sk-test") (Py.lit "gpt-4") Script.CustomInput false false
           (Py.lit "Ship the order") (Py.lit "Order") true (Py.lit "invalid key")
           ltac:(discriminate) eq_refl).
Defined.

Lemma run_ignores_display_witness :
  prompt_fails true App.Present
  = prompt_fails false
      (App.Missing (Py.lit "'ChatPromptTemplate' object has no attribute 'template'"))
  ∧ summary (App.ui (App.pressed (fun _ => false) (fun s => s) App.Present
                       (fun _ _ => App.Returned (Py.lit "1. Pack")) true true
                       (Py.lit "Ship the order") (Py.lit "Order")))
    = summary (App.ui (App.pressed (fun _ => true) (fun s => s)
                         (App.Missing
                            (Py.lit "'ChatPromptTemplate' object has no attribute 'template'"))
                         (fun _ _ => App.Returned (Py.lit "1. Pack")) false false
                         (Py.lit "Ship the order") (Py.lit "Shipping"))).
Proof.
  split; [reflexivity|].
  exact (proj1 (run_ignores_display (fun _ => false) (fun _ => true) (fun s => s) (fun s => s)
                  App.Present
                  (App.Missing
                     (Py.lit "'ChatPromptTemplate' object has no attribute 'template'"))
                  (fun _ _ => App.Returned (Py.lit "1. Pack")) true false true false
                  (Py.lit "Ship the order") (Py.lit "Order") (Py.lit "Shipping") eq_refl)).
Defined.

Lemma prompts_block_calls_witness :
  Py.strip (Py.lit "Ship the order") ≠ []
  ∧ calls (App.ui (App.pressed (fun _ => false) (fun s => s)
                     (App.Missing
                        (Py.lit "'ChatPromptTemplate' object has no attribute 'template'"))
                     (fun _ _ => App.Returned (Py.lit "1. Pack")) false true
                     (Py.lit "Ship the order") (Py.lit "Order")))
    = [].
Proof.
  assert (Py.strip (Py.lit "Ship the order") ≠ []) as Hd by (by vm_compute).
  split; [exact Hd|].
  exact (proj1 (prompts_block_calls (fun _ => false) (fun s => s)
                  (App.Missing
                     (Py.lit "'ChatPromptTemplate' object has no attribute 'template'"))
                  (fun _ _ => App.Returned (Py.lit "1. Pack")) false true
                  (Py.lit "Ship the order") (Py.lit "Order")
                  (Py.lit "'ChatPromptTemplate' object has no attribute 'template'")
                  Hd eq_refl eq_refl)).
Defined.

Lemma diagram_is_of_tasks_witness :
  Py.strip (Py.lit "Ship the order") ≠ []
  ∧ App.GraphvizChart
      (Graphviz.create_enhanced_graph
         (extract_tasks_from_text (fun _ => false) (Py.lit "1. Pack"))
         (Py.lit "Current Process"))
    ∈ App.ui (App.pressed (fun _ => false) (fun s => s) App.Present
                (fun _ _ => App.Returned (Py.lit "1. Pack")) false false
                (Py.lit "Ship the order") (Py.lit "Order"))
  ∧ ∃ s out (title : string),
      ((s = App.Discovery ∧ title = "Current Process")
       ∨ (s = App.Redesign ∧ title = "Redesigned Process"))%string
      ∧ App.locals (App.pressed (fun _ => false) (fun s => s) App.Present
                      (fun _ _ => App.Returned (Py.lit "1. Pack")) false false
                      (Py.lit "Ship the order") (Py.lit "Order"))
        !! App.result_var s = Some out
      ∧ extract_tasks_from_text (fun _ => false) out ≠ []
      ∧ Graphviz.create_enhanced_graph
          (extract_tasks_from_text (fun _ => false) (Py.lit "1. Pack"))
          (Py.lit "Current Process")
        = Graphviz.create_enhanced_graph (extract_tasks_from_text (fun _ => false) out)
            (Py.lit title).
Proof.
  assert (Py.strip (Py.lit "Ship the order") ≠ []) as Hd by (by vm_compute).
  assert (Py.strip (Py.lit "1. Pack") ≠ []) as Ho by (by vm_compute).
  pose proof (proj1 (flow_of_discovery (fun _ => false) (fun s => s) App.Present
                       (fun _ _ => App.Returned (Py.lit "1. Pack")) false false
                       (Py.lit "Ship the order") (Py.lit "Order") (Py.lit "1. Pack")
                       Hd (attempted_with_output _ _ App.Present _ false false _ _
                             App.Discovery Hd)
                       eq_refl Ho)) as Hg.
  split; [exact Hd|]. split; [exact Hg|].
  exact (diagram_is_of_tasks _ _ _ _ _ _ _ _ _ Hd Hg).
Defined.
